(** * Elixi-AI learning core: memory store, preference store, habit miner
      and suggestion engine, embedded from [src/python-core].

    The Python managers are thin layers over a MongoDB database.  The
    embedding has three layers:

    - [Py]: the Python values the managers put in documents, dictionaries
      with string keys, [KeyError], stable sorting, [Counter];
    - [Mongo]: the fragment of the document store the managers call
      (filters, [find], [sort], [limit], [update_one], [update_many],
      [insert_one]);
    - one module per source file, each method translated line by line:
      [MemoryManager], [PreferenceManager], [HabitLearningEngine],
      [SuggestionEngine].  Further methods of the same files follow in
      [MemoryMaintenance], [PreferenceReview], [PreferencePatterns] and
      [HabitFeedback], with the store calls they add in [MongoOps].

    Modelling conventions.
    - An instant is an integer number of microseconds.  A field written as
      [datetime.utcnow().isoformat()] is the value [VTime t]: ISO-8601
      strings of naive datetimes compare, as strings, in the order of the
      instants they denote.  [datetime] holds the instants of the years 1
      to 9999 and [timedelta] at most 999999999 days: date arithmetic that
      leaves these ranges raises [OverflowError], with the texts of
      CPython.  The clock readings taken during one method call are one
      instant [now].
    - A Python float is a rational number of [Q].
    - Strings are byte strings; [lower] lowers the ASCII letters.
    - Documents are typed as the writers of the store fill them: an array
      holds strings ([tags]), a nested document maps strings to strings
      ([event_data], [context]).  Where the source would raise on a field
      of another type ([None.lower()], [len(5)]) the embedding raises the
      same exception; the exceptions of the driver (network, server) are
      outside the model.
    - scikit-learn's vectorizer and MongoDB's regular expressions are
      collaborators outside the repository: they are section variables. *)

From Stdlib Require Import ZArith QArith String Ascii List Bool Lia Lqa Sorted.
From stdpp Require Import base gmap strings list fin_maps pretty sorting.

Local Open Scope string_scope.
Local Open Scope Z_scope.
Local Open Scope list_scope.

(* ===================================================================== *)
(** ** Python values, dictionaries, exceptions                            *)
(* ===================================================================== *)

Module Py.

Inductive value :=
| VNone
| VBool (b : bool)
| VInt (n : Z)
| VNum (q : Q)
| VStr (s : string)
| VTime (t : Z)
| VList (l : list string)
| VDict (d : gmap string string).

#[global] Instance Q_eq_dec : EqDecision Q.
Proof. solve_decision. Defined.

#[global] Instance value_eq_dec : EqDecision value.
Proof. solve_decision. Defined.

(** A Python [dict] with string keys; also a BSON document. *)
Abbreviation dict := (gmap string value).

(** [d.get(k)] is [d !! k]; [d.get(k, default)] is [get d k default]. *)
Definition get (d : dict) (k : string) (default : value) : value :=
  match d !! k with Some v => v | None => default end.

(** The exceptions that the embedded code can raise. *)
Inductive exception :=
| KeyError (key : string)
| IndexError (message : string)
| AttributeError (message : string)
| TypeError (message : string)
| OverflowError (message : string)
| OperationFailure (message : string).

(** [str(e)] *)
Definition str (e : exception) : string :=
  match e with
  | KeyError k => "'" +:+ k +:+ "'"
  | IndexError m | AttributeError m | TypeError m | OverflowError m
  | OperationFailure m => m
  end.

(** [type(v).__name__] *)
Definition type_name (v : value) : string :=
  match v with
  | VNone => "NoneType"
  | VBool _ => "bool"
  | VInt _ => "int"
  | VNum _ => "float"
  | VStr _ | VTime _ => "str"
  | VList _ => "list"
  | VDict _ => "dict"
  end.

(** [bool(v)] *)
Definition truthy (v : value) : bool :=
  match v with
  | VNone => false
  | VBool b => b
  | VInt n => negb (n =? 0)
  | VNum q => negb (Qeq_bool q 0)
  | VStr s => match s with EmptyString => false | _ => true end
  | VTime _ => true
  | VList l => match l with [] => false | _ => true end
  | VDict d => negb (bool_decide (d = ∅))
  end.

(** Computations that return or raise. *)
Definition py (A : Type) : Type := (exception + A)%type.

Definition ret {A} (a : A) : py A := inr a.
Definition raise {A} (e : exception) : py A := inl e.
Definition bind {A B} (m : py A) (k : A -> py B) : py B :=
  match m with
  | inl e => inl e
  | inr a => k a
  end.

(** [d[k]] *)
Definition getitem (d : dict) (k : string) : py value :=
  match d !! k with
  | Some v => ret v
  | None => raise (KeyError k)
  end.

(** A [for] loop whose body may raise. *)
Fixpoint for_each {A S} (body : S -> A -> py S) (acc : S) (l : list A) : py S :=
  match l with
  | [] => ret acc
  | x :: l' => bind (body acc x) (fun acc' => for_each body acc' l')
  end.

(** What every public method returns: [{"success": True, ...}] or
    [{"success": False, "error": ...}]. *)
Inductive result (A : Type) :=
| Success (payload : A)
| Failure (error : string).
Arguments Success {A} payload.
Arguments Failure {A} error.

#[global] Instance exception_eq_dec : EqDecision exception.
Proof. solve_decision. Defined.

#[global] Instance result_eq_dec {A} `{EqDecision A} : EqDecision (result A).
Proof. solve_decision. Defined.

Definition is_success {A} (r : result A) : bool :=
  match r with Success _ => true | Failure _ => false end.

(** [try: ... except Exception as e: return {"success": False, "error": str(e)}] *)
Definition catch {A} (m : py A) : result A :=
  match m with
  | inr a => Success a
  | inl e => Failure (str e)
  end.

(** Truth value of a string, [if s:]. *)
Definition nonempty (s : string) : bool :=
  match s with EmptyString => false | _ => true end.

(** [s.lower()] on ASCII. *)
Definition lower_ascii (c : ascii) : ascii :=
  let n := nat_of_ascii c in
  if ((65 <=? n) && (n <=? 90))%nat then ascii_of_nat (n + 32) else c.

Fixpoint lower (s : string) : string :=
  match s with
  | EmptyString => EmptyString
  | String c s' => String (lower_ascii c) (lower s')
  end.

(** [needle in haystack] on strings. *)
Fixpoint contains (needle haystack : string) : bool :=
  String.prefix needle haystack ||
  match haystack with
  | EmptyString => false
  | String _ h' => contains needle h'
  end.

(** [sorted]/[list.sort]: stable; [before x y] says that [x] may stand
    before [y].  With [reverse=True] Python keeps the original order of
    equal keys, which is this sort with [before x y := key y <= key x]. *)
Section Sort.
Context {A : Type} (before : A -> A -> bool).

Fixpoint insert_sorted (x : A) (l : list A) : list A :=
  match l with
  | [] => [x]
  | y :: l' => if before x y then x :: y :: l' else y :: insert_sorted x l'
  end.

Definition sort (l : list A) : list A := foldr insert_sorted [] l.
End Sort.

(** [collections.Counter] and [defaultdict(int)], in insertion order. *)
Section Counter.
Context {K : Type} `{EqDecision K}.

Definition counter := list (K * Z).

(** [c[k] += 1] *)
Fixpoint incr (k : K) (c : counter) : counter :=
  match c with
  | [] => [(k, 1)]
  | (k', n) :: c' =>
      if bool_decide (k = k') then (k', n + 1) :: c' else (k', n) :: incr k c'
  end.

(** [Counter(l)] *)
Definition count_all (l : list K) : counter :=
  fold_left (fun c k => incr k c) l [].

(** [Counter.most_common(n)]: by count, largest first, ties in
    insertion order. *)
Definition most_common (n : nat) (c : counter) : counter :=
  take n (sort (fun x y => x.2 >=? y.2) c).

(** [sum(counter.values())] *)
Definition total (c : counter) : Z := fold_right (fun kv s => kv.2 + s) 0 c.
End Counter.

(** [event.get("event_data", {}).get(k)] *)
Definition event_data_get (e : dict) (k : string) : py (option string) :=
  match e !! "event_data" with
  | None => ret None
  | Some (VDict d) => ret (d !! k)
  | Some v => raise (AttributeError
                       ("'" +:+ type_name v +:+ "' object has no attribute 'get'"))
  end.

(** A value compared with a float by the operator [op], [v > 0.7]. *)
Definition as_float (op : string) (v : value) : py Q :=
  match v with
  | VNum q => ret q
  | VInt n => ret (inject_Z n)
  | VBool b => ret (if b then 1 else 0)%Q
  | v => raise (TypeError ("'" +:+ op +:+ "' not supported between instances of '"
                           +:+ type_name v +:+ "' and 'float'"))
  end.

(** [f"{v}"] for the values that the embedded code formats: strings,
    integers, booleans and [None]. *)
Definition format (v : option value) : string :=
  match v with
  | Some (VStr s) => s
  | Some (VInt n) => pretty n
  | Some (VBool true) => "True"
  | Some (VBool false) => "False"
  | _ => "None"
  end.

(** [s.split(sep)] for a separator that is not empty. *)
Fixpoint split_from (sep : string) (skip : nat) (piece : string) (s : string)
  : list string :=
  match s with
  | EmptyString => [piece]
  | String c s' =>
      match skip with
      | S k => split_from sep k piece s'
      | O =>
          if String.prefix sep s
          then piece :: split_from sep (String.length sep - 1) "" s'
          else split_from sep 0 (piece +:+ String c EmptyString) s'
      end
  end.

Definition split (sep s : string) : list string := split_from sep 0 "" s.

(** [l[i]] *)
Definition index {A} (l : list A) (i : nat) : py A :=
  match l !! i with
  | Some x => ret x
  | None => raise (IndexError "list index out of range")
  end.

(** A field that the writers of the store fill with a string; a value of
    another type reads as the empty string. *)
Definition str_field (d : dict) (k : string) : string :=
  match d !! k with
  | Some (VStr s) => s
  | _ => ""
  end.

(** Comparison of floats. *)
Definition Qltb (a b : Q) : bool := negb (Qle_bool b a).

(** [min(a, b)] and [max(a, b)]: the first argument wins a tie. *)
Definition qmin (a b : Q) : Q := if Qltb b a then b else a.
Definition qmax (a b : Q) : Q := if Qltb a b then b else a.

(** [max(0, min(1, x))] *)
Definition clamp01 (x : Q) : Q := qmax 0 (qmin 1 x).

(** [l[:n]] *)
Definition slice_to {A} (n : Z) (l : list A) : list A :=
  if 0 <=? n then take (Z.to_nat n) l
  else take (length l - Z.to_nat (- n))%nat l.

End Py.

Import Py.

(* ===================================================================== *)
(** ** The document store                                                 *)
(* ===================================================================== *)

(** The fragment of MongoDB that the managers use.  Documents are [dict]s
    (the [_id] field, always projected away by the callers, is left out);
    a collection is the list of its documents in insertion order. *)

Module Mongo.

Abbreviation collection := (list dict).

(** Equality of two BSON values; numbers compare by value. *)
Definition value_eqb (a b : value) : bool :=
  match a, b with
  | VInt m, VInt n => m =? n
  | VNum p, VNum q => Qeq_bool p q
  | VInt m, VNum q | VNum q, VInt m => Qeq_bool (inject_Z m) q
  | _, _ => bool_decide (a = b)
  end.

(** Strict order inside one BSON type; values of different types are
    not comparable by [$lt]/[$gte] (type bracketing). *)
Definition value_ltb (a b : value) : bool :=
  match a, b with
  | VTime s, VTime t => s <? t
  | VStr s, VStr t => String.ltb s t
  | VInt m, VInt n => m <? n
  | VNum p, VNum q => Qltb p q
  | VInt m, VNum q => Qltb (inject_Z m) q
  | VNum q, VInt m => Qltb q (inject_Z m)
  | VBool x, VBool y => negb x && y
  | _, _ => false
  end.

Definition value_leb (a b : value) : bool := value_ltb a b || value_eqb a b.

(** The operators on one field. *)
Inductive cond :=
| CEq (v : value)                     (* {"f": v} *)
| CLt (v : value)                     (* {"f": {"$lt": v}} *)
| CGte (v : value)                    (* {"f": {"$gte": v}} *)
| CIn (vs : list value)               (* {"f": {"$in": vs}} *)
| CExists (b : bool)                  (* {"f": {"$exists": b}} *)
| CRegex (search : string -> bool).    (* {"f": {"$regex": p, "$options": o}}, compiled *)

(** A field that holds an array matches when one of its elements does. *)
Definition elements (fv : value) : list value :=
  match fv with
  | VList l => fv :: map VStr l
  | _ => [fv]
  end.

Definition eq_match (fv : option value) (v : value) : bool :=
  match fv with
  | None => value_eqb VNone v
  | Some x => existsb (fun e => value_eqb e v) (elements x)
  end.

Definition cond_match (fv : option value) (c : cond) : bool :=
  match c with
  | CEq v => eq_match fv v
  | CLt v =>
      match fv with
      | Some x => existsb (fun e => value_ltb e v) (elements x)
      | None => false
      end
  | CGte v =>
      match fv with
      | Some x => existsb (fun e => value_leb v e) (elements x)
      | None => false
      end
  | CIn vs => existsb (eq_match fv) vs
  | CExists b => Bool.eqb (bool_decide (is_Some fv)) b
  | CRegex search =>
      match fv with
      | Some (VStr s) => search s
      | Some (VList l) => existsb search l
      | _ => false
      end
  end.

(** A filter document: field conditions and at most one [$or] of
    alternatives, all of which must hold. *)
Inductive clause :=
| Field (name : string) (c : cond)
| Or (alternatives : list (list (string * cond))).

Abbreviation query := (list clause).

Definition fields_match (d : dict) (fs : list (string * cond)) : bool :=
  forallb (fun fc => cond_match (d !! fc.1) fc.2) fs.

Definition clause_match (d : dict) (c : clause) : bool :=
  match c with
  | Field name c => cond_match (d !! name) c
  | Or alternatives => existsb (fields_match d) alternatives
  end.

Definition matches (q : query) (d : dict) : bool := forallb (clause_match d) q.

(** [collection.find(q)] *)
Definition find (q : query) (c : collection) : collection := List.filter (matches q) c.

(** [collection.find_one(q)] *)
Definition find_one (q : query) (c : collection) : option dict := List.find (matches q) c.

(** [collection.count_documents(q)] *)
Definition count_documents (q : query) (c : collection) : nat := length (find q c).

(** The order of [sort]: null and missing first, then numbers, strings,
    documents, arrays, booleans; timestamps are strings.  Documents and
    arrays are not ordered further: no sort key of the source holds one. *)
Definition type_rank (v : value) : Z :=
  match v with
  | VNone => 0
  | VInt _ | VNum _ => 1
  | VStr _ | VTime _ => 2
  | VDict _ => 3
  | VList _ => 4
  | VBool _ => 5
  end.

Definition sort_key (d : dict) (field : string) : value := get d field VNone.

Definition key_ltb (a b : value) : bool :=
  (type_rank a <? type_rank b) || value_ltb a b.

Inductive direction := Ascending | Descending.

(** [x] stands strictly before [y] under the sort specification. *)
Fixpoint strictly_before (spec : list (string * direction)) (x y : dict) : bool :=
  match spec with
  | [] => false
  | (f, dir) :: spec' =>
      let a := sort_key x f in
      let b := sort_key y f in
      let lt := match dir with Ascending => key_ltb a b | Descending => key_ltb b a end in
      let gt := match dir with Ascending => key_ltb b a | Descending => key_ltb a b end in
      lt || (negb gt && strictly_before spec' x y)
  end.

(** [cursor.sort(spec)]: documents with equal keys keep their order. *)
Definition sort_by (spec : list (string * direction)) (c : collection) : collection :=
  sort (fun x y => negb (strictly_before spec y x)) c.

(** [cursor.limit(n)]: 0 is no limit, a negative limit is its absolute
    value. *)
Definition limit (n : Z) (c : collection) : collection :=
  if n =? 0 then c else take (Z.abs_nat n) c.

(** Update operators.  [$inc] of a missing field sets it, of a field that
    is not a number is refused by the server. *)
Inductive op :=
| Set_ (field : string) (v : value)
| Inc (field : string) (n : Z).

Abbreviation update := (list op).

Definition apply_op (d : dict) (o : op) : py dict :=
  match o with
  | Set_ f v => ret (<[f := v]> d)
  | Inc f n =>
      match d !! f with
      | None => ret (<[f := VInt n]> d)
      | Some (VInt m) => ret (<[f := VInt (m + n)]> d)
      | Some (VNum q) => ret (<[f := VNum (q + inject_Z n)]> d)
      | Some _ =>
          raise (OperationFailure ("Cannot apply $inc to a value of non-numeric type"))
      end
  end.

Definition apply_update (u : update) (d : dict) : py dict := for_each apply_op d u.

(** [{"$set": fields}] for a Python dict literal. *)
Definition set_fields (fields : list (string * value)) : update :=
  map (fun kv => Set_ kv.1 kv.2) fields.

(** [update_one(q, u)]: the first matching document is updated; the
    result carries [matched_count]. *)
Fixpoint update_one (q : query) (u : update) (c : collection) : py (collection * nat) :=
  match c with
  | [] => ret ([], 0%nat)
  | d :: c' =>
      if matches q d then
        bind (apply_update u d) (fun d' => ret (d' :: c', 1%nat))
      else
        bind (update_one q u c') (fun r => ret (d :: r.1, r.2))
  end.

(** [update_many(q, u)]: every matching document is updated; the result
    carries [modified_count]. *)
Fixpoint update_many (q : query) (u : update) (c : collection) : py (collection * nat) :=
  match c with
  | [] => ret ([], 0%nat)
  | d :: c' =>
      if matches q d then
        bind (apply_update u d) (fun d' =>
        bind (update_many q u c') (fun r =>
        ret (d' :: r.1, if bool_decide (d' = d) then r.2 else S r.2)))
      else
        bind (update_many q u c') (fun r => ret (d :: r.1, r.2))
  end.

(** [insert_one(d)] *)
Definition insert_one (d : dict) (c : collection) : collection := c ++ [d].

(** The document that [update_one(q, u, upsert=True)] inserts when
    nothing matches: the equality fields of the filter, then the update. *)
Definition upsert_seed (q : query) : dict :=
  fold_left (fun d cl =>
               match cl with
               | Field f (CEq v) => <[f := v]> d
               | _ => d
               end) q ∅.

Definition update_one_upsert (q : query) (u : update) (c : collection)
  : py (collection * nat) :=
  bind (update_one q u c) (fun r =>
    match r.2 with
    | O => bind (apply_update u (upsert_seed q)) (fun d => ret (insert_one d c, 0%nat))
    | S _ => ret r
    end).

End Mongo.

Import Mongo.

(* ===================================================================== *)
(** ** The database handle                                                *)
(* ===================================================================== *)

(** [self.db]: the collections the managers address by name.  A manager
    built without a database has [self.db = None]. *)
Record database := {
  memories : collection;
  events : collection;
  user_preferences : collection;
  preference_history : collection;
  user_patterns : collection;
  suggestions : collection;
}.

#[global] Instance database_eq_dec : EqDecision database.
Proof. solve_decision. Defined.

Definition set_memories (c : collection) (db : database) : database :=
  {| memories := c; events := events db; user_preferences := user_preferences db;
     preference_history := preference_history db; user_patterns := user_patterns db;
     suggestions := suggestions db |}.

Definition set_events (c : collection) (db : database) : database :=
  {| memories := memories db; events := c; user_preferences := user_preferences db;
     preference_history := preference_history db; user_patterns := user_patterns db;
     suggestions := suggestions db |}.

Definition set_user_preferences (c : collection) (db : database) : database :=
  {| memories := memories db; events := events db; user_preferences := c;
     preference_history := preference_history db; user_patterns := user_patterns db;
     suggestions := suggestions db |}.

Definition set_preference_history (c : collection) (db : database) : database :=
  {| memories := memories db; events := events db; user_preferences := user_preferences db;
     preference_history := c; user_patterns := user_patterns db;
     suggestions := suggestions db |}.

Definition set_user_patterns (c : collection) (db : database) : database :=
  {| memories := memories db; events := events db; user_preferences := user_preferences db;
     preference_history := preference_history db; user_patterns := c;
     suggestions := suggestions db |}.

Definition set_suggestions (c : collection) (db : database) : database :=
  {| memories := memories db; events := events db; user_preferences := user_preferences db;
     preference_history := preference_history db; user_patterns := user_patterns db;
     suggestions := c |}.

Definition empty_database : database :=
  {| memories := []; events := []; user_preferences := []; preference_history := [];
     user_patterns := []; suggestions := [] |}.

(** The frame of every public method:
<<
    collection = self.get_collection(...)
    if collection is None:
        return {"success": False, "error": "Database not configured"}
    try:
        body
    except Exception as e:
        return {"success": False, "error": str(e)}
>>
    A method framed this way does not raise after it has written, so a
    raising body leaves the database as it was; [cleanup_old_memories],
    which can raise between two writes, has a frame of its own. *)
Definition method {A} (self_db : option database)
    (body : database -> py (result A * database)) : result A * option database :=
  match self_db with
  | None => (Failure "Database not configured", None)
  | Some db =>
      match body db with
      | inr (r, db') => (r, Some db')
      | inl e => (Failure (str e), Some db)
      end
  end.

Definition day : Z := 86400000000.

(** [int(time.time() * 1000)] *)
Definition millis (now : Z) : Z := now / 1000.

(** [datetime.min] and [datetime.max]: 0001-01-01T00:00:00 and
    9999-12-31T23:59:59.999999. *)
Definition datetime_min : Z := -62135596800000000.
Definition datetime_max : Z := 253402300799999999.

(** [timedelta(days=days)], in microseconds.  The number of days is
    first converted to a C [int], then checked against the range of
    [timedelta]. *)
Definition timedelta (days : Z) : py Z :=
  if (days <? -2147483648) || (2147483647 <? days)
  then raise (OverflowError "Python int too large to convert to C int")
  else if 999999999 <? Z.abs days
  then raise (OverflowError ("days=" +:+ pretty days
                             +:+ "; must have magnitude <= 999999999"))
  else ret (days * day).

(** [t + delta] for a [datetime] and a [timedelta]. *)
Definition datetime_add (t delta : Z) : py Z :=
  if (datetime_min <=? t + delta) && (t + delta <=? datetime_max)
  then ret (t + delta)
  else raise (OverflowError "date value out of range").

(** [datetime.utcnow() - timedelta(days=days)] and
    [datetime.utcnow() + timedelta(days=days)] *)
Definition days_before (now days : Z) : py Z :=
  bind (timedelta days) (fun delta => datetime_add now (- delta)).

Definition days_after (now days : Z) : py Z :=
  bind (timedelta days) (fun delta => datetime_add now delta).

(** A Python dict literal. *)
Definition mkdict (fields : list (string * value)) : dict := list_to_map fields.

(* ===================================================================== *)
(** ** memory/memory_manager.py                                           *)
(* ===================================================================== *)

Module MemoryManager.

Section Collaborators.

(** MongoDB's regular expressions: [re_compile pattern options] is the
    search predicate of the pattern, or the server's refusal. *)
Variable re_compile : string -> string -> py (string -> bool).

(** scikit-learn: a fitted [TfidfVectorizer(stop_words='english',
    max_features=100)]; [fit] is [None] where [vectorizer.fit] raises;
    [cosine v query content] is the entry of
    [cosine_similarity(v.transform([query]), v.transform(contents))]
    for one content. *)
Variable vectorizer : Type.
Variable fit : list string -> option vectorizer.
Variable cosine : vectorizer -> string -> string -> Q.

Definition save_memory (now : Z) (memory_type content : string)
    (context : option (gmap string string)) (tags : option (list string))
    (importance : string) (self_db : option database)
  : result string * option database :=
  method self_db (fun db =>
    let memory := mkdict [
      ("memory_id", VStr ("mem_" +:+ pretty (millis now)));
      ("type", VStr memory_type);
      ("content", VStr content);
      ("timestamp", VTime now);
      ("context", VDict (default ∅ context));
      ("tags", VList (default [] tags));
      ("importance", VStr importance);
      ("relevance_score", VNum 1);
      ("expiry_date", VNone);
      ("archived", VBool false);
      ("access_count", VInt 0);
      ("last_accessed", VNone) ] in
    ret (Success ("mem_" +:+ pretty (millis now)),
         set_memories (insert_one memory (memories db)) db)).

(** [if memory_type: query["type"] = memory_type] *)
Definition type_clause (memory_type : option string) : query :=
  match memory_type with
  | Some t => if nonempty t then [Field "type" (CEq (VStr t))] else []
  | None => []
  end.

(** [{"high": 2, "medium": 1, "low": 0}.get(m.get("importance", "low"), 0)] *)
Definition importance_rank (m : dict) : Z :=
  match get m "importance" (VStr "low") with
  | VStr "high" => 2
  | VStr "medium" => 1
  | _ => 0
  end.

(** [m.get("similarity_score", 0)] as a float. *)
Definition similarity_of (m : dict) : Q :=
  match get m "similarity_score" (VInt 0) with
  | VNum q => q
  | VInt n => inject_Z n
  | _ => 0
  end.

(** The sort key of [semantic_search],
<<
    (-m.get("similarity_score", 0), rank, m.get("timestamp", ""))
>>
    compared as Python compares tuples.  Timestamps are strings; the
    model orders values of other types by their type. *)
Definition semantic_key_ltb (x y : dict) : bool :=
  let sx := (- similarity_of x)%Q in
  let sy := (- similarity_of y)%Q in
  let tx := get x "timestamp" (VStr "") in
  let ty := get y "timestamp" (VStr "") in
  Qltb sx sy ||
  (Qeq_bool sx sy &&
    ((importance_rank x <? importance_rank y) ||
     ((importance_rank x =? importance_rank y) && key_ltb tx ty))).

(** [m.get("content", "")] of every memory, when they are all strings;
    the vectorizer raises on anything else. *)
Definition texts (contents : list value) : option (list string) :=
  mapM (fun v => match v with VStr s => Some s | _ => None end) contents.

(** The guarded fit,
<<
    try:
        all_text = [query] + memory_contents
        vectorizer.fit(all_text)
    except:
        return {"success": True, "memories": [], "count": 0}
>>
    [None] is the [except] branch. *)
Definition fit_corpus (query : string) (memory_contents : list value)
  : option vectorizer :=
  texts memory_contents ≫= fun ts => fit (query :: ts).

(** The filter of [semantic_search]. *)
Definition active (memory_type : option string) : query :=
  Field "archived" (CEq (VBool false)) :: type_clause memory_type.

(** [[m.get("content", "") for m in all_memories]] *)
Definition contents (all_memories : list dict) : list value :=
  map (fun m => get m "content" (VStr "")) all_memories.

Definition semantic_search (query : string) (memory_type : option string)
    (limit : Z) (threshold : Q) (self_db : option database)
  : result (list dict) * option database :=
  method self_db (fun db =>
    let query_filter := active memory_type in
    let all_memories := find query_filter (memories db) in
    match all_memories with
    | [] => ret (Success [], db)
    | _ =>
      let memory_contents := contents all_memories in
      if negb (existsb truthy memory_contents) then ret (Success [], db) else
      match fit_corpus query memory_contents with
      | None => ret (Success [], db)
      | Some v =>
        let scored := map (fun m =>
            match get m "content" (VStr "") with
            | VStr s => (m, cosine v query s)
            | _ => (m, 0%Q)
            end) all_memories in
        let results := omap (fun ms =>
            if Qle_bool threshold ms.2
            then Some (<["similarity_score" := VNum ms.2]> ms.1)
            else None) scored in
        let results := sort (fun x y => negb (semantic_key_ltb x y)) results in
        ret (Success (slice_to limit results), db)
      end
    end).

(** [memory.get("content", "").lower()] *)
Definition content_lower (m : dict) : py string :=
  match get m "content" (VStr "") with
  | VStr s => ret (lower s)
  | v => raise (AttributeError
                  ("'" +:+ type_name v +:+ "' object has no attribute 'lower'"))
  end.

(** [any(tag == q for tag in memory.get("tags", []))] *)
Definition any_tag_is (q : string) (m : dict) : py bool :=
  match get m "tags" (VList []) with
  | VList l => ret (existsb (String.eqb q) l)
  | VStr s => ret (existsb (fun c => String.eqb q (String c EmptyString)) (list_ascii_of_string s))
  | VDict d => ret (existsb (String.eqb q) (map fst (map_to_list d)))
  | v => raise (TypeError ("'" +:+ type_name v +:+ "' object is not iterable"))
  end.

Definition add_match_score (query : string) (m : dict) : py dict :=
  bind (content_lower m) (fun c =>
  if contains (lower query) c
  then ret (<["match_score" := VNum (95 # 100)]> m)
  else
    bind (any_tag_is (lower query) m) (fun tagged =>
    if tagged
    then ret (<["match_score" := VNum (85 # 100)]> m)
    else ret (<["match_score" := VNum 1]> m))).

Definition search_memories (query : string) (memory_type : option string)
    (limit : Z) (use_semantic : bool) (self_db : option database)
  : result (list dict) * option database :=
  method self_db (fun db =>
    bind (re_compile query "i") (fun search =>
    let search_query :=
      ([ Field "archived" (CEq (VBool false));
         Or [ [("content", CRegex search)]; [("tags", CEq (VStr (lower query)))] ] ]
       ++ type_clause memory_type)%list in
    let regex_results :=
      Mongo.limit limit
        (sort_by [("importance", Descending); ("timestamp", Descending)]
           (find search_query (memories db))) in
    let semantic_results :=
      if use_semantic && (length regex_results =? 0)%nat
      then Some (semantic_search query memory_type limit (3 # 10) (Some db)).1
      else None in
    match semantic_results with
    | Some (Success ms) => ret (Success ms, db)
    | _ =>
      bind (for_each (fun acc m => bind (add_match_score query m) (fun m' => ret (acc ++ [m'])%list))
              [] regex_results) (fun scored =>
      ret (Success scored, db))
    end)).

Definition get_memory (now : Z) (memory_id : string) (self_db : option database)
  : result dict * option database :=
  method self_db (fun db =>
    bind (update_one [Field "memory_id" (CEq (VStr memory_id))]
            [Inc "access_count" 1; Set_ "last_accessed" (VTime now)]
            (memories db)) (fun r =>
    let db' := set_memories r.1 db in
    match find_one [Field "memory_id" (CEq (VStr memory_id))] (memories db') with
    | None => ret (Failure "Memory not found", db')
    | Some memory => ret (Success memory, db')
    end)).

Definition delete_memory (now : Z) (memory_id : string) (self_db : option database)
  : result string * option database :=
  method self_db (fun db =>
    bind (update_one [Field "memory_id" (CEq (VStr memory_id))]
            (set_fields [("archived", VBool true); ("archived_at", VTime now)])
            (memories db)) (fun r =>
    if (r.2 =? 0)%nat
    then ret (Failure "Memory not found", set_memories r.1 db)
    else ret (Success "Memory archived", set_memories r.1 db))).

(** [retention_policies] of [cleanup_old_memories], in the order of the
    dict literal. *)
Definition retention_policies (days_to_keep : Z) : list (string * Z) :=
  [ ("conversation", days_to_keep);
    ("preference", days_to_keep * 3);
    ("fact", days_to_keep * 10);
    ("learning", days_to_keep * 5);
    ("event", days_to_keep * 2) ].

(** One turn of the loop over [retention_policies.items()]. *)
Definition cleanup_step (now : Z) (acc : collection * nat) (policy : string * Z)
  : py (collection * nat) :=
  bind (days_before now policy.2) (fun type_cutoff =>
  bind (update_many
          [ Field "type" (CEq (VStr policy.1));
            Field "timestamp" (CLt (VTime type_cutoff));
            Field "archived" (CEq (VBool false));
            Field "importance" (CEq (VStr "low")) ]
          (set_fields [("archived", VBool true); ("archived_at", VTime now)])
          acc.1) (fun r =>
  ret (r.1, (acc.2 + r.2)%nat))).

(** The loop: a turn that raises ends it, and what the earlier turns
    have archived stays archived. *)
Fixpoint sweeps (now : Z) (policies : list (string * Z)) (acc : collection * nat)
  : option exception * (collection * nat) :=
  match policies with
  | [] => (None, acc)
  | policy :: policies' =>
      match cleanup_step now acc policy with
      | inr acc' => sweeps now policies' acc'
      | inl e => (Some e, acc)
      end
  end.

(** The payload is [(archived_count, policies)].  [cutoff_date] is
    computed first and not used; an exception of a later turn of the loop
    is caught after the earlier turns have written. *)
Definition cleanup_old_memories (now : Z) (days_to_keep : Z) (self_db : option database)
  : result (nat * list (string * Z)) * option database :=
  match self_db with
  | None => (Failure "Database not configured", None)
  | Some db =>
      match days_before now days_to_keep with
      | inl e => (Failure (str e), Some db)
      | inr cutoff_date =>
          let retention_policies := retention_policies days_to_keep in
          let swept := sweeps now retention_policies (memories db, 0%nat) in
          (match swept.1 with
           | Some e => Failure (str e)
           | None => Success (swept.2.2, retention_policies)
           end,
           Some (set_memories swept.2.1 db))
      end
  end.

End Collaborators.

Arguments fit_corpus {vectorizer} fit query memory_contents.
Arguments semantic_search {vectorizer} fit cosine query memory_type limit threshold self_db.
Arguments search_memories re_compile {vectorizer} fit cosine query memory_type limit
  use_semantic self_db.

End MemoryManager.

(* ===================================================================== *)
(** ** memory/preference_manager.py                                       *)
(* ===================================================================== *)

Module PreferenceManager.

(** [_log_preference_change]: appends to the history; never raises. *)
Definition _log_preference_change (now : Z) (category key : string) (v : value)
    (source : string) (db : database) : database :=
  set_preference_history
    (insert_one (mkdict [ ("timestamp", VTime now);
                          ("category", VStr category);
                          ("key", VStr key);
                          ("value", v);
                          ("source", VStr source) ])
       (preference_history db)) db.

(** The dict [preference] that [set_preference] builds. *)
Definition preference (now : Z) (category key : string) (v : value)
    (source : string) (confidence : Q) : list (string * value) :=
  [ ("preference_id", VStr ("pref_" +:+ pretty (millis now)));
    ("category", VStr category);
    ("key", VStr key);
    ("value", v);
    ("set_date", VTime now);
    ("modified_date", VTime now);
    ("source", VStr source);
    ("confidence", VNum (clamp01 confidence));
    ("version", VInt 1) ].

Definition set_preference (now : Z) (category key : string) (v : value)
    (source : string) (confidence : Q) (self_db : option database)
  : result string * option database :=
  method self_db (fun db =>
    bind (update_one_upsert
            [Field "category" (CEq (VStr category)); Field "key" (CEq (VStr key))]
            (set_fields (preference now category key v source confidence))
            (user_preferences db)) (fun r =>
    let db := set_user_preferences r.1 db in
    let db := _log_preference_change now category key v source db in
    ret (Success ("pref_" +:+ pretty (millis now)), db))).

(** The payload of [get_preference]: value, source and confidence, each
    as [preference.get(...)]. *)
Definition get_preference (category key : string) (self_db : option database)
  : result (option value * option value * option value) * option database :=
  method self_db (fun db =>
    match find_one [Field "category" (CEq (VStr category)); Field "key" (CEq (VStr key))]
            (user_preferences db) with
    | None => ret (Failure "Preference not found", db)
    | Some preference =>
        ret (Success (preference !! "value", preference !! "source",
                      preference !! "confidence"), db)
    end).

Definition learn_preference (now : Z) (category key : string) (v : value)
    (confidence : Q) (self_db : option database)
  : result string * option database :=
  if Qltb confidence (3 # 10)
  then (Failure "Confidence too low", self_db)
  else set_preference now category key v "inferred" confidence self_db.

Definition apply_preference (now : Z) (category key : string)
    (self_db : option database) : result string * option database :=
  method self_db (fun db =>
    bind (update_one
            [Field "category" (CEq (VStr category)); Field "key" (CEq (VStr key))]
            (set_fields [ ("source", VStr "manual");
                          ("modified_date", VTime now);
                          ("confidence", VNum 1) ])
            (user_preferences db)) (fun r =>
    if (r.2 =? 0)%nat
    then ret (Failure "Preference not found", set_user_preferences r.1 db)
    else ret (Success "Preference applied", set_user_preferences r.1 db))).

(** The candidates of the behavioural analysis: the dict literals of the
    four [_analyze_*] methods, without their [evidence] text (a
    formatted float). *)
Record pattern := {
  category : string;
  key : string;
  value_ : value;
  confidence : Q;
  source : string;
}.

#[global] Instance pattern_eq_dec : EqDecision pattern.
Proof. solve_decision. Defined.

(** [count / total] *)
Definition ratio (count total : Z) : Q := (inject_Z count / inject_Z total)%Q.

(** [try: ... except Exception: print(...)] around an analysis whose
    patterns are appended last: a raise leaves the empty list. *)
Definition guarded (m : py (list pattern)) : list pattern :=
  match m with
  | inr ps => ps
  | inl _ => []
  end.

(** The names read with [event.get("event_data", {}).get(k)] that are
    truthy. *)
Definition named (k : string) (es : collection) : py (list string) :=
  for_each (fun acc e =>
      bind (event_data_get e k) (fun name =>
      match name with
      | Some n => if nonempty n then ret (acc ++ [n])%list else ret acc
      | None => ret acc
      end)) [] es.

Definition _analyze_app_preferences (cutoff_date : Z) (db : database) : list pattern :=
  guarded (
    let app_events :=
      find [ Field "timestamp" (CGte (VTime cutoff_date));
             Field "event_type" (CIn [VStr "app_opened"; VStr "app_launched"]) ]
        (events db) in
    if (length app_events =? 0)%nat then ret [] else
    bind (named "app_name" app_events) (fun names =>
    let app_counter := count_all names in
    let total := total app_counter in
    ret (omap (fun ac =>
           let usage_ratio := ratio ac.2 total in
           if Qltb (3 # 10) usage_ratio
           then Some {| category := "behavior"; key := "preferred_app";
                        value_ := VStr ac.1;
                        confidence := qmin (95 # 100) ((5 # 10) + usage_ratio);
                        source := "app_usage_analysis" |}
           else None) (most_common 3 app_counter)))).

Definition _analyze_time_preferences (cutoff_date : Z) (db : database) : list pattern :=
  guarded (
    let events :=
      find [ Field "timestamp" (CGte (VTime cutoff_date));
             Field "time_of_day" (CExists true) ]
        (events db) in
    if (length events =? 0)%nat then ret [] else
    let time_counter := count_all (map (fun e => get e "time_of_day" VNone) events) in
    let total := total time_counter in
    match most_common 1 time_counter with
    | (most_active_time, count) :: _ =>
        let activity_ratio := ratio count total in
        if Qltb (35 # 100) activity_ratio
        then ret [ {| category := "behavior"; key := "peak_activity_time";
                      value_ := most_active_time;
                      confidence := qmin (9 # 10) ((4 # 10) + activity_ratio);
                      source := "time_analysis" |} ]
        else ret []
    | [] => ret []
    end).

(** [len(content)] for a truthy [content]. *)
Definition len (v : value) : py Z :=
  match v with
  | VStr s => ret (Z.of_nat (String.length s))
  | VTime t => ret (if t mod 1000000 =? 0 then 19 else 26)
  | VList l => ret (Z.of_nat (length l))
  | VDict d => ret (Z.of_nat (size d))
  | v => raise (TypeError ("object of type '" +:+ type_name v +:+ "' has no len()"))
  end.

Definition _analyze_interaction_preferences (cutoff_date : Z) (db : database)
  : list pattern :=
  guarded (
    let conversations :=
      find [ Field "timestamp" (CGte (VTime cutoff_date));
             Field "memory_type" (CEq (VStr "conversation")) ]
        (memories db) in
    if (length conversations <? 5)%nat then ret [] else
    bind (for_each (fun acc conv =>
            let content := get conv "content" (VStr "") in
            if truthy content
            then bind (len content) (fun n => ret (acc ++ [n])%list)
            else ret acc) [] conversations) (fun response_lengths =>
    match response_lengths with
    | [] => ret []
    | _ =>
        let avg_length :=
          ratio (fold_right Z.add 0 response_lengths)
                (Z.of_nat (length response_lengths)) in
        let '(style, confidence) :=
          if Qltb avg_length 100 then ("brief", (75 # 100)%Q)
          else if Qltb avg_length 300 then ("moderate", (70 # 100)%Q)
          else ("detailed", (75 # 100)%Q) in
        ret [ {| category := "interaction"; key := "response_style";
                 value_ := VStr style;
                 confidence := confidence;
                 source := "conversation_analysis" |} ]
    end)).

Definition _analyze_command_preferences (cutoff_date : Z) (db : database)
  : list pattern :=
  guarded (
    let command_events :=
      find [ Field "timestamp" (CGte (VTime cutoff_date));
             Field "event_type" (CEq (VStr "command_executed")) ]
        (events db) in
    if (length command_events =? 0)%nat then ret [] else
    bind (named "command_type" command_events) (fun names =>
    let command_counter := count_all names in
    let total := total command_counter in
    ret (omap (fun cc =>
           let usage_ratio := ratio cc.2 total in
           if Qltb (25 # 100) usage_ratio
           then Some {| category := "automation"; key := "preferred_command_type";
                        value_ := VStr cc.1;
                        confidence := qmin (85 # 100) ((5 # 10) + usage_ratio);
                        source := "command_usage_analysis" |}
           else None) (most_common 2 command_counter)))).

(** The payload of [analyze_behavior_for_preferences]. *)
Record analysis := {
  patterns_detected : nat;
  preferences_learned : nat;
  patterns : list pattern;
}.

#[global] Instance learning_analysis_eq_dec : EqDecision analysis.
Proof. solve_decision. Defined.

(** The loop that stores the candidates of confidence 0.6 and above. *)
Fixpoint store_patterns (now : Z) (ps : list pattern) (stored_count : nat)
    (self_db : option database) : nat * option database :=
  match ps with
  | [] => (stored_count, self_db)
  | p :: ps' =>
      if Qle_bool (6 # 10) (confidence p) then
        let r := learn_preference now (category p) (key p) (value_ p) (confidence p) self_db in
        store_patterns now ps' (if is_success r.1 then S stored_count else stored_count) r.2
      else store_patterns now ps' stored_count self_db
  end.

Definition analyze_behavior_for_preferences (now : Z) (days : Z)
    (self_db : option database) : result analysis * option database :=
  match self_db with
  | None => (Failure "Database not configured", None)
  | Some db =>
      match days_before now days with
      | inl e => (Failure (str e), Some db)
      | inr cutoff_date =>
          let patterns :=
            (_analyze_app_preferences cutoff_date db
             ++ _analyze_time_preferences cutoff_date db
             ++ _analyze_interaction_preferences cutoff_date db
             ++ _analyze_command_preferences cutoff_date db)%list in
          let r := store_patterns now patterns 0 (Some db) in
          (Success {| patterns_detected := length patterns;
                      preferences_learned := r.1;
                      patterns := patterns |}, r.2)
      end
  end.

End PreferenceManager.

(* ===================================================================== *)
(** ** automation/habit_learning.py                                       *)
(* ===================================================================== *)

Module HabitLearningEngine.

(** [dt.hour] of an instant counted from midnight UTC of 1970-01-01. *)
Definition hour (now : Z) : Z := (now / 3600000000) mod 24.

Definition _get_time_period (now : Z) : string :=
  let hour := hour now in
  if (5 <=? hour) && (hour <? 12) then "morning"
  else if (12 <=? hour) && (hour <? 17) then "afternoon"
  else if (17 <=? hour) && (hour <? 21) then "evening"
  else "night".

(** [now.strftime("%A")] *)
Definition day_name (now : Z) : string :=
  nth (Z.to_nat ((now / day + 3) mod 7))
    ["Monday"; "Tuesday"; "Wednesday"; "Thursday"; "Friday"; "Saturday"; "Sunday"] "".

Definition record_event (now : Z) (event_type : string) (event_data : gmap string string)
    (self_db : option database) : result string * option database :=
  method self_db (fun db =>
    let event := mkdict [
      ("event_id", VStr ("evt_" +:+ pretty (millis now)));
      ("event_type", VStr event_type);
      ("event_data", VDict event_data);
      ("timestamp", VTime now);
      ("time_of_day", VStr (_get_time_period now));
      ("day_of_week", VStr (day_name now));
      ("analyzed", VBool false) ] in
    ret (Success ("evt_" +:+ pretty (millis now)),
         set_events (insert_one event (events db)) db)).

(** [_time_diff_minutes]: [None] is [float('inf')], the answer for
    anything that [datetime.fromisoformat] refuses. *)
Definition _time_diff_minutes (time1 time2 : option value) : option Q :=
  match time1, time2 with
  | Some (VTime t1), Some (VTime t2) => Some (Z.abs (t2 - t1) # 60000000)%Q
  | _, _ => None
  end.

(** [e.get("event_data", {}).get("app_name", "")] *)
Definition app_name (e : dict) : py string :=
  bind (event_data_get e "app_name") (fun n => ret (default "" n)).

(** The loop over [range(len(app_events) - 1)] that fills [sequences]. *)
Fixpoint build_sequences (app_events : list dict) (sequences : counter)
  : py (@counter string) :=
  match app_events with
  | e1 :: rest =>
      match rest with
      | e2 :: _ =>
          bind (app_name e1) (fun app1 =>
          bind (app_name e2) (fun app2 =>
          let time1 := e1 !! "timestamp" in
          let time2 := e2 !! "timestamp" in
          let counted :=
            nonempty app1 && nonempty app2 &&
            match _time_diff_minutes time1 time2 with
            | Some minutes => Qle_bool minutes 5
            | None => false
            end in
          build_sequences rest
            (if counted then incr (app1 +:+ " → " +:+ app2) sequences else sequences)))
      | [] => ret sequences
      end
  | [] => ret sequences
  end.

Definition _detect_sequential_patterns (events : list dict) : py (list dict) :=
  let app_events :=
    List.filter (fun e => bool_decide (e !! "event_type" = Some (VStr "app_opened")))
      events in
  if (length app_events <? 2)%nat then ret [] else
  bind (build_sequences app_events []) (fun sequences =>
  ret (omap (fun sc =>
         if 2 <=? sc.2
         then Some (mkdict [
                ("pattern_type", VStr "sequential");
                ("description", VStr sc.1);
                ("occurrences", VInt sc.2);
                ("confidence_score",
                   VNum (qmin (95 # 100) ((7 # 10) + inject_Z sc.2 * (5 # 100))%Q)) ])
         else None) sequences)).

(** [time_events[time_period].append(event_type)] on a
    [defaultdict(list)]. *)
Fixpoint append_to (k x : string) (m : list (string * list string))
  : list (string * list string) :=
  match m with
  | [] => [(k, [x])]
  | (k', xs) :: m' =>
      if String.eqb k k' then (k', xs ++ [x])%list :: m' else (k', xs) :: append_to k x m'
  end.

Definition _detect_time_patterns (events : list dict) : list dict :=
  let time_events :=
    fold_left (fun m event =>
        let time_period := str_field event "time_of_day" in
        let event_type := str_field event "event_type" in
        if nonempty time_period && nonempty event_type
        then append_to time_period event_type m
        else m) events [] in
  flat_map (fun pe : string * list string =>
      let time_period := pe.1 in
      let event_types := pe.2 in
      let total := Z.of_nat (length event_types) in
      omap (fun ec =>
          let confidence := (inject_Z ec.2 / inject_Z total)%Q in
          if Qltb (4 # 10) confidence
          then Some (mkdict [
                 ("pattern_type", VStr "time_based");
                 ("description", VStr ("At " +:+ time_period +:+ ": " +:+ ec.1));
                 ("time_period", VStr time_period);
                 ("occurrences", VInt ec.2);
                 ("confidence_score", VNum confidence) ])
          else None) (most_common 3 (count_all event_types)))
    time_events.

Definition _detect_frequency_patterns (events : list dict) : list dict :=
  let event_counts := count_all (map (fun e => str_field e "event_type") events) in
  let total_events := Z.of_nat (length events) in
  omap (fun ec =>
      if nonempty ec.1 && (3 <=? ec.2)
      then
        let frequency := (inject_Z ec.2 / inject_Z total_events)%Q in
        Some (mkdict [
          ("pattern_type", VStr "frequency");
          ("description", VStr ("Frequently: " +:+ ec.1));
          ("occurrences", VInt ec.2);
          ("confidence_score", VNum (qmin (95 # 100) frequency)) ])
      else None) event_counts.

(** One of the three filters of [_detect_patterns]:
<<
    for p in found:
        if p["confidence"] > threshold:
            patterns.append(p)
>> *)
Definition keep_confident (threshold : Q) (patterns found : list dict)
  : py (list dict) :=
  for_each (fun acc p =>
      bind (getitem p "confidence") (fun c =>
      bind (as_float ">" c) (fun q =>
      ret (if Qltb threshold q then acc ++ [p] else acc)%list)))
    patterns found.

Definition _detect_patterns (events : list dict) : py (list dict) :=
  bind (_detect_sequential_patterns events) (fun app_sequences =>
  bind (keep_confident (7 # 10) [] app_sequences) (fun patterns =>
  bind (keep_confident (6 # 10) patterns (_detect_time_patterns events)) (fun patterns =>
  keep_confident (6 # 10) patterns (_detect_frequency_patterns events)))).

(** A habit suggestion; [pattern] is the pattern dict itself. *)
Record habit := {
  habit_id : string;
  type_ : string;
  title : string;
  description : string;
  confidence_score : value;
  pattern : dict;
  suggested_action : string;
  status : string;
}.

#[global] Instance habit_eq_dec : EqDecision habit.
Proof. solve_decision. Defined.

(** [pattern['description']] as the string whose [method] is called. *)
Definition description_of (method : string) (p : dict) : py string :=
  bind (getitem p "description") (fun v =>
  match v with
  | VStr s => ret s
  | v => raise (AttributeError
                  ("'" +:+ type_name v +:+ "' object has no attribute '"
                   +:+ method +:+ "'"))
  end).

Definition _generate_habit_suggestions (now : Z) (patterns : list dict)
  : py (list habit) :=
  for_each (fun suggestions p =>
      bind (getitem p "confidence_score") (fun c =>
      bind (as_float "<" c) (fun q =>
      if Qltb q (6 # 10) then ret suggestions else
      match p !! "pattern_type" with
      | Some (VStr "sequential") =>
          bind (getitem p "description") (fun d =>
          bind (description_of "split" p) (fun text =>
          bind (index (split " → " text) 0) (fun first =>
          bind (index (split " → " text) 1) (fun second =>
          bind (getitem p "occurrences") (fun n =>
          ret (suggestions ++ [
            {| habit_id := "hab_" +:+ pretty (millis now);
               type_ := "automation";
               title := "Automate: " +:+ format (Some d);
               description := "I noticed you open " +:+ first +:+ " followed by "
                              +:+ second +:+ " " +:+ format (Some n) +:+ " times.";
               confidence_score := c;
               pattern := p;
               suggested_action := "create_workflow";
               status := "pending" |} ])%list)))))
      | Some (VStr "time_based") =>
          bind (description_of "lower" p) (fun text =>
          ret (suggestions ++ [
            {| habit_id := "hab_" +:+ pretty (millis now);
               type_ := "scheduling";
               title := "Schedule routine for " +:+ format (p !! "time_period") +:+ "?";
               description := "You frequently " +:+ lower text;
               confidence_score := c;
               pattern := p;
               suggested_action := "create_schedule";
               status := "pending" |} ])%list)
      | _ => ret suggestions
      end)))
    [] patterns.

(** [pattern["detected_at"] = ...]: the pattern dicts are stamped in
    place, so the stamp also shows in the patterns that the caller
    returns and in the habits that hold them. *)
Definition stamp (now : Z) (p : dict) : dict := <["detected_at" := VTime now]> p.

Definition _store_patterns (now : Z) (patterns : list dict) (db : database) : database :=
  set_user_patterns
    (fold_left (fun c p => insert_one (stamp now p) c) patterns (user_patterns db)) db.

(** The payload of [analyze_recent_events]; the last two fields are
    absent from the answer for an empty window, which carries a message
    instead. *)
Record analysis := {
  patterns : list dict;
  habits : list habit;
  message : option string;
  analysis_period_days : option Z;
  events_analyzed : option nat;
}.

#[global] Instance event_analysis_eq_dec : EqDecision analysis.
Proof. solve_decision. Defined.

Definition analyze_recent_events (now : Z) (days : Z) (self_db : option database)
  : result analysis * option database :=
  method self_db (fun db =>
    bind (days_before now days) (fun cutoff_date =>
    let events :=
      sort_by [("timestamp", Ascending)]
        (find [Field "timestamp" (CGte (VTime cutoff_date))] (events db)) in
    match events with
    | [] =>
        ret (Success {| patterns := []; habits := [];
                        message := Some "No events in the specified time period";
                        analysis_period_days := None; events_analyzed := None |}, db)
    | _ =>
        bind (_detect_patterns events) (fun patterns =>
        bind (_generate_habit_suggestions now patterns) (fun habits =>
        let db := _store_patterns now patterns db in
        ret (Success {| patterns := map (stamp now) patterns;
                        habits := map (fun h =>
                            {| habit_id := habit_id h; type_ := type_ h; title := title h;
                               description := description h;
                               confidence_score := confidence_score h;
                               pattern := stamp now (pattern h);
                               suggested_action := suggested_action h;
                               status := status h |}) habits;
                        message := None;
                        analysis_period_days := Some days;
                        events_analyzed := Some (length events) |}, db)))
    end)).

End HabitLearningEngine.

(* ===================================================================== *)
(** ** automation/suggestion_engine.py                                    *)
(* ===================================================================== *)

Module SuggestionEngine.

Definition create_suggestion (now : Z) (suggestion_type title description : string)
    (confidence_score : Q) (suggested_action : option (gmap string string))
    (self_db : option database) : result string * option database :=
  method self_db (fun db =>
    let suggestion := mkdict [
      ("suggestion_id", VStr ("sugg_" +:+ pretty (millis now)));
      ("type", VStr suggestion_type);
      ("title", VStr title);
      ("description", VStr description);
      ("confidence_score", VNum (clamp01 confidence_score));
      ("suggested_action", VDict (default ∅ suggested_action));
      ("status", VStr "pending");
      ("created_date", VTime now);
      ("shown_date", VNone);
      ("response_date", VNone);
      ("user_response", VNone);
      ("helpful", VNone) ] in
    ret (Success ("sugg_" +:+ pretty (millis now)),
         set_suggestions (insert_one suggestion (suggestions db)) db)).

Definition get_active_suggestions (limit : Z) (self_db : option database)
  : result (list dict) * option database :=
  method self_db (fun db =>
    ret (Success
           (Mongo.limit limit
              (sort_by [("confidence_score", Descending); ("created_date", Descending)]
                 (find [Field "status" (CEq (VStr "pending"))] (suggestions db)))),
         db)).

(** [update_data] of [respond_to_suggestion]. *)
Definition update_data (now : Z) (response : string) (helpful : option bool)
  : list (string * value) :=
  ([ ("status", VStr "responded");
     ("user_response", VStr response);
     ("response_date", VTime now) ]
   ++ match helpful with
      | Some h => [("helpful", VBool h)]
      | None => []
      end)%list.

Definition respond_to_suggestion (now : Z) (suggestion_id response : string)
    (helpful : option bool) (self_db : option database)
  : result string * option database :=
  method self_db (fun db =>
    bind (update_one [Field "suggestion_id" (CEq (VStr suggestion_id))]
            (set_fields (update_data now response helpful))
            (suggestions db)) (fun r =>
    ret (Success ("Response recorded: " +:+ response), set_suggestions r.1 db))).

(** The payload is [dismissed_count]. *)
Definition dismiss_suggestion_type (now : Z) (suggestion_type : string)
    (self_db : option database) : result nat * option database :=
  method self_db (fun db =>
    bind (update_many
            [ Field "type" (CEq (VStr suggestion_type));
              Field "status" (CEq (VStr "pending")) ]
            (set_fields [("status", VStr "dismissed"); ("response_date", VTime now)])
            (suggestions db)) (fun r =>
    ret (Success r.2, set_suggestions r.1 db))).

End SuggestionEngine.

(* ===================================================================== *)
(** ** Vocabulary of the properties                                       *)
(* ===================================================================== *)

(** The document after [{"$set": fields}]. *)
Definition assign (fields : list (string * value)) (d : dict) : dict :=
  fold_left (fun d kv => <[kv.1 := kv.2]> d) fields d.

(** The database behind a configured manager. *)
Definition the (self_db : option database) : database := default empty_database self_db.

(** The list that a search answers with. *)
Definition payload {A} (r : result (list A)) : list A :=
  match r with
  | Success l => l
  | Failure _ => []
  end.

(** Field [k] of the [i]-th document of a collection. *)
Definition stored_field (c : collection) (i : nat) (k : string) : option value :=
  c !! i ≫= (.!! k).

Definition nth_memory (db : database) (i : nat) : dict := default ∅ (memories db !! i).

Definition nth_suggestion (db : database) (i : nat) : dict :=
  default ∅ (suggestions db !! i).

(** *** Dates *)

(** The instants that [datetime] holds and the day counts that
    [timedelta] holds. *)
Definition in_datetime_range (t : Z) : bool := (datetime_min <=? t) && (t <=? datetime_max).

Definition days_fit (days : Z) : bool := Z.abs days <=? 999999999.

(** The instant [days] days before [now], respectively after [now], is a
    date. *)
Definition cutoff_exists (now days : Z) : bool :=
  days_fit days && in_datetime_range (now - days * day).

Definition expiry_exists (now days : Z) : bool :=
  days_fit days && in_datetime_range (now + days * day).

(** *** Retention *)



Definition unarchived (r : dict) : bool :=
  bool_decide (r !! "archived" = Some (VBool false)).

Definition low_importance (r : dict) : bool :=
  bool_decide (r !! "importance" = Some (VStr "low")).

Definition older_than (instant : Z) (r : dict) : bool :=
  match r !! "timestamp" with
  | Some (VTime ts) => ts <? instant
  | _ => false
  end.


(** What archival writes. *)
Definition archive (now : Z) (r : dict) : dict :=
  <["archived_at" := VTime now]> (<["archived" := VBool true]> r).

(** One [update_many] of the sweep, seen from one record. *)
Definition sweep1 (now : Z) (policy : string * Z) (r : dict) : dict :=
  if matches [ Field "type" (CEq (VStr policy.1));
               Field "timestamp" (CLt (VTime (now - policy.2 * day)));
               Field "archived" (CEq (VBool false));
               Field "importance" (CEq (VStr "low")) ] r
  then archive now r else r.

(** *** Search *)

(** A search result: a stored, unarchived record with its score added. *)
Definition unarchived_with_score (db : database) (m : dict) : Prop :=
  exists r score,
    r ∈ memories db
    /\ r !! "archived" = Some (VBool false)
    /\ (m = <["match_score" := score]> r \/ m = <["similarity_score" := score]> r).

(** The bookkeeping of [get_memory] on a record read [n] times before. *)
Definition touch (now : Z) (n : Z) (r : dict) : dict :=
  <["last_accessed" := VTime now]> (<["access_count" := VInt (n + 1)]> r).

(** [x] is at most as similar to the query as [y]. *)
Definition less_similar (x y : dict) : Prop :=
  (MemoryManager.similarity_of x <= MemoryManager.similarity_of y)%Q.

(** *** Preferences *)

Definition preference_query (category key : string) : query :=
  [Field "category" (CEq (VStr category)); Field "key" (CEq (VStr key))].

(** The preference that [get_preference] would read. *)
Definition stored_preference (category key : string) (db : database) : option dict :=
  find_one (preference_query category key) (user_preferences db).

(** The three writes of the preference store. *)
Inductive write :=
| SetPreference (category key : string) (v : value) (source : string) (confidence : Q)
| LearnPreference (category key : string) (v : value) (confidence : Q)
| ApplyPreference (category key : string).

Definition run (now : Z) (w : write) (self_db : option database)
  : result string * option database :=
  match w with
  | SetPreference category key v source confidence =>
      PreferenceManager.set_preference now category key v source confidence self_db
  | LearnPreference category key v confidence =>
      PreferenceManager.learn_preference now category key v confidence self_db
  | ApplyPreference category key =>
      PreferenceManager.apply_preference now category key self_db
  end.

Definition written (w : write) : string * string :=
  match w with
  | SetPreference category key _ _ _
  | LearnPreference category key _ _
  | ApplyPreference category key => (category, key)
  end.

(** The confidence that a write asks for; [apply_preference] asks for
    1.0. *)
Definition requested (w : write) : Q :=
  match w with
  | SetPreference _ _ _ _ confidence
  | LearnPreference _ _ _ confidence => confidence
  | ApplyPreference _ _ => 1
  end.

(** [q] is [x] brought into the interval from 0 to 1: 0 below it, 1 above
    it, [x] inside. *)
Definition clamped (x q : Q) : Prop :=
  ((x < 0)%Q -> q = 0%Q) /\ ((1 < x)%Q -> q = 1%Q) /\ ((0 <= x <= 1)%Q -> (q == x)%Q).

(** *** Habits *)

(** The events that [analyze_recent_events] analyses. *)
Definition window (now days : Z) (db : database) : collection :=
  sort_by [("timestamp", Ascending)]
    (find [Field "timestamp" (CGte (VTime (now - days * day)))] (events db)).

(** Some ordered pair of applications was counted twice or more. *)
Definition finds_sequence (events : list dict) : bool :=
  match HabitLearningEngine._detect_sequential_patterns events with
  | inr (_ :: _) => true
  | _ => false
  end.

(* ===================================================================== *)
(** ** Scenarios                                                          *)
(* ===================================================================== *)

(** The stores of the scenarios are built with the managers' own writers.
    [today] is 2025-11-03T00:00:00 UTC. *)
Definition today : Z := 1762128000000000.

Definition minute : Z := 60000000.

(** Stand-ins for the collaborators.  The regular expression of a plain
    word is a case-insensitive substring search.  The vectorizer refuses a
    corpus of stop words and empty strings ("empty vocabulary"); for the
    query "alpha" it gives the content "alpha" the similarity 1.0 and the
    content "alpha beta" the similarity 0.51, scikit-learn's values to two
    decimals. *)
Definition example_re (pattern options : string) : py (string -> bool) :=
  ret (fun text => contains (lower pattern) (lower text)).

Definition example_fit (corpus : list string) : option unit :=
  if forallb (fun text => String.eqb text "" || String.eqb text "the") corpus
  then None else Some tt.

Definition example_cosine (_ : unit) (query content : string) : Q :=
  if String.eqb content query then 1 else (51 # 100).




(** Two memories, one equal to the query "alpha". *)
Definition similarity_store : database :=
  let s0 := Some empty_database in
  let s1 := (MemoryManager.save_memory today "fact" "alpha" None None "medium" s0).2 in
  let s2 := (MemoryManager.save_memory (today + 1000) "fact" "alpha beta" None None
               "medium" s1).2 in
  the s2.

(** One memory without content; one memory made of a stop word. *)
Definition blank_store : database :=
  the (MemoryManager.save_memory today "fact" "" None None "medium"
         (Some empty_database)).2.

Definition stop_word_store : database :=
  the (MemoryManager.save_memory today "fact" "the" None None "medium"
         (Some empty_database)).2.

(** Two memories about "alpha"; the first one was deleted, that is,
    archived. *)
Definition archive_store : database :=
  let s0 := Some empty_database in
  let s1 := (MemoryManager.save_memory today "fact" "alpha was here" None None
               "medium" s0).2 in
  let s2 := (MemoryManager.save_memory (today + 1000) "fact" "alpha is here" None None
               "medium" s1).2 in
  let s3 := (MemoryManager.delete_memory (today + 2000) "mem_1762128000000" s2).2 in
  the s3.

(** Two conversation memories saved in the same millisecond, 100 days
    ago, and so under the same id; a cleanup has archived the second one,
    which is of low importance. *)
Definition twin_store : database :=
  let s0 := Some empty_database in
  let s1 := (MemoryManager.save_memory (today - 100 * day) "conversation" "alpha"
               None None "high" s0).2 in
  let s2 := (MemoryManager.save_memory (today - 100 * day + 500) "conversation" "beta"
               None None "low" s1).2 in
  let s3 := (MemoryManager.cleanup_old_memories today 90 s2).2 in
  the s3.

(** Five conversation turns saved as memories. *)
Definition chat_store : database :=
  let s0 := Some empty_database in
  let s1 := (MemoryManager.save_memory today "conversation" "hello" None None
               "medium" s0).2 in
  let s2 := (MemoryManager.save_memory (today + 1000) "conversation"
               "what is the weather" None None "medium" s1).2 in
  let s3 := (MemoryManager.save_memory (today + 2000) "conversation" "thanks" None None
               "medium" s2).2 in
  let s4 := (MemoryManager.save_memory (today + 3000) "conversation" "set an alarm"
               None None "medium" s3).2 in
  let s5 := (MemoryManager.save_memory (today + 4000) "conversation" "good night"
               None None "medium" s4).2 in
  the s5.

(** Chrome opened three times, one minute apart. *)
Definition chrome_store : database :=
  let s0 := Some empty_database in
  let s1 := (HabitLearningEngine.record_event today "app_opened"
               {["app_name" := "Chrome"]} s0).2 in
  let s2 := (HabitLearningEngine.record_event (today + minute) "app_opened"
               {["app_name" := "Chrome"]} s1).2 in
  let s3 := (HabitLearningEngine.record_event (today + 2 * minute) "app_opened"
               {["app_name" := "Chrome"]} s2).2 in
  the s3.

(** One suggestion, pending; then the same suggestion after the user
    rejected it. *)
Definition pending_store : database :=
  the (SuggestionEngine.create_suggestion today "automation" "Open the editor"
         "You open the editor every morning" (8 # 10) None (Some empty_database)).2.

Definition responded_store : database :=
  the (SuggestionEngine.respond_to_suggestion (today + minute) "sugg_1762128000000"
         "rejected" (Some false) (Some pending_store)).2.

(** One preference, set by hand. *)
Definition voice_store : database :=
  the (PreferenceManager.set_preference today "voice" "speed" (VStr "fast") "manual" 1
         (Some empty_database)).2.

(* ===================================================================== *)
(** ** More of the document store                                         *)
(* ===================================================================== *)

(** The operators and calls that the remaining methods use. *)

Module MongoOps.

(** [{"f": {"$ne": v}}]: the negation of the equality match. *)
Definition ne_match (fv : option value) (v : value) : bool := negb (eq_match fv v).

(** The dotted path [{"outer.inner": s}] into a nested document. *)
Definition nested_eq (d : dict) (outer inner s : string) : bool :=
  match d !! outer with
  | Some (VDict nested) => bool_decide (nested !! inner = Some s)
  | _ => false
  end.

(** [find] and [update_many] for a filter given as a predicate on
    documents. *)
Definition find_where (p : dict -> bool) (c : collection) : collection := List.filter p c.

Fixpoint update_many_where (p : dict -> bool) (u : update) (c : collection)
  : py (collection * nat) :=
  match c with
  | [] => ret ([], 0%nat)
  | d :: c' =>
      if p d then
        bind (apply_update u d) (fun d' =>
        bind (update_many_where p u c') (fun r =>
        ret (d' :: r.1, if bool_decide (d' = d) then r.2 else S r.2)))
      else
        bind (update_many_where p u c') (fun r => ret (d :: r.1, r.2))
  end.

(** [delete_one(q)]: the first matching document is removed; the result
    carries [deleted_count]. *)
Fixpoint delete_one (q : query) (c : collection) : collection * nat :=
  match c with
  | [] => ([], 0%nat)
  | d :: c' =>
      if matches q d then (c', 1%nat)
      else let r := delete_one q c' in (d :: r.1, r.2)
  end.

End MongoOps.

Import MongoOps.

(* ===================================================================== *)
(** ** memory/memory_manager.py: relevance, expiry, listings, conversations *)
(* ===================================================================== *)

Module MemoryMaintenance.

(** The payload is [relevance_score]. *)
Definition update_memory_relevance (memory_id : string) (relevance_score : Q)
    (self_db : option database) : result Q * option database :=
  method self_db (fun db =>
    let score := clamp01 relevance_score in
    bind (update_one [Field "memory_id" (CEq (VStr memory_id))]
            (set_fields [("relevance_score", VNum score)])
            (memories db)) (fun r =>
    if (r.2 =? 0)%nat
    then ret (Failure "Memory not found", set_memories r.1 db)
    else ret (Success score, set_memories r.1 db))).

(** The payload is [expiry_date]. *)
Definition set_memory_expiry (now : Z) (memory_id : string) (days_to_expiry : Z)
    (self_db : option database) : result Z * option database :=
  method self_db (fun db =>
    bind (days_after now days_to_expiry) (fun expiry_date =>
    bind (update_one [Field "memory_id" (CEq (VStr memory_id))]
            (set_fields [("expiry_date", VTime expiry_date)])
            (memories db)) (fun r =>
    if (r.2 =? 0)%nat
    then ret (Failure "Memory not found", set_memories r.1 db)
    else ret (Success expiry_date, set_memories r.1 db)))).

(** The filter of [archive_expired_memories],
<<
    {"expiry_date": {"$ne": None, "$lt": now}, "archived": False}
>> *)
Definition expired (now : Z) (d : dict) : bool :=
  ne_match (d !! "expiry_date") VNone
  && cond_match (d !! "expiry_date") (CLt (VTime now))
  && cond_match (d !! "archived") (CEq (VBool false)).

(** The payload is [archived_count]. *)
Definition archive_expired_memories (now : Z) (self_db : option database)
  : result nat * option database :=
  method self_db (fun db =>
    bind (update_many_where (expired now)
            (set_fields [("archived", VBool true); ("archived_at", VTime now)])
            (memories db)) (fun r =>
    ret (Success r.2, set_memories r.1 db))).






(** The collection [conversation_context], which only
    [add_to_conversation] writes: one document for each conversation,
    with the messages pushed so far. *)
Record entry := {
  timestamp : Z;
  role : string;
  message : string;
  metadata : gmap string string;
}.

Record conversation := {
  conversation_id : string;
  updated_at : Z;
  messages : list entry;
}.

(** The upsert of [add_to_conversation],
<<
    update_one({"conversation_id": conversation_id},
               {"$set": {"conversation_id": conversation_id, "updated_at": now},
                "$push": {"messages": msg_entry}},
               upsert=True)
>> *)
Fixpoint push_message (now : Z) (id : string) (msg_entry : entry)
    (contexts : list conversation) : list conversation :=
  match contexts with
  | [] => [ {| conversation_id := id; updated_at := now; messages := [msg_entry] |} ]
  | c :: contexts' =>
      if String.eqb (conversation_id c) id
      then {| conversation_id := id; updated_at := now;
              messages := messages c ++ [msg_entry] |} :: contexts'
      else c :: push_message now id msg_entry contexts'
  end.

(** [add_to_conversation]: the message is pushed to its conversation and
    also saved as a memory, with the default importance of
    [save_memory]; the answer of [save_memory] is not looked at. *)
Definition add_to_conversation (now : Z) (id role message : string)
    (metadata : option (gmap string string))
    (contexts : list conversation) (self_db : option database)
  : result unit * list conversation * option database :=
  match self_db with
  | None => (Failure "Database not configured", contexts, None)
  | Some db =>
      let msg_entry := {| timestamp := now; role := role; message := message;
                          metadata := default ∅ metadata |} in
      let contexts := push_message now id msg_entry contexts in
      let saved :=
        MemoryManager.save_memory now "conversation" message
          (Some (<["conversation_id" := id]> (<["role" := role]> ∅)))
          (Some ["conversation"; role]) "medium" (Some db) in
      (Success tt, contexts, saved.2)
  end.

Section Collaborators.

Variable vectorizer : Type.
Variable fit : list string -> option vectorizer.
Variable cosine : vectorizer -> string -> string -> Q.

(** The filter of [search_related_memories],
<<
    {"context.conversation_id": conversation_id, "archived": False}
>> *)
Definition related_to (id : string) (d : dict) : bool :=
  nested_eq d "context" "conversation_id" id
  && cond_match (d !! "archived") (CEq (VBool false)).

(** [related.sort(key=lambda m: m.get("timestamp", ""), reverse=True)].
    Timestamps are strings; as in [semantic_search] the model orders
    values of other types by their type. *)
Definition newest_first (related : list dict) : list dict :=
  sort (fun x y => negb (key_ltb (get x "timestamp" (VStr ""))
                                 (get y "timestamp" (VStr "")))) related.

(** [related.sort(key=lambda m: -m.get("similarity_score", 0))] *)
Definition most_similar_first (related : list dict) : list dict :=
  sort (fun x y => negb (Qltb (- MemoryManager.similarity_of y)
                             (- MemoryManager.similarity_of x))) related.

(** [memory["similarity_score"] = float(similarities[idx])] for every
    memory. *)
Definition with_similarity (v : vectorizer) (query : string) (m : dict) : dict :=
  match get m "content" (VStr "") with
  | VStr s => <["similarity_score" := VNum (cosine v query s)]> m
  | _ => m
  end.

(** [query] is [None] when the caller gives none.  The inner [try] falls
    back to the order by timestamp when the vectorizer raises. *)
Definition search_related_memories (id : string) (query : option string) (limit : Z)
    (self_db : option database) : result (list dict) * option database :=
  method self_db (fun db =>
    let related := find_where (related_to id) (memories db) in
    let asked :=
      match query with
      | Some q => if nonempty q && negb (length related =? 0)%nat then Some q else None
      | None => None
      end in
    let related :=
      match asked with
      | Some q =>
          let memory_contents := MemoryManager.contents related in
          if existsb truthy memory_contents then
            match MemoryManager.fit_corpus fit q memory_contents with
            | Some v => most_similar_first (map (with_similarity v q) related)
            | None => newest_first related
            end
          else related
      | None => newest_first related
      end in
    ret (Success (slice_to limit related), db)).

End Collaborators.

Arguments with_similarity {vectorizer} cosine v query m.
Arguments search_related_memories {vectorizer} fit cosine id query limit self_db.

End MemoryMaintenance.

(* ===================================================================== *)
(** ** memory/preference_manager.py: removal, recommendations, history    *)
(* ===================================================================== *)

Module PreferenceReview.

Definition delete_preference (category key : string) (self_db : option database)
  : result string * option database :=
  method self_db (fun db =>
    let r := delete_one [Field "category" (CEq (VStr category)); Field "key" (CEq (VStr key))]
               (user_preferences db) in
    if (r.2 =? 0)%nat
    then ret (Failure "Preference not found", set_user_preferences r.1 db)
    else ret (Success "Preference deleted", set_user_preferences r.1 db)).

Definition reject_preference (category key : string) (self_db : option database)
  : result string * option database :=
  delete_preference category key self_db.

(** [if category: query["category"] = category] *)
Definition category_clause (category : option string) : query :=
  match category with
  | Some c => if nonempty c then [Field "category" (CEq (VStr c))] else []
  | None => []
  end.

Definition get_preference_recommendations (category : option string)
    (self_db : option database) : result (list dict) * option database :=
  method self_db (fun db =>
    let query :=
      ([ Field "source" (CIn [VStr "inferred"; VStr "auto"]);
         Field "confidence" (CGte (VNum (7 # 10))) ]
       ++ category_clause category)%list in
    ret (Success (Mongo.limit 20
                    (sort_by [("confidence", Descending)]
                       (find query (user_preferences db)))),
         db)).

(** [if key: query["key"] = key] *)
Definition key_clause (key : option string) : query :=
  match key with
  | Some k => if nonempty k then [Field "key" (CEq (VStr k))] else []
  | None => []
  end.

Definition get_preference_history (category key : option string) (limit : Z)
    (self_db : option database) : result (list dict) * option database :=
  method self_db (fun db =>
    let query := (category_clause category ++ key_clause key)%list in
    ret (Success (Mongo.limit limit
                    (sort_by [("timestamp", Descending)]
                       (find query (preference_history db)))),
         db)).

End PreferenceReview.

(* ===================================================================== *)
(** ** memory/preference_manager.py: patterns in the stored preferences   *)
(* ===================================================================== *)

Module PreferencePatterns.

(** A value used as the key of a [dict]: lists and dicts cannot be
    hashed. *)
Definition hashable (v : value) : py value :=
  match v with
  | VList _ | VDict _ =>
      raise (TypeError ("unhashable type: '" +:+ type_name v +:+ "'"))
  | v => ret v
  end.

(** [a == b] on keys: numbers and booleans compare by value. *)
Definition number (v : value) : option Q :=
  match v with
  | VInt n => Some (inject_Z n)
  | VNum q => Some q
  | VBool b => Some (if b then 1 else 0)%Q
  | _ => None
  end.

Definition key_eqb (a b : value) : bool :=
  match number a, number b with
  | Some p, Some q => Qeq_bool p q
  | None, None => bool_decide (a = b)
  | _, _ => false
  end.

(** [by_category[k].append(pref)] on a [defaultdict(list)], in insertion
    order. *)
Fixpoint append_under (k : value) (pref : dict) (by_category : list (value * list dict))
  : list (value * list dict) :=
  match by_category with
  | [] => [(k, [pref])]
  | (k', prefs) :: rest =>
      if key_eqb k k' then (k', prefs ++ [pref]) :: rest
      else (k', prefs) :: append_under k pref rest
  end.

(** [source_counts.get(source, 0)] for [source_counts = Counter(...)]. *)
Fixpoint count_of (source : value) (source_counts : list (value * Z)) : Z :=
  match source_counts with
  | [] => 0
  | (k, n) :: rest => if key_eqb k source then n else count_of source rest
  end.

(** [source_counts[k] += 1] *)
Fixpoint count_one (k : value) (source_counts : list (value * Z)) : list (value * Z) :=
  match source_counts with
  | [] => [(k, 1)]
  | (k', n) :: rest =>
      if key_eqb k k' then (k', n + 1) :: rest else (k', n) :: count_one k rest
  end.

(** The pattern dicts, without their [description] and [evidence]
    texts. *)
Record pattern := {
  pattern_type : string;
  category : option value;
  confidence : Q;
}.

#[global] Instance preference_pattern_eq_dec : EqDecision pattern.
Proof. solve_decision. Defined.

(** [[p for p in prefs if p.get("confidence", 0) > 0.8]] *)
Definition high_confidence (prefs : list dict) : py (list dict) :=
  for_each (fun acc p =>
      bind (as_float ">" (get p "confidence" (VInt 0))) (fun q =>
      ret (if Qltb (8 # 10) q then acc ++ [p] else acc)%list))
    [] prefs.

(** The payload of [detect_preference_patterns], without the analysis
    date; [total_preferences] is absent from the answer for an empty
    store, which carries a message instead. *)
Record detection := {
  patterns : list pattern;
  total_preferences : option nat;
  message : option string;
}.

#[global] Instance detection_eq_dec : EqDecision detection.
Proof. solve_decision. Defined.

Definition detect_preference_patterns (self_db : option database)
  : result detection * option database :=
  method self_db (fun db =>
    let all_preferences := user_preferences db in
    match all_preferences with
    | [] =>
        ret (Success {| patterns := []; total_preferences := None;
                        message := Some "No preferences to analyze" |}, db)
    | _ =>
        bind (for_each (fun by_category pref =>
                bind (hashable (get pref "category" (VStr "unknown"))) (fun k =>
                ret (append_under k pref by_category)))
              [] all_preferences) (fun by_category =>
        bind (for_each (fun patterns group =>
                if (3 <=? length group.2)%nat then
                  bind (high_confidence group.2) (fun high =>
                  if (2 <=? length high)%nat
                  then ret (patterns ++ [ {| pattern_type := "category_preference";
                                             category := Some group.1;
                                             confidence := 8 # 10 |} ])%list
                  else ret patterns)
                else ret patterns)
              [] by_category) (fun patterns =>
        bind (for_each (fun source_counts pref =>
                bind (hashable (get pref "source" VNone)) (fun k =>
                ret (count_one k source_counts)))
              [] all_preferences) (fun source_counts =>
        let inferred_count := count_of (VStr "inferred") source_counts in
        let manual_count := count_of (VStr "manual") source_counts in
        let total := Z.of_nat (length all_preferences) in
        let patterns :=
          if Qltb (6 # 10) (PreferenceManager.ratio inferred_count total)
          then (patterns ++ [ {| pattern_type := "learning_active"; category := None;
                                 confidence := 9 # 10 |} ])%list
          else patterns in
        let patterns :=
          if Qltb (7 # 10) (PreferenceManager.ratio manual_count total)
          then (patterns ++ [ {| pattern_type := "manual_preference"; category := None;
                                 confidence := 85 # 100 |} ])%list
          else patterns in
        ret (Success {| patterns := patterns;
                        total_preferences := Some (length all_preferences);
                        message := None |}, db))))
    end).

End PreferencePatterns.

(* ===================================================================== *)
(** ** automation/habit_learning.py: the stored habits and their feedback *)
(* ===================================================================== *)

Module HabitFeedback.


Definition provide_habit_feedback (now : Z) (pattern_id feedback : string)
    (self_db : option database) : result unit * option database :=
  method self_db (fun db =>
    bind (update_one [Field "habit_id" (CEq (VStr pattern_id))]
            (set_fields [("user_feedback", VStr feedback); ("feedback_date", VTime now)])
            (user_patterns db)) (fun r =>
    ret (Success tt, set_user_patterns r.1 db))).

End HabitFeedback.

(* ===================================================================== *)
(** ** Vocabulary of the further properties                               *)
(* ===================================================================== *)

(** The records whose expiry instant has passed. *)
Definition due (now : Z) (r : dict) : bool :=
  unarchived r
  && match r !! "expiry_date" with
     | Some (VTime expiry) => expiry <? now
     | _ => false
     end.

Definition memory_query (memory_id : string) : query :=
  [Field "memory_id" (CEq (VStr memory_id))].

(** The id that [save_memory] gives at the instant [now]. *)
Definition memory_id_at (now : Z) : string := "mem_" +:+ pretty (millis now).





(** The memories of a conversation. *)
Definition of_conversation (id : string) (r : dict) : Prop :=
  exists context, r !! "context" = Some (VDict context)
                  /\ context !! "conversation_id" = Some id.


(** [x] is at least as similar to the query as [y]. *)
Definition more_similar (x y : dict) : Prop :=
  (MemoryManager.similarity_of y <= MemoryManager.similarity_of x)%Q.

(** A suggestion as [create_suggestion] types it. *)
Definition typed_suggestion (r : dict) : Prop :=
  (exists q, r !! "confidence_score" = Some (VNum q))
  /\ (exists status, r !! "status" = Some (VStr status)).

Definition is_typed_suggestion (r : dict) : bool :=
  match r !! "confidence_score", r !! "status" with
  | Some (VNum _), Some (VStr _) => true
  | _, _ => false
  end.

Definition score_of (r : dict) : Q :=
  match r !! "confidence_score" with
  | Some (VNum q) => q
  | _ => 0
  end.

Definition more_confident (x y : dict) : Prop := (score_of y <= score_of x)%Q.

(** A preference as [set_preference] types it. *)
Definition typed_preference (d : dict) : Prop :=
  (exists category, d !! "category" = Some (VStr category))
  /\ (exists key, d !! "key" = Some (VStr key)).

Definition is_typed_preference (d : dict) : bool :=
  match d !! "category", d !! "key" with
  | Some (VStr _), Some (VStr _) => true
  | _, _ => false
  end.

(** The candidates that the behavioural analysis stores. *)
Definition confident (p : PreferenceManager.pattern) : bool :=
  Qle_bool (6 # 10) (PreferenceManager.confidence p).

(** The last confident candidate for a category and key. *)
Definition last_candidate (category key : string) (candidates : list PreferenceManager.pattern)
  : option PreferenceManager.pattern :=
  List.find (fun p => String.eqb (PreferenceManager.category p) category
                      && String.eqb (PreferenceManager.key p) key
                      && confident p)
    (rev candidates).



(** The pattern dicts of the three detectors. *)
Definition detected (events : list dict) (p : dict) : Prop :=
  (exists found, HabitLearningEngine._detect_sequential_patterns events = ret found
                 /\ p ∈ found)
  \/ p ∈ HabitLearningEngine._detect_time_patterns events
  \/ p ∈ HabitLearningEngine._detect_frequency_patterns events.

(** What dismissal writes. *)
Definition dismiss (now : Z) (d : dict) : dict :=
  <["response_date" := VTime now]> (<["status" := VStr "dismissed"]> d).

(** A suggestion that [dismiss_suggestion_type] addresses. *)
Definition pending_of_type (suggestion_type : string) (d : dict) : bool :=
  matches [ Field "type" (CEq (VStr suggestion_type));
            Field "status" (CEq (VStr "pending")) ] d.

(** *** Further scenarios *)

(** A conversation of two turns. *)
Definition talk_store : list MemoryMaintenance.conversation * database :=
  let s1 := MemoryMaintenance.add_to_conversation today "c1" "user" "alpha" None []
              (Some empty_database) in
  let s2 := MemoryMaintenance.add_to_conversation (today + minute) "c1" "assistant"
              "alpha beta" None s1.1.2 s1.2 in
  (s2.1.2, the s2.2).

(** A memory of high importance. *)
Definition keepsake_store : database :=
  the (MemoryManager.save_memory today "fact" "the safe opens with 2580" None None
         "high" (Some empty_database)).2.

(** What [detect_preference_patterns] finds in [voice_store]. *)
Definition voice_patterns : PreferencePatterns.detection :=
  {| PreferencePatterns.patterns :=
       [ {| PreferencePatterns.pattern_type := "manual_preference";
            PreferencePatterns.category := None;
            PreferencePatterns.confidence := 85 # 100 |} ];
     PreferencePatterns.total_preferences := Some 1%nat;
     PreferencePatterns.message := None |}.

(** The sequential patterns of [chrome_store]. *)
Definition chrome_patterns : list dict :=
  match HabitLearningEngine._detect_sequential_patterns
          (window (today + 3 * minute) 7 chrome_store) with
  | inr found => found
  | inl _ => []
  end.

(** Chrome opened three times and the editor twice, within one hour. *)
Definition apps_store : database :=
  let s0 := Some empty_database in
  let s1 := (HabitLearningEngine.record_event today "app_opened"
               {["app_name" := "Chrome"]} s0).2 in
  let s2 := (HabitLearningEngine.record_event (today + 10 * minute) "app_opened"
               {["app_name" := "Chrome"]} s1).2 in
  let s3 := (HabitLearningEngine.record_event (today + 20 * minute) "app_opened"
               {["app_name" := "Chrome"]} s2).2 in
  let s4 := (HabitLearningEngine.record_event (today + 30 * minute) "app_opened"
               {["app_name" := "Editor"]} s3).2 in
  let s5 := (HabitLearningEngine.record_event (today + 40 * minute) "app_opened"
               {["app_name" := "Editor"]} s4).2 in
  the s5.

(** Two pending suggestions of different types and confidences. *)
Definition two_suggestions_store : database :=
  let s1 := (SuggestionEngine.create_suggestion today "automation" "Open the editor"
               "You open the editor every morning" (6 # 10) None (Some empty_database)).2 in
  let s2 := (SuggestionEngine.create_suggestion (today + minute) "learning"
               "Learn: browser?" "You seem to prefer Chrome" (9 # 10) None s1).2 in
  the s2.

(* ===================================================================== *)
(** ** Facts about the store                                              *)
(* ===================================================================== *)

(** Closed equations between computed stores are decided by evaluation. *)
Ltac by_computation := apply (bool_decide_eq_true_1 _); vm_compute; reflexivity.

(** Lookups through a stack of [<[k := v]>]. *)
Ltac lookup_fields :=
  repeat (rewrite lookup_insert_eq || rewrite lookup_insert_ne by done).

(** Date arithmetic returns where the result is a date and raises
    [OverflowError] where it is not. *)
Lemma timedelta_fits days : days_fit days = true -> timedelta days = ret (days * day).
Proof.
  unfold days_fit, timedelta. intros H%Z.leb_le.
  rewrite (proj2 (Z.ltb_ge _ _)), (proj2 (Z.ltb_ge _ _)), (proj2 (Z.ltb_ge _ _)) by lia.
  done.
Qed.

Lemma timedelta_unfit days :
  days_fit days = false -> exists message, timedelta days = raise (OverflowError message).
Proof.
  unfold days_fit, timedelta. intros H%Z.leb_gt.
  destruct (_ || _); [by eexists|].
  rewrite (proj2 (Z.ltb_lt _ _)) by lia. by eexists.
Qed.

Lemma days_before_exists now days :
  cutoff_exists now days = true -> days_before now days = ret (now - days * day).
Proof.
  unfold cutoff_exists, in_datetime_range, days_before, datetime_add.
  intros [Hfit Hrange]%andb_prop. rewrite (timedelta_fits _ Hfit). cbn [bind ret].
  replace (now + - (days * day)) with (now - days * day) by lia. by rewrite Hrange.
Qed.

Lemma days_before_missing now days :
  cutoff_exists now days = false ->
  exists message, days_before now days = raise (OverflowError message).
Proof.
  unfold cutoff_exists, in_datetime_range, days_before, datetime_add.
  destruct (days_fit days) eqn:Hfit.
  - rewrite (timedelta_fits _ Hfit). cbn [bind ret andb].
    replace (now + - (days * day)) with (now - days * day) by lia.
    intros ->. by eexists.
  - intros _. destruct (timedelta_unfit _ Hfit) as [message ->]. by eexists.
Qed.

Lemma days_before_returns now days cutoff_date :
  days_before now days = ret cutoff_date ->
  cutoff_exists now days = true /\ cutoff_date = now - days * day.
Proof.
  intros Hrun. destruct (cutoff_exists now days) eqn:Hexists.
  - rewrite (days_before_exists _ _ Hexists) in Hrun. by injection Hrun as <-.
  - destruct (days_before_missing _ _ Hexists) as [message Hraise].
    rewrite Hraise in Hrun. discriminate.
Qed.

Lemma days_after_exists now days :
  expiry_exists now days = true -> days_after now days = ret (now + days * day).
Proof.
  unfold expiry_exists, in_datetime_range, days_after, datetime_add.
  intros [Hfit Hrange]%andb_prop. rewrite (timedelta_fits _ Hfit). cbn [bind ret].
  by rewrite Hrange.
Qed.

Lemma days_after_missing now days :
  expiry_exists now days = false ->
  exists message, days_after now days = raise (OverflowError message).
Proof.
  unfold expiry_exists, in_datetime_range, days_after, datetime_add.
  destruct (days_fit days) eqn:Hfit.
  - rewrite (timedelta_fits _ Hfit). cbn [bind ret andb]. intros ->. by eexists.
  - intros _. destruct (timedelta_unfit _ Hfit) as [message ->]. by eexists.
Qed.

Section StoreFacts.

Implicit Types (q : query) (u : update) (c pre post : collection) (d r : dict).

Lemma apply_update_set_fields fields d :
  apply_update (set_fields fields) d = ret (assign fields d).
Proof.
  revert d. induction fields as [|[k v] fields IH]; intros d; [reflexivity|].
  cbn. apply IH.
Qed.

Lemma find_nil_Forall q c :
  find q c = [] <-> Forall (fun d => matches q d = false) c.
Proof.
  unfold find. induction c as [|d c IH]; cbn.
  - split; [constructor | reflexivity].
  - destruct (matches q d) eqn:E.
    + split; [discriminate | intros H; inversion H; congruence].
    + rewrite IH. split; [by constructor | by inversion 1].
Qed.

Lemma elem_of_find q c d : d ∈ find q c <-> d ∈ c /\ matches q d = true.
Proof. unfold find. rewrite !list_elem_of_In. apply filter_In. Qed.

Lemma find_singleton q c r :
  find q c = [r] ->
  exists pre post, c = pre ++ r :: post /\ find q pre = [] /\ matches q r = true.
Proof.
  unfold find. induction c as [|x c IH]; cbn; [discriminate|].
  destruct (matches q x) eqn:Hx.
  - intros [= -> _]. by exists [], c.
  - intros (pre & post & -> & Hpre & Hr)%IH. exists (x :: pre), post.
    split; [done|]. split; [cbn; by rewrite Hx|done].
Qed.

Lemma update_one_no_match q u c :
  find q c = [] -> update_one q u c = ret (c, 0%nat).
Proof.
  rewrite find_nil_Forall. induction 1 as [|d c Hd _ IH]; cbn; [reflexivity|].
  by rewrite Hd, IH.
Qed.

Lemma update_one_first q u pre post d d' :
  find q pre = [] -> matches q d = true -> apply_update u d = ret d' ->
  update_one q u (pre ++ d :: post) = ret (pre ++ d' :: post, 1%nat).
Proof.
  rewrite find_nil_Forall. intros Hpre Hd Hu.
  induction Hpre as [|x pre Hx _ IH]; cbn.
  - by rewrite Hd, Hu.
  - by rewrite Hx, IH.
Qed.

(** [update_one] leaves the collection alone or updates the first match. *)
Lemma update_one_spec q u c :
  (find q c = [] /\ update_one q u c = ret (c, 0%nat))
  \/ (exists pre d post,
        c = pre ++ d :: post /\ find q pre = [] /\ matches q d = true
        /\ update_one q u c
           = bind (apply_update u d) (fun d' => ret (pre ++ d' :: post, 1%nat))).
Proof.
  induction c as [|x c IH].
  - by left.
  - destruct (matches q x) eqn:Hx.
    + right. exists [], x, c. cbn. by rewrite Hx.
    + destruct IH as [[Hnil Hrun]|(pre & d & post & -> & Hpre & Hd & Hrun)].
      * left. split; [unfold find in *; cbn; by rewrite Hx|].
        cbn. by rewrite Hx, Hrun.
      * right. exists (x :: pre), d, post. split; [done|].
        split; [unfold find in *; cbn; by rewrite Hx|]. split; [done|].
        cbn. rewrite Hx, Hrun. by destruct (apply_update u d).
Qed.

Lemma update_many_set q fields c :
  exists n, update_many q (set_fields fields) c =
    ret (map (fun d => if matches q d then assign fields d else d) c, n).
Proof.
  induction c as [|d c [n IH]]; cbn; [by eexists|].
  destruct (matches q d); rewrite ?apply_update_set_fields; cbn; rewrite IH; cbn;
    by eexists.
Qed.

Lemma find_one_first q pre post d :
  find q pre = [] -> matches q d = true -> find_one q (pre ++ d :: post) = Some d.
Proof.
  rewrite find_nil_Forall. intros Hpre Hd. unfold find_one.
  induction Hpre as [|x pre Hx _ IH]; cbn.
  - by rewrite Hd.
  - by rewrite Hx.
Qed.

Lemma find_one_last q c d :
  find q c = [] -> matches q d = true -> find_one q (insert_one d c) = Some d.
Proof. intros. unfold insert_one. by apply find_one_first. Qed.

(** Matching one field against a boolean, a string, an instant. *)
Lemma existsb_map_VStr_false (P : value -> bool) (l : list string) :
  (forall s, P (VStr s) = false) -> existsb P (map VStr l) = false.
Proof. intros H. induction l; cbn; [done|]. by rewrite H, IHl. Qed.

Lemma value_eqb_str v s : value_eqb v (VStr s) = bool_decide (v = VStr s).
Proof. by destruct v. Qed.

Lemma eq_match_bool fv b :
  eq_match fv (VBool b) = bool_decide (fv = Some (VBool b)).
Proof.
  destruct fv as [v|]; cbn.
  - destruct v; cbn; rewrite ?orb_false_r;
      try (rewrite existsb_map_VStr_false by done).
    all: repeat case_bool_decide; try done; congruence.
  - by case_bool_decide.
Qed.

Lemma eq_match_str fv s :
  (forall l, fv <> Some (VList l)) ->
  eq_match fv (VStr s) = bool_decide (fv = Some (VStr s)).
Proof.
  intros Hl. destruct fv as [v|]; cbn.
  - destruct v; cbn; rewrite ?orb_false_r;
      try by (repeat case_bool_decide; congruence).
  - by case_bool_decide.
Qed.

Lemma cond_lt_time fv instant :
  cond_match fv (CLt (VTime instant)) =
  match fv with Some (VTime ts) => ts <? instant | _ => false end.
Proof.
  destruct fv as [v|]; [|done].
  destruct v; cbn; rewrite ?orb_false_r; try done.
  by apply existsb_map_VStr_false.
Qed.

Lemma elem_of_take_1 {A} n (l : list A) x : x ∈ take n l -> x ∈ l.
Proof. intros H. rewrite <- (take_drop n l). apply elem_of_app. by left. Qed.

Lemma elem_of_slice_to {A} n (l : list A) x : x ∈ slice_to n l -> x ∈ l.
Proof. unfold slice_to. destruct (0 <=? n); apply elem_of_take_1. Qed.

Lemma elem_of_limit n c x : x ∈ limit n c -> x ∈ c.
Proof. unfold limit. destruct (n =? 0); [done|apply elem_of_take_1]. Qed.

End StoreFacts.

(** The stable sort: its output is sorted for every relation that the
    comparison decides, and holds the elements of its input. *)
Section SortFacts.
Context {A : Type} (before : A -> A -> bool) (R : A -> A -> Prop).
Hypothesis before_sound : forall x y, before x y = true -> R x y.
Hypothesis before_total : forall x y, before x y = false -> R y x.

Lemma insert_sorted_Sorted x l : Sorted R l -> Sorted R (insert_sorted before x l).
Proof.
  induction l as [|y l IH]; intros Hl; cbn.
  - by repeat constructor.
  - destruct (before x y) eqn:Hxy.
    + constructor; [done|]. constructor. by apply before_sound.
    + apply Sorted_inv in Hl as [Hl Hy]. constructor; [by apply IH|].
      destruct l as [|z l]; cbn.
      * constructor. by apply before_total.
      * destruct (before x z); constructor.
        -- by apply before_total.
        -- by inversion Hy.
Qed.

Lemma sort_Sorted l : Sorted R (sort before l).
Proof.
  induction l as [|x l IH]; cbn; [constructor|]. by apply insert_sorted_Sorted.
Qed.
End SortFacts.

Lemma elem_of_insert_sorted {A} (before : A -> A -> bool) x y l :
  y ∈ insert_sorted before x l -> y = x \/ y ∈ l.
Proof.
  induction l as [|z l IH]; cbn.
  - intros ->%list_elem_of_singleton. by left.
  - destruct (before x z).
    + intros [->|H]%elem_of_cons; [by left|by right].
    + intros [->|H]%elem_of_cons; [right; by left|].
      destruct (IH H) as [->|?]; [by left|right; by right].
Qed.

Lemma elem_of_sort {A} (before : A -> A -> bool) y l : y ∈ sort before l -> y ∈ l.
Proof.
  induction l as [|x l IH]; cbn; [done|].
  intros [->|H]%elem_of_insert_sorted; [by left|right; by apply IH].
Qed.

Lemma slice_to_StronglySorted {A} (R : A -> A -> Prop) n (l : list A) :
  StronglySorted R l -> StronglySorted R (slice_to n l).
Proof.
  intros Hl. unfold slice_to.
  destruct (0 <=? n); eapply StronglySorted_app_1_l; by erewrite take_drop.
Qed.

(** Floats. *)
Lemma Qltb_true a b : Qltb a b = true <-> (a < b)%Q.
Proof.
  unfold Qltb. rewrite negb_true_iff. split.
  - intros H. apply Qnot_le_lt. intros Hle. apply Qle_bool_iff in Hle. congruence.
  - intros H. destruct (Qle_bool b a) eqn:E; [|done].
    apply Qle_bool_iff in E. exfalso. by apply (Qlt_not_le a b).
Qed.

Lemma Qltb_false a b : Qltb a b = false <-> (b <= a)%Q.
Proof. unfold Qltb. rewrite negb_false_iff. apply Qle_bool_iff. Qed.

Lemma clamp01_range x : (0 <= clamp01 x <= 1)%Q.
Proof.
  unfold clamp01, qmax, qmin.
  destruct (Qltb x 1) eqn:E1.
  - apply Qltb_true in E1. destruct (Qltb 0 x) eqn:E2.
    + apply Qltb_true in E2. split; by apply Qlt_le_weak.
    + split; [apply Qle_refl|done].
  - destruct (Qltb 0 1) eqn:E2; [|done]. split; [done|apply Qle_refl].
Qed.

Lemma clamp01_clamped x : clamped x (clamp01 x).
Proof.
  unfold clamped, clamp01, qmax, qmin.
  destruct (Qltb x 1) eqn:E1.
  - apply Qltb_true in E1. destruct (Qltb 0 x) eqn:E2.
    + apply Qltb_true in E2. repeat split; intros; (lra || reflexivity).
    + apply Qltb_false in E2. repeat split; intros; (lra || reflexivity).
  - apply Qltb_false in E1. replace (Qltb 0 1) with true by reflexivity.
    repeat split; intros; (lra || reflexivity).
Qed.

Lemma set_suggestions_same db : set_suggestions (suggestions db) db = db.
Proof. by destruct db. Qed.

(* ===================================================================== *)
(** ** Retention sweep (memory_manager.py, cleanup_old_memories)          *)
(* ===================================================================== *)

Lemma cleanup_step_map now c k policy :
  cutoff_exists now policy.2 = true ->
  exists n, MemoryManager.cleanup_step now (c, k) policy
            = ret (map (sweep1 now policy) c, n).
Proof.
  intros Hexists. unfold MemoryManager.cleanup_step.
  rewrite (days_before_exists _ _ Hexists). cbn [bind ret fst snd].
  edestruct update_many_set as [n ->]. cbn. by eexists.
Qed.

Lemma cleanup_step_raises now acc policy :
  cutoff_exists now policy.2 = false ->
  exists message, MemoryManager.cleanup_step now acc policy = raise (OverflowError message).
Proof.
  intros Hmissing. unfold MemoryManager.cleanup_step.
  destruct (days_before_missing _ _ Hmissing) as [message ->]. by eexists.
Qed.

(** The loop sweeps with a front part of the policies: with all of them
    when it does not raise. *)
Lemma cleanup_loop_front now policies (c : collection) k :
  exists raised swept rest n,
    MemoryManager.sweeps now policies (c, k)
    = (raised, (map (fun r => fold_left (fun x policy => sweep1 now policy x) swept r) c, n))
    /\ policies = swept ++ rest
    /\ (raised = None -> rest = []).
Proof.
  revert c k. induction policies as [|policy policies IH]; intros c k;
    cbn [MemoryManager.sweeps].
  - exists None, [], [], k. cbn. by rewrite map_id.
  - destruct (cutoff_exists now policy.2) eqn:Hexists.
    + destruct (cleanup_step_map now c k policy Hexists) as [n ->]. cbn [ret].
      destruct (IH (map (sweep1 now policy) c) n)
        as (raised & swept & rest & m & -> & -> & Hnone).
      exists raised, (policy :: swept), rest, m. rewrite map_map. by cbn.
    + destruct (cleanup_step_raises now (c, k) policy Hexists) as [message ->].
      cbn [raise]. exists (Some (OverflowError message)), [], (policy :: policies), k.
      cbn. by rewrite map_id.
Qed.



(** One sweep on a record whose type is a string. *)
Lemma sweep1_typed now p dd r ty :
  r !! "type" = Some (VStr ty) ->
  (forall l, r !! "importance" <> Some (VList l)) ->
  sweep1 now (p, dd) r =
  if bool_decide (ty = p) && older_than (now - dd * day) r && unarchived r
     && low_importance r
  then archive now r else r.
Proof.
  intros Hty Himp. unfold sweep1, matches. cbn [forallb clause_match fst snd].
  rewrite cond_lt_time. cbn [cond_match].
  rewrite eq_match_bool, (eq_match_str _ "low") by done.
  rewrite Hty. cbn [eq_match elements existsb].
  rewrite value_eqb_str, orb_false_r, andb_true_r.
  unfold older_than, unarchived, low_importance.
  replace (bool_decide (VStr ty = VStr p)) with (bool_decide (ty = p))
    by (apply bool_decide_ext; split; congruence).
  by rewrite !andb_assoc.
Qed.

Lemma archive_archived now r : archive now r !! "archived" = Some (VBool true).
Proof. unfold archive. by rewrite lookup_insert_ne, lookup_insert_eq. Qed.









(* ===================================================================== *)
(** ** Responses to suggestions (suggestion_engine.py)                    *)
(* ===================================================================== *)

(** C10.  For an id that no stored suggestion carries,
    [respond_to_suggestion] answers with success, not with an error, and
    leaves the database as it was. *)
Theorem respond_unknown_id now suggestion_id response helpful db :
  find [Field "suggestion_id" (CEq (VStr suggestion_id))] (suggestions db) = [] ->
  SuggestionEngine.respond_to_suggestion now suggestion_id response helpful (Some db)
  = (Success ("Response recorded: " +:+ response), Some db).
Proof.
  intros H. unfold SuggestionEngine.respond_to_suggestion, method.
  rewrite (update_one_no_match _ _ _ H). cbn. by rewrite set_suggestions_same.
Qed.

(** A response to an id that was never issued. *)
Lemma respond_unknown_id_scenario :
  SuggestionEngine.respond_to_suggestion (today + minute) "sugg_0" "accepted" (Some true)
    (Some pending_store)
  = (Success "Response recorded: accepted", Some pending_store).
Proof.
  apply (respond_unknown_id (today + minute) "sugg_0" "accepted" (Some true) pending_store).
  by_computation.
Defined.

(** C2, as the code has it.  [respond_to_suggestion] does not look at the
    status: for the first stored suggestion with the given id, pending or
    not, it writes [status = "responded"], the new [user_response] and
    [response_date], and the new [helpful] flag when one is given; [helpful]
    keeps its stored value only when no flag is given.  Every other field
    and every other suggestion is unchanged. *)
Theorem respond_overwrites_whatever_the_status
    now suggestion_id response helpful db pre d post :
  suggestions db = pre ++ d :: post ->
  find [Field "suggestion_id" (CEq (VStr suggestion_id))] pre = [] ->
  d !! "suggestion_id" = Some (VStr suggestion_id) ->
  exists d',
    SuggestionEngine.respond_to_suggestion now suggestion_id response helpful (Some db)
    = (Success ("Response recorded: " +:+ response),
       Some (set_suggestions (pre ++ d' :: post) db))
    /\ d' !! "status" = Some (VStr "responded")
    /\ d' !! "user_response" = Some (VStr response)
    /\ d' !! "response_date" = Some (VTime now)
    /\ d' !! "helpful" = match helpful with
                         | Some h => Some (VBool h)
                         | None => d !! "helpful"
                         end
    /\ forall k, k ∉ ["status"; "user_response"; "response_date"; "helpful"] ->
                 d' !! k = d !! k.
Proof.
  intros Hc Hpre Hid.
  exists (assign (SuggestionEngine.update_data now response helpful) d).
  split.
  { unfold SuggestionEngine.respond_to_suggestion, method. rewrite Hc.
    erewrite update_one_first; [reflexivity|done| |apply apply_update_set_fields].
    unfold matches. cbn. rewrite Hid. cbn. by rewrite bool_decide_eq_true_2. }
  unfold SuggestionEngine.update_data.
  destruct helpful as [h|]; cbn [app assign fold_left fst snd];
    repeat split; try (intros k Hk); lookup_fields; try done.
  all: rewrite !lookup_insert_ne; set_solver.
Qed.

(** A second response to the suggestion that was rejected: it is
    recorded over the first. *)
Lemma respond_again_scenario :
  exists d',
    SuggestionEngine.respond_to_suggestion (today + 2 * minute) "sugg_1762128000000"
      "accepted" (Some true) (Some responded_store)
    = (Success "Response recorded: accepted",
       Some (set_suggestions [d'] responded_store))
    /\ nth_suggestion responded_store 0 !! "status" = Some (VStr "responded")
    /\ d' !! "status" = Some (VStr "responded")
    /\ d' !! "user_response" = Some (VStr "accepted")
    /\ d' !! "helpful" = Some (VBool true).
Proof.
  destruct (respond_overwrites_whatever_the_status (today + 2 * minute)
              "sugg_1762128000000" "accepted" (Some true) responded_store
              [] (nth_suggestion responded_store 0) [])
    as (d' & Hrun & Hstatus & Hresponse & _ & Hhelpful & _);
    [by_computation|reflexivity|by_computation|].
  exists d'. split; [exact Hrun|]. split; [by_computation|]. by repeat split.
Defined.

(** C2 read as a no-op fails: the suggestion was responded to
    ("rejected", not helpful), its status is "responded"; a second call
    changes the stored [user_response] and [helpful]. *)
Lemma respond_twice_overwrites :
  let s2 := (SuggestionEngine.respond_to_suggestion (today + 2 * minute)
               "sugg_1762128000000" "accepted" (Some true) (Some responded_store)).2 in
  stored_field (suggestions responded_store) 0 "status" = Some (VStr "responded")
  /\ stored_field (suggestions responded_store) 0 "user_response" = Some (VStr "rejected")
  /\ stored_field (suggestions responded_store) 0 "helpful" = Some (VBool false)
  /\ stored_field (suggestions (the s2)) 0 "status" = Some (VStr "responded")
  /\ stored_field (suggestions (the s2)) 0 "user_response" = Some (VStr "accepted")
  /\ stored_field (suggestions (the s2)) 0 "helpful" = Some (VBool true).
Proof. cbv zeta. repeat split; by_computation. Qed.

(* ===================================================================== *)
(** ** Preference writes (preference_manager.py)                          *)
(* ===================================================================== *)

Lemma preference_query_matches category key (d : dict) :
  d !! "category" = Some (VStr category) -> d !! "key" = Some (VStr key) ->
  matches (preference_query category key) d = true.
Proof.
  intros Hc Hk. unfold matches, preference_query. cbn. rewrite Hc, Hk. cbn.
  by rewrite !bool_decide_eq_true_2.
Qed.

Lemma preference_query_same category key (d d' : dict) :
  d' !! "category" = d !! "category" -> d' !! "key" = d !! "key" ->
  matches (preference_query category key) d' = matches (preference_query category key) d.
Proof. intros Hc Hk. unfold matches, preference_query. cbn. by rewrite Hc, Hk. Qed.

(** [set_preference] succeeds, and what is then stored under
    [(category, key)] carries every field of the dict it built. *)
Lemma set_preference_run now category key v source confidence db :
  exists db' d0,
    PreferenceManager.set_preference now category key v source confidence (Some db)
    = (Success ("pref_" +:+ pretty (millis now)), Some db')
    /\ stored_preference category key db'
       = Some (assign (PreferenceManager.preference now category key v source confidence)
                 d0).
Proof.
  unfold PreferenceManager.set_preference, method, update_one_upsert, stored_preference.
  fold (preference_query category key).
  assert (Hm : forall d0, matches (preference_query category key)
                 (assign (PreferenceManager.preference now category key v source
                            confidence) d0) = true).
  { intros d0. apply preference_query_matches; cbn; by lookup_fields. }
  destruct (update_one_spec (preference_query category key)
              (set_fields (PreferenceManager.preference now category key v source
                             confidence))
              (user_preferences db))
    as [[Hnil ->]|(pre & d & post & Hc & Hpre & Hd & ->)].
  - cbn [bind ret fst snd]. rewrite apply_update_set_fields. cbn [bind ret fst snd].
    eexists _, _. split; [reflexivity|].
    cbn [user_preferences PreferenceManager._log_preference_change
           set_preference_history set_user_preferences].
    by apply find_one_last.
  - rewrite apply_update_set_fields. cbn [bind ret fst snd].
    eexists _, _. split; [reflexivity|].
    cbn [user_preferences PreferenceManager._log_preference_change
           set_preference_history set_user_preferences].
    by apply find_one_first.
Qed.

(** C3, what the code does.  Every [set_preference] stores the value it
    was given and the version 1: the version of an existing preference is
    overwritten with 1, never increased. *)
Theorem set_preference_keeps_version_1 now category key v source confidence db :
  exists db' d',
    PreferenceManager.set_preference now category key v source confidence (Some db)
    = (Success ("pref_" +:+ pretty (millis now)), Some db')
    /\ stored_preference category key db' = Some d'
    /\ d' !! "value" = Some v
    /\ d' !! "version" = Some (VInt 1).
Proof.
  destruct (set_preference_run now category key v source confidence db)
    as (db' & d0 & Hrun & Hd).
  eexists _, _. split; [exact Hrun|]. split; [exact Hd|].
  split; cbn; by lookup_fields.
Qed.

(** The same preference set a second time: the version is 1 before and 1
    after. *)
Lemma set_preference_twice_scenario :
  let s2 := (PreferenceManager.set_preference (today + minute) "voice" "speed"
               (VStr "fast") "manual" 1 (Some voice_store)).2 in
  stored_field (user_preferences voice_store) 0 "version" = Some (VInt 1)
  /\ stored_field (user_preferences (the s2)) 0 "version" = Some (VInt 1)
  /\ stored_field (user_preferences (the s2)) 0 "value" = Some (VStr "fast")
  /\ length (user_preferences (the s2)) = 1%nat.
Proof. cbv zeta. repeat split; by_computation. Qed.

(** C6.  After a successful [set_preference], [learn_preference] or
    [apply_preference], the confidence stored for the written preference
    is a number between 0 and 1, whatever confidence the caller gave: it
    is the confidence asked for, clamped, that is, 0 when that is
    negative, 1 when that is more than 1, and the confidence asked for
    otherwise; [apply_preference] asks for 1. *)
Theorem written_confidence_in_unit_interval now w db answer db' :
  run now w (Some db) = (Success answer, Some db') ->
  exists d q,
    stored_preference (written w).1 (written w).2 db' = Some d
    /\ d !! "confidence" = Some (VNum q)
    /\ (0 <= q <= 1)%Q
    /\ clamped (requested w) q.
Proof.
  destruct w as [category key v source confidence|category key v confidence|category key];
    cbn [run written requested fst snd].
  - intros Hrun.
    destruct (set_preference_run now category key v source confidence db)
      as (db1 & d0 & Hrun1 & Hd).
    rewrite Hrun1 in Hrun. injection Hrun as _ <-.
    eexists _, _. split; [exact Hd|]. split; [cbn; by lookup_fields|].
    split; [apply clamp01_range|apply clamp01_clamped].
  - unfold PreferenceManager.learn_preference.
    destruct (Qltb confidence (3 # 10)); [discriminate|].
    intros Hrun.
    destruct (set_preference_run now category key v "inferred" confidence db)
      as (db1 & d0 & Hrun1 & Hd).
    rewrite Hrun1 in Hrun. injection Hrun as _ <-.
    eexists _, _. split; [exact Hd|]. split; [cbn; by lookup_fields|].
    split; [apply clamp01_range|apply clamp01_clamped].
  - unfold PreferenceManager.apply_preference, method, stored_preference.
    fold (preference_query category key).
    destruct (update_one_spec (preference_query category key)
                (set_fields [ ("source", VStr "manual");
                              ("modified_date", VTime now);
                              ("confidence", VNum 1) ])
                (user_preferences db))
      as [[Hnil ->]|(pre & d & post & Hc & Hpre & Hd & ->)].
    + cbn. discriminate.
    + rewrite apply_update_set_fields. cbn [bind ret fst snd Nat.eqb].
      intros [= _ <-]. cbn [user_preferences set_user_preferences].
      eexists _, 1%Q. split.
      * apply find_one_first; [done|].
        etrans; [|exact Hd]. apply preference_query_same; cbn; by lookup_fields.
      * split; [cbn; by lookup_fields|]. split; [done|].
        unfold clamped. repeat split; intros; (lra || reflexivity).
Qed.

(** A confidence of 5 is stored as the confidence 1. *)
Lemma out_of_range_confidence_scenario :
  exists d,
    stored_preference "voice" "speed"
      (the (PreferenceManager.set_preference today "voice" "speed" (VStr "fast")
              "manual" 5 (Some empty_database)).2) = Some d
    /\ d !! "confidence" = Some (VNum 1).
Proof.
  destruct (written_confidence_in_unit_interval today
              (SetPreference "voice" "speed" (VStr "fast") "manual" 5)
              empty_database "pref_1762128000000"
              (the (PreferenceManager.set_preference today "voice" "speed" (VStr "fast")
                      "manual" 5 (Some empty_database)).2))
    as (d & q & Hd & Hq & _ & _ & Hone & _); [by_computation|].
  exists d. split; [exact Hd|]. rewrite Hq, Hone; [reflexivity|reflexivity].
Defined.

(* ===================================================================== *)
(** ** Pattern mining (habit_learning.py)                                 *)
(* ===================================================================== *)

(** What [_detect_sequential_patterns] returns: one dict for each pair
    counted [n >= 2] times, with the confidence [min(0.95, 0.7 + n * 0.05)]
    under the key [confidence_score]. *)
Lemma sequential_pattern_shape events found p :
  HabitLearningEngine._detect_sequential_patterns events = ret found -> p ∈ found ->
  exists sequence n,
    2 <= n
    /\ p = mkdict [ ("pattern_type", VStr "sequential");
                    ("description", VStr sequence);
                    ("occurrences", VInt n);
                    ("confidence_score",
                       VNum (qmin (95 # 100) ((7 # 10) + inject_Z n * (5 # 100))%Q)) ].
Proof.
  unfold HabitLearningEngine._detect_sequential_patterns.
  destruct (_ <? 2)%nat; [intros [= <-] Hp; by apply elem_of_nil in Hp|].
  destruct (HabitLearningEngine.build_sequences _ _) as [e|sequences]; [discriminate|].
  cbn [bind ret]. intros [= <-] Hp.
  apply list_elem_of_omap in Hp as ([sequence n] & _ & Hf). cbn [fst snd] in Hf.
  destruct (2 <=? n) eqn:Hn; [|discriminate].
  injection Hf as <-. exists sequence, n. split; [lia|done].
Qed.

(** No such dict has the key [confidence] that [_detect_patterns] reads. *)
Lemma sequential_pattern_has_no_confidence events found p :
  HabitLearningEngine._detect_sequential_patterns events = ret found -> p ∈ found ->
  p !! "confidence" = None.
Proof.
  intros Hf Hp. destruct (sequential_pattern_shape _ _ _ Hf Hp) as (s & n & _ & ->).
  unfold mkdict. cbn [list_to_map foldr]. by lookup_fields.
Qed.

(** C4, what the code does.  Whenever the window holds a pair of
    consecutive [app_opened] events counted twice or more, so that the
    sequential detector returns a pattern, [analyze_recent_events] does
    not succeed: [_detect_patterns] reads [seq_pattern["confidence"]], the
    [KeyError] is caught, and the answer is a failure with the error text
    ['confidence']; nothing is stored.  (Where the cutoff of the window is
    not a date the call has failed before, with the text of the
    [OverflowError].) *)
Theorem analysis_fails_when_a_sequence_repeats now days db :
  finds_sequence (window now days db) = true ->
  HabitLearningEngine.analyze_recent_events now days (Some db)
  = (Failure match days_before now days with
             | inr _ => "'confidence'"
             | inl e => str e
             end, Some db).
Proof.
  unfold finds_sequence. intros Hseq.
  destruct (HabitLearningEngine._detect_sequential_patterns (window now days db))
    as [|[|p found]] eqn:Hrun; try discriminate.
  assert (Hp : p !! "confidence" = None).
  { eapply sequential_pattern_has_no_confidence; [exact Hrun|]. apply elem_of_cons; by left. }
  unfold HabitLearningEngine.analyze_recent_events, method.
  destruct (cutoff_exists now days) eqn:Hexists;
    [|by destruct (days_before_missing _ _ Hexists) as [message ->]].
  rewrite (days_before_exists _ _ Hexists). cbn [bind ret].
  fold (window now days db).
  destruct (window now days db) as [|e es] eqn:Hw; [discriminate|].
  unfold HabitLearningEngine._detect_patterns. rewrite Hrun. cbn [bind ret].
  unfold HabitLearningEngine.keep_confident at 1. cbn [for_each].
  unfold getitem at 1. rewrite Hp.
  reflexivity.
Qed.

(** Chrome opened three times, one minute apart: the detector counts the
    pair Chrome, Chrome twice and gives it the confidence
    [min(0.95, 0.7 + 2 * 0.05)]; the analysis fails. *)
Lemma chrome_opened_three_times :
  HabitLearningEngine._detect_sequential_patterns (window (today + 3 * minute) 7 chrome_store)
  = ret [ mkdict [ ("pattern_type", VStr "sequential");
                   ("description", VStr "Chrome → Chrome");
                   ("occurrences", VInt 2);
                   ("confidence_score",
                      VNum (qmin (95 # 100) ((7 # 10) + inject_Z 2 * (5 # 100))%Q)) ] ]
  /\ HabitLearningEngine.analyze_recent_events (today + 3 * minute) 7 (Some chrome_store)
     = (Failure "'confidence'", Some chrome_store).
Proof.
  split; [by_computation|].
  apply (analysis_fails_when_a_sequence_repeats (today + 3 * minute) 7 chrome_store).
  vm_compute; reflexivity.
Defined.

(* ===================================================================== *)
(** ** Search (memory_manager.py, semantic_search and search_memories)    *)
(* ===================================================================== *)

#[local] Instance less_similar_trans : Transitive less_similar.
Proof. intros x y z. unfold less_similar. apply Qle_trans. Qed.

(** The sort of [semantic_search] puts the least similar first: the key
    starts with the negated score and the list is sorted with
    [reverse=True]. *)
Lemma semantic_sort_ascending (l : list dict) :
  StronglySorted less_similar
    (sort (fun x y => negb (MemoryManager.semantic_key_ltb x y)) l).
Proof.
  apply Sorted_StronglySorted; [apply _|]. apply sort_Sorted.
  - intros x y [Hlt _]%negb_true_iff%orb_false_elim.
    apply Qltb_false in Hlt. unfold less_similar. lra.
  - intros x y [Hlt|[Heq _]%andb_prop]%negb_false_iff%orb_prop; unfold less_similar.
    + apply Qltb_true in Hlt. lra.
    + apply Qeq_bool_iff in Heq. lra.
Qed.

(** C5, what the code does.  The memories that [semantic_search] returns
    are in ascending order of similarity: whenever one result stands
    before another, its score is at most the other's. *)
Theorem semantic_search_lists_least_similar_first
    {vectorizer : Type} (fit : list string -> option vectorizer) cosine
    query memory_type limit threshold db results db' :
  MemoryManager.semantic_search fit cosine query memory_type limit threshold (Some db)
  = (Success results, db') ->
  StronglySorted less_similar results.
Proof.
  unfold MemoryManager.semantic_search, method.
  destruct (find _ _) as [|m ms]; [intros [= <- _]; constructor|].
  destruct (negb _); [intros [= <- _]; constructor|].
  destruct (MemoryManager.fit_corpus _ _ _) as [v|]; [|intros [= <- _]; constructor].
  cbn [bind ret]. intros [= <- _].
  apply slice_to_StronglySorted, semantic_sort_ascending.
Qed.

(** The query "alpha" over the memories "alpha" and "alpha beta": the
    memory that equals the query comes last. *)
Lemma least_similar_memory_comes_first :
  let run := MemoryManager.semantic_search example_fit example_cosine "alpha" None 20
               (3 # 10) (Some similarity_store) in
  map (fun m : dict => (m !! "content", m !! "similarity_score")) (payload run.1)
  = [ (Some (VStr "alpha beta"), Some (VNum (51 # 100)));
      (Some (VStr "alpha"), Some (VNum 1)) ]
  /\ StronglySorted less_similar (payload run.1).
Proof.
  intros run. split; [by_computation|].
  apply (semantic_search_lists_least_similar_first example_fit example_cosine
           "alpha" None 20 (3 # 10) similarity_store (payload run.1) run.2).
  by_computation.
Defined.

(** C7, amended.  On an empty corpus, on memories that all have empty
    content, on a corpus that the vectorizer refuses, [semantic_search]
    answers with success and no memory; when the start of the window,
    [days] before now, is a date and no event lies in the window,
    [analyze_recent_events] answers with success, no pattern and no habit;
    when the start of the window is not a date it answers with a failure.
    The database is left as it was. *)
Theorem degenerate_inputs_give_an_empty_success :
  (forall vectorizer (fit : list string -> option vectorizer) cosine
          query memory_type limit threshold db,
     find (MemoryManager.active memory_type) (memories db) = [] ->
     MemoryManager.semantic_search fit cosine query memory_type limit threshold (Some db)
     = (Success [], Some db))
  /\ (forall vectorizer (fit : list string -> option vectorizer) cosine
             query memory_type limit threshold db,
        Forall (fun content => truthy content = false)
          (MemoryManager.contents (find (MemoryManager.active memory_type) (memories db))) ->
        MemoryManager.semantic_search fit cosine query memory_type limit threshold (Some db)
        = (Success [], Some db))
  /\ (forall vectorizer (fit : list string -> option vectorizer) cosine
             query memory_type limit threshold db,
        MemoryManager.fit_corpus fit query
          (MemoryManager.contents (find (MemoryManager.active memory_type) (memories db)))
        = None ->
        MemoryManager.semantic_search fit cosine query memory_type limit threshold (Some db)
        = (Success [], Some db))
  /\ (forall now days db,
        cutoff_exists now days = true ->
        find [Field "timestamp" (CGte (VTime (now - days * day)))] (events db) = [] ->
        HabitLearningEngine.analyze_recent_events now days (Some db)
        = (Success {| HabitLearningEngine.patterns := [];
                      HabitLearningEngine.habits := [];
                      HabitLearningEngine.message :=
                        Some "No events in the specified time period";
                      HabitLearningEngine.analysis_period_days := None;
                      HabitLearningEngine.events_analyzed := None |},
           Some db))
  /\ (forall now days db,
        cutoff_exists now days = false ->
        exists error,
          HabitLearningEngine.analyze_recent_events now days (Some db)
          = (Failure error, Some db)).
Proof.
  split; [|split; [|split; [|split]]].
  - intros vectorizer fit cosine query memory_type limit threshold db Hnone.
    unfold MemoryManager.semantic_search, method. by rewrite Hnone.
  - intros vectorizer fit cosine query memory_type limit threshold db Hempty.
    unfold MemoryManager.semantic_search, method.
    destruct (find (MemoryManager.active memory_type) (memories db)) as [|m ms]; [done|].
    replace (existsb truthy (MemoryManager.contents (m :: ms))) with false; [done|].
    symmetry. apply not_true_is_false. intros (content & Hin & Ht)%existsb_exists.
    rewrite Forall_forall in Hempty. apply list_elem_of_In in Hin.
    specialize (Hempty _ Hin). congruence.
  - intros vectorizer fit cosine query memory_type limit threshold db Hfit.
    unfold MemoryManager.semantic_search, method.
    destruct (find (MemoryManager.active memory_type) (memories db)) as [|m ms]; [done|].
    rewrite Hfit. by destruct (negb _).
  - intros now days db Hdate Hnone.
    unfold HabitLearningEngine.analyze_recent_events, method.
    rewrite (days_before_exists _ _ Hdate). cbn [bind ret]. by rewrite Hnone.
  - intros now days db Hmissing.
    unfold HabitLearningEngine.analyze_recent_events, method.
    destruct (days_before_missing _ _ Hmissing) as [message ->]. by eexists.
Qed.

(** The four degenerate inputs: no memory at all, one memory without
    content, a corpus of stop words, no event at all; and a window of
    740000 days, which starts before the year 1. *)
Lemma degenerate_scenarios :
  MemoryManager.semantic_search example_fit example_cosine "alpha" None 20 (3 # 10)
    (Some empty_database)
  = (Success [], Some empty_database)
  /\ MemoryManager.semantic_search example_fit example_cosine "alpha" None 20 (3 # 10)
       (Some blank_store)
     = (Success [], Some blank_store)
  /\ MemoryManager.semantic_search example_fit example_cosine "the" None 20 (3 # 10)
       (Some stop_word_store)
     = (Success [], Some stop_word_store)
  /\ HabitLearningEngine.analyze_recent_events today 7 (Some empty_database)
     = (Success {| HabitLearningEngine.patterns := [];
                   HabitLearningEngine.habits := [];
                   HabitLearningEngine.message :=
                     Some "No events in the specified time period";
                   HabitLearningEngine.analysis_period_days := None;
                   HabitLearningEngine.events_analyzed := None |},
        Some empty_database)
  /\ exists error,
       HabitLearningEngine.analyze_recent_events today 740000 (Some chrome_store)
       = (Failure error, Some chrome_store).
Proof.
  destruct degenerate_inputs_give_an_empty_success
    as (Hcorpus & Hblank & Hfit & Hevents & Hmissing).
  split; [apply Hcorpus; reflexivity|].
  split; [apply Hblank; by_computation|].
  split; [apply Hfit; by_computation|].
  split; [apply Hevents; reflexivity|].
  apply Hmissing; reflexivity.
Defined.

(** C7 as stated fails where the start of the window is not a date: no
    event is stored, and the analysis of the last 740000 days answers
    with a failure. *)
Lemma no_event_and_no_window :
  events empty_database = []
  /\ HabitLearningEngine.analyze_recent_events today 740000 (Some empty_database)
     = (Failure "date value out of range", Some empty_database).
Proof. split; by_computation. Qed.

(** The filter of [semantic_search] lets only unarchived records pass. *)
Lemma active_unarchived memory_type (r : dict) :
  matches (MemoryManager.active memory_type) r = true ->
  r !! "archived" = Some (VBool false).
Proof.
  unfold matches, MemoryManager.active. cbn [forallb clause_match cond_match].
  rewrite eq_match_bool. intros [H _]%andb_prop. by apply bool_decide_eq_true in H.
Qed.

Lemma unarchived_with_score_archived db m :
  unarchived_with_score db m -> m !! "archived" = Some (VBool false).
Proof. intros (r & score & _ & Ha & [->| ->]); by rewrite lookup_insert_ne. Qed.

Lemma scored_results_from {vectorizer} (cosine : vectorizer -> string -> string -> Q)
    v query threshold limit (all_memories : list dict) m :
  m ∈ slice_to limit
        (sort (fun x y => negb (MemoryManager.semantic_key_ltb x y))
           (omap (fun ms : dict * Q =>
                    if Qle_bool threshold ms.2
                    then Some (<["similarity_score" := VNum ms.2]> ms.1)
                    else None)
              (map (fun m => match get m "content" (VStr "") with
                             | VStr s => (m, cosine v query s)
                             | _ => (m, 0%Q)
                             end) all_memories))) ->
  exists r s, r ∈ all_memories /\ m = <["similarity_score" := VNum s]> r.
Proof.
  intros Hm. apply elem_of_slice_to, elem_of_sort in Hm.
  apply list_elem_of_omap in Hm as ([r s] & Hrs & Hkeep). cbn [fst snd] in Hkeep.
  destruct (Qle_bool threshold s); [|discriminate]. injection Hkeep as <-.
  apply list_elem_of_fmap in Hrs as (r0 & Heq & Hr0).
  assert (r = r0) as -> by (destruct (get r0 _ _); by injection Heq).
  by exists r0, s.
Qed.

Lemma semantic_search_results {vectorizer} (fit : list string -> option vectorizer) cosine
    query memory_type limit threshold db results db' :
  MemoryManager.semantic_search fit cosine query memory_type limit threshold (Some db)
  = (Success results, db') ->
  forall m, m ∈ results -> unarchived_with_score db m.
Proof.
  unfold MemoryManager.semantic_search, method.
  destruct (find _ _) as [|x xs] eqn:Hfind;
    [intros [= <- _] m Hm; by apply elem_of_nil in Hm|].
  destruct (negb _); [intros [= <- _] m Hm; by apply elem_of_nil in Hm|].
  destruct (MemoryManager.fit_corpus _ _ _) as [v|];
    [|intros [= <- _] m Hm; by apply elem_of_nil in Hm].
  intros Hrun m Hm. injection Hrun as <- _.
  apply (scored_results_from cosine v query threshold limit (x :: xs)) in Hm
    as (r & s & Hr & ->).
  rewrite <- Hfind in Hr. apply elem_of_find in Hr as [Hin Hmatch].
  exists r, (VNum s). split; [done|]. split; [by eapply active_unarchived|by right].
Qed.

(** The loop that adds the match scores keeps the records it is given. *)
Lemma for_each_collect (f : dict -> py dict) (l acc out : list dict) :
  for_each (fun acc m => bind (f m) (fun m' => ret (acc ++ [m']))) acc l = ret out ->
  forall x, x ∈ out -> x ∈ acc \/ exists m, m ∈ l /\ f m = ret x.
Proof.
  revert acc. induction l as [|m l IH]; intros acc; cbn [for_each].
  - intros [= <-] x Hx. by left.
  - destruct (f m) as [e|m'] eqn:Hm; [discriminate|]. cbn [bind ret].
    intros Hrun x Hx. destruct (IH _ Hrun x Hx) as [Hacc|(m0 & Hm0 & Hf)].
    + apply elem_of_app in Hacc as [?|Hlast%list_elem_of_singleton]; [by left|].
      subst x. right. exists m. split; [by left|done].
    + right. exists m0. split; [by right|done].
Qed.

Lemma add_match_score_adds query m m' :
  MemoryManager.add_match_score query m = ret m' ->
  exists score, m' = <["match_score" := score]> m.
Proof.
  unfold MemoryManager.add_match_score.
  destruct (MemoryManager.content_lower m) as [e|c]; [discriminate|].
  cbn [bind ret]. destruct (contains _ _); [intros [= <-]; by eexists|].
  destruct (MemoryManager.any_tag_is _ m) as [e|[]]; [discriminate| |];
    intros [= <-]; by eexists.
Qed.

Lemma search_memories_results re_compile {vectorizer}
    (fit : list string -> option vectorizer) cosine
    query memory_type limit use_semantic db results db' :
  MemoryManager.search_memories re_compile fit cosine query memory_type limit
    use_semantic (Some db)
  = (Success results, db') ->
  forall m, m ∈ results -> unarchived_with_score db m.
Proof.
  unfold MemoryManager.search_memories, method.
  destruct (re_compile query "i") as [e|search]; [discriminate|]. cbn [bind ret].
  set (regex_results := Mongo.limit limit _).
  assert (Hregex : forall r, r ∈ regex_results ->
            r ∈ memories db /\ r !! "archived" = Some (VBool false)).
  { intros r Hr. apply elem_of_limit, elem_of_sort, elem_of_find in Hr as [Hin Hm].
    split; [done|]. revert Hm. unfold matches. cbn [app forallb clause_match cond_match].
    rewrite eq_match_bool. intros [H _]%andb_prop. by apply bool_decide_eq_true in H. }
  assert (Hscored : forall scored,
            for_each (fun acc m => bind (MemoryManager.add_match_score query m)
                                     (fun m' => ret (acc ++ [m']))) [] regex_results
            = ret scored ->
            forall m, m ∈ scored -> unarchived_with_score db m).
  { intros scored Hrun m Hm.
    destruct (for_each_collect _ _ _ _ Hrun m Hm) as [Hnil|(r & Hr & Hadd)];
      [by apply elem_of_nil in Hnil|].
    apply add_match_score_adds in Hadd as [score ->].
    destruct (Hregex r Hr) as [Hin Ha].
    exists r, score. split; [done|]. split; [done|by left]. }
  destruct (use_semantic && _).
  - destruct (MemoryManager.semantic_search fit cosine query memory_type limit (3 # 10)
                (Some db)) as [[ms|e] db2] eqn:Hsem; cbn [fst].
    + intros [= <- _]. by eapply semantic_search_results.
    + destruct (for_each _ _ _) as [e'|scored] eqn:Hrun; [discriminate|].
      cbn [bind ret]. intros [= <- _]. by apply Hscored.
  - destruct (for_each _ _ _) as [e'|scored] eqn:Hrun; [discriminate|].
    cbn [bind ret]. intros [= <- _]. by apply Hscored.
Qed.

(** C9, amended.  Every memory that [search_memories] or
    [semantic_search] returns is a stored record with [archived = False],
    with its score added: an archived record is in no result.
    [get_memory] does not look at [archived]: for the first stored record
    with the given id, archived or not, it answers with success and that
    record, after its own bookkeeping ([access_count] and
    [last_accessed]), and it changes no other record. *)
Theorem archived_memories_are_hidden_from_search_and_kept_by_id :
  (forall re_compile vectorizer (fit : list string -> option vectorizer) cosine
          query memory_type limit use_semantic db results db',
     MemoryManager.search_memories re_compile fit cosine query memory_type limit
       use_semantic (Some db)
     = (Success results, db') ->
     forall m, m ∈ results ->
       m !! "archived" = Some (VBool false) /\ unarchived_with_score db m)
  /\ (forall vectorizer (fit : list string -> option vectorizer) cosine
             query memory_type limit threshold db results db',
        MemoryManager.semantic_search fit cosine query memory_type limit threshold
          (Some db)
        = (Success results, db') ->
        forall m, m ∈ results ->
          m !! "archived" = Some (VBool false) /\ unarchived_with_score db m)
  /\ (forall now memory_id db pre r post n,
        memories db = pre ++ r :: post ->
        find [Field "memory_id" (CEq (VStr memory_id))] pre = [] ->
        r !! "memory_id" = Some (VStr memory_id) ->
        r !! "access_count" = Some (VInt n) ->
        MemoryManager.get_memory now memory_id (Some db)
        = (Success (touch now n r), Some (set_memories (pre ++ touch now n r :: post) db))
        /\ touch now n r !! "archived" = r !! "archived"
        /\ forall k, k ∉ ["access_count"; "last_accessed"] ->
                     touch now n r !! k = r !! k).
Proof.
  split; [|split].
  - intros re_compile vectorizer fit cosine query memory_type limit use_semantic db
      results db' Hrun m Hm.
    pose proof (search_memories_results _ _ _ _ _ _ _ _ _ _ Hrun m Hm) as H.
    split; [by eapply unarchived_with_score_archived|done].
  - intros vectorizer fit cosine query memory_type limit threshold db results db'
      Hrun m Hm.
    pose proof (semantic_search_results _ _ _ _ _ _ _ _ _ Hrun m Hm) as H.
    split; [by eapply unarchived_with_score_archived|done].
  - intros now memory_id db pre r post n Hc Hpre Hid Hcount.
    assert (Hr : matches [Field "memory_id" (CEq (VStr memory_id))] r = true).
    { unfold matches. cbn [forallb clause_match]. rewrite Hid. cbn.
      by rewrite bool_decide_eq_true_2. }
    assert (Hsame : matches [Field "memory_id" (CEq (VStr memory_id))] (touch now n r)
                    = true).
    { etrans; [|exact Hr]. unfold matches, touch. cbn [forallb clause_match].
      by rewrite !lookup_insert_ne. }
    split; [|split].
    + unfold MemoryManager.get_memory, method. rewrite Hc.
      erewrite update_one_first; [|done|done|].
      * cbn [bind ret fst snd memories set_memories].
        rewrite (find_one_first _ _ _ _ Hpre Hsame). reflexivity.
      * cbn. by rewrite Hcount.
    + unfold touch. by rewrite !lookup_insert_ne.
    + intros k Hk. unfold touch. rewrite !lookup_insert_ne; set_solver.
Qed.

(** Two memories about "alpha", the first one archived: both searches
    return the second one only, and [get_memory] still returns the first. *)
Lemma archived_memory_scenario :
  let by_word := MemoryManager.search_memories example_re example_fit example_cosine
                   "alpha" None 20 true (Some archive_store) in
  let by_similarity := MemoryManager.semantic_search example_fit example_cosine
                         "alpha" None 20 (3 # 10) (Some archive_store) in
  nth_memory archive_store 0 !! "archived" = Some (VBool true)
  /\ map (fun m : dict => m !! "content") (payload by_word.1)
     = [Some (VStr "alpha is here")]
  /\ Forall (fun m : dict => m !! "archived" = Some (VBool false)) (payload by_word.1)
  /\ map (fun m : dict => m !! "content") (payload by_similarity.1)
     = [Some (VStr "alpha is here")]
  /\ Forall (fun m : dict => m !! "archived" = Some (VBool false))
       (payload by_similarity.1)
  /\ exists db',
       MemoryManager.get_memory (today + minute) "mem_1762128000000" (Some archive_store)
       = (Success (touch (today + minute) 0 (nth_memory archive_store 0)), Some db')
       /\ touch (today + minute) 0 (nth_memory archive_store 0) !! "archived"
          = Some (VBool true).
Proof.
  intros by_word by_similarity.
  destruct archived_memories_are_hidden_from_search_and_kept_by_id
    as (Hword & Hsimilarity & Hget).
  split; [by_computation|]. split; [by_computation|].
  split.
  { apply Forall_forall. intros m Hm.
    apply (Hword example_re unit example_fit example_cosine "alpha" None 20 true
             archive_store (payload by_word.1) by_word.2); [by_computation|exact Hm]. }
  split; [by_computation|].
  split.
  { apply Forall_forall. intros m Hm.
    apply (Hsimilarity unit example_fit example_cosine "alpha" None 20 (3 # 10)
             archive_store (payload by_similarity.1) by_similarity.2);
      [by_computation|exact Hm]. }
  destruct (Hget (today + minute) "mem_1762128000000" archive_store
              [] (nth_memory archive_store 0) [nth_memory archive_store 1] 0)
    as (Hrun & Harchived & _);
    [by_computation|reflexivity|by_computation|by_computation|].
  eexists. split; [exact Hrun|]. rewrite Harchived. by_computation.
Defined.

(** C9 read for every archived record fails where two records share an
    id, as two memories saved in the same millisecond do: the second
    record of the store carries the id and is archived, and [get_memory]
    answers with the first one, which is not archived. *)
Lemma archived_twin_is_not_returned :
  let id := "mem_1753488000000" in
  let read := MemoryManager.get_memory (today + minute) id (Some twin_store) in
  stored_field (memories twin_store) 0 "memory_id" = Some (VStr id)
  /\ stored_field (memories twin_store) 1 "memory_id" = Some (VStr id)
  /\ stored_field (memories twin_store) 1 "content" = Some (VStr "beta")
  /\ stored_field (memories twin_store) 1 "archived" = Some (VBool true)
  /\ read.1 = Success (touch (today + minute) 0 (nth_memory twin_store 0))
  /\ nth_memory twin_store 0 !! "content" = Some (VStr "alpha")
  /\ nth_memory twin_store 0 !! "archived" = Some (VBool false)
  /\ stored_field (memories (the read.2)) 1 "access_count" = Some (VInt 0).
Proof. cbv zeta. repeat split; by_computation. Qed.

(* ===================================================================== *)
(** ** Behavioural learning (preference_manager.py)                       *)
(* ===================================================================== *)

(** [_analyze_interaction_preferences] asks the store for the memories
    whose field [memory_type] is "conversation"; a store without that
    field answers with none. *)
Lemma find_memory_type_none cutoff (c : collection) :
  Forall (fun m => m !! "memory_type" = None) c ->
  find [ Field "timestamp" (CGte (VTime cutoff));
         Field "memory_type" (CEq (VStr "conversation")) ] c = [].
Proof.
  intros Hc. apply find_nil_Forall. eapply Forall_impl; [exact Hc|].
  intros m Hm. unfold matches. cbn [forallb clause_match]. rewrite Hm.
  cbn. apply andb_false_r.
Qed.

(** [save_memory] writes the type of a memory in the field [type]; it
    never writes a field [memory_type]. *)
Lemma save_memory_writes_no_memory_type now memory_type content context tags
    importance db :
  Forall (fun m => m !! "memory_type" = None) (memories db) ->
  exists db',
    (MemoryManager.save_memory now memory_type content context tags importance
       (Some db)).2 = Some db'
    /\ Forall (fun m => m !! "memory_type" = None) (memories db').
Proof.
  intros Hdb. eexists. split; [reflexivity|].
  cbn [memories set_memories]. unfold insert_one. apply Forall_app. split; [done|].
  constructor; [|constructor]. unfold mkdict. cbn [list_to_map foldr]. by lookup_fields.
Qed.

(** C8, what the code does.  On a store whose memories were written by
    [save_memory], whatever the number of conversation memories, the
    interaction analysis finds no memory and infers nothing: no candidate
    of [analyze_behavior_for_preferences] has the category
    "interaction". *)
Theorem conversation_memories_never_reach_the_style_analysis now days db answer db' :
  Forall (fun m => m !! "memory_type" = None) (memories db) ->
  PreferenceManager.analyze_behavior_for_preferences now days (Some db)
  = (Success answer, db') ->
  PreferenceManager._analyze_interaction_preferences (now - days * day) db = []
  /\ forall p, p ∈ PreferenceManager.patterns answer ->
               PreferenceManager.category p <> "interaction".
Proof.
  intros Hdb Hrun.
  assert (Hnone : PreferenceManager._analyze_interaction_preferences
                    (now - days * day) db = []).
  { unfold PreferenceManager._analyze_interaction_preferences.
    by rewrite find_memory_type_none. }
  split; [exact Hnone|].
  unfold PreferenceManager.analyze_behavior_for_preferences in Hrun.
  destruct (cutoff_exists now days) eqn:Hdate.
  2: { destruct (days_before_missing _ _ Hdate) as [message Hraise].
       rewrite Hraise in Hrun. discriminate Hrun. }
  rewrite (days_before_exists _ _ Hdate) in Hrun. cbn [ret] in Hrun.
  rewrite Hnone in Hrun.
  injection Hrun as <- _. cbn [PreferenceManager.patterns]. intros p.
  rewrite !elem_of_app. intros [Hp|[Hp|Hp]].
  - unfold PreferenceManager._analyze_app_preferences in Hp.
    destruct (_ =? 0)%nat; [by apply elem_of_nil in Hp|].
    destruct (PreferenceManager.named _ _) as [e|names]; cbn in Hp;
      [by apply elem_of_nil in Hp|].
    apply list_elem_of_omap in Hp as (x & _ & Hx).
    destruct (Qltb _ _); [|done]. by injection Hx as <-.
  - unfold PreferenceManager._analyze_time_preferences in Hp.
    destruct (_ =? 0)%nat; [by apply elem_of_nil in Hp|].
    destruct (most_common _ _) as [|[t n] ?]; cbn in Hp; [by apply elem_of_nil in Hp|].
    destruct (Qltb _ _); cbn in Hp; [|by apply elem_of_nil in Hp].
    apply list_elem_of_singleton in Hp. by subst.
  - unfold PreferenceManager._analyze_command_preferences in Hp.
    destruct (_ =? 0)%nat; [by apply elem_of_nil in Hp|].
    destruct (PreferenceManager.named _ _) as [e|names]; cbn in Hp;
      [by apply elem_of_nil in Hp|].
    apply list_elem_of_omap in Hp as (x & _ & Hx).
    destruct (Qltb _ _); [|done]. by injection Hx as <-.
Qed.

(** Five conversation turns saved as memories: the analysis detects
    nothing, learns nothing and leaves the preference store empty. *)
Lemma five_conversations_teach_nothing :
  count_documents [Field "type" (CEq (VStr "conversation"))] (memories chat_store) = 5%nat
  /\ PreferenceManager.analyze_behavior_for_preferences (today + minute) 14
       (Some chat_store)
     = (Success {| PreferenceManager.patterns_detected := 0;
                   PreferenceManager.preferences_learned := 0;
                   PreferenceManager.patterns := [] |},
        Some chat_store)
  /\ user_preferences chat_store = []
  /\ PreferenceManager._analyze_interaction_preferences (today + minute - 14 * day)
       chat_store = [].
Proof.
  split; [by_computation|]. split; [by_computation|]. split; [reflexivity|].
  apply (conversation_memories_never_reach_the_style_analysis
           (today + minute) 14 chat_store
           {| PreferenceManager.patterns_detected := 0;
              PreferenceManager.preferences_learned := 0;
              PreferenceManager.patterns := [] |}
           (Some chat_store)); by_computation.
Defined.

(* ===================================================================== *)
(** ** Further facts about the store                                      *)
(* ===================================================================== *)

Lemma set_memories_same db : set_memories (memories db) db = db.
Proof. by destruct db. Qed.

Lemma set_user_preferences_same db : set_user_preferences (user_preferences db) db = db.
Proof. by destruct db. Qed.

Lemma set_user_patterns_same db : set_user_patterns (user_patterns db) db = db.
Proof. by destruct db. Qed.

Lemma find_one_none (q : query) (c : collection) : find q c = [] -> find_one q c = None.
Proof.
  unfold find, find_one. induction c as [|d c IH]; cbn; [done|].
  destruct (matches q d); [done|exact IH].
Qed.

Lemma update_one_at (q : query) fields (pre post : collection) (d : dict) :
  find q pre = [] -> matches q d = true ->
  update_one q (set_fields fields) (pre ++ d :: post)
  = ret (pre ++ assign fields d :: post, 1%nat).
Proof. intros Hpre Hd. apply update_one_first; [done|done|apply apply_update_set_fields]. Qed.

Lemma update_many_where_set (p : dict -> bool) fields (c : collection) :
  update_many_where p (set_fields fields) c
  = ret (map (fun d => if p d then assign fields d else d) c,
         length (List.filter
                   (fun d => p d && negb (bool_decide (assign fields d = d))) c)).
Proof.
  induction c as [|d c IH]; cbn; [done|].
  destruct (p d); rewrite ?apply_update_set_fields; cbn; rewrite IH; cbn; [|done].
  by destruct (bool_decide (assign fields d = d)).
Qed.

Lemma memory_query_matches id (r : dict) :
  r !! "memory_id" = Some (VStr id) -> matches (memory_query id) r = true.
Proof.
  intros Hid. unfold matches, memory_query. cbn. rewrite Hid. cbn.
  by rewrite bool_decide_eq_true_2.
Qed.

Lemma StronglySorted_take {A} (R : A -> A -> Prop) n (l : list A) :
  StronglySorted R l -> StronglySorted R (take n l).
Proof. intros Hl. eapply StronglySorted_app_1_l. by erewrite take_drop. Qed.

Lemma limit_StronglySorted (R : dict -> dict -> Prop) n (c : collection) :
  StronglySorted R c -> StronglySorted R (limit n c).
Proof. intros Hc. unfold limit. destruct (n =? 0); [done|by apply StronglySorted_take]. Qed.

Lemma Sorted_among {A} (R R' : A -> A -> Prop) (P : A -> Prop) (l : list A) :
  (forall x y, P x -> P y -> R x y -> R' x y) ->
  Forall P l -> Sorted R l -> Sorted R' l.
Proof.
  intros HR HP Hl. induction Hl as [|x l Hl IH Hhd]; [constructor|].
  apply Forall_cons in HP as [Hx HP]. constructor; [by apply IH|].
  destruct Hhd as [|y l Hxy]; constructor.
  apply Forall_cons in HP as [Hy _]. by apply HR.
Qed.


(* ===================================================================== *)
(** ** Expiry (memory_manager.py)                                         *)
(* ===================================================================== *)

(** The filter of [archive_expired_memories] holds of the unarchived
    records whose expiry is an instant before [now]; its [$ne] is
    implied by its [$lt]. *)
Lemma expired_due now (r : dict) : MemoryMaintenance.expired now r = due now r.
Proof.
  unfold MemoryMaintenance.expired, due, unarchived.
  rewrite cond_lt_time. cbn [cond_match]. rewrite eq_match_bool.
  destruct (r !! "expiry_date") as [[]|]; cbn; rewrite ?andb_false_r; try done.
  apply andb_comm.
Qed.

Lemma archive_changes now (r : dict) :
  due now r = true ->
  assign [("archived", VBool true); ("archived_at", VTime now)] r <> r.
Proof.
  unfold due, unarchived. intros [Hr%bool_decide_eq_true _]%andb_prop Heq.
  assert (H : assign [("archived", VBool true); ("archived_at", VTime now)] r !! "archived"
              = Some (VBool true)) by (cbn; by lookup_fields).
  rewrite Heq, Hr in H. discriminate.
Qed.

Lemma archive_expired_run now db :
  MemoryMaintenance.archive_expired_memories now (Some db)
  = (Success (length (List.filter (due now) (memories db))),
     Some (set_memories
             (map (fun r => if due now r then archive now r else r) (memories db)) db)).
Proof.
  unfold MemoryMaintenance.archive_expired_memories, method.
  rewrite update_many_where_set. cbn [bind ret fst snd].
  f_equal; [f_equal; f_equal|f_equal; f_equal].
  - apply filter_ext. intros r. rewrite expired_due.
    destruct (due now r) eqn:Hr; [|done]. cbn.
    rewrite bool_decide_eq_false_2; [done|by apply archive_changes].
  - apply map_ext. intros r. by rewrite expired_due.
Qed.

(** X1.  [archive_expired_memories] succeeds and keeps every memory in
    its place; it archives exactly the unarchived memories whose expiry
    date has passed, whatever their type and importance, leaves every
    other memory as it was, and answers with the number of memories it
    archived. *)
Theorem archive_expired_archives_exactly_the_due now db :
  exists db',
    MemoryMaintenance.archive_expired_memories now (Some db)
    = (Success (length (List.filter (due now) (memories db))), Some db')
    /\ length (memories db') = length (memories db)
    /\ forall i r, memories db !! i = Some r ->
         memories db' !! i = Some (if due now r then archive now r else r).
Proof.
  eexists. split; [apply archive_expired_run|]. cbn [memories set_memories].
  split; [apply length_map|].
  intros i r Hr. by rewrite list_lookup_fmap, Hr.
Qed.

(** X2.  A memory that was given an expiry date, [days] after now where
    that is a date, is archived by the next [archive_expired_memories]
    after that date, also when its importance is high: the protection of
    important memories in [cleanup_old_memories] does not extend to
    expiry. *)
Theorem expiry_archives_whatever_the_importance now later id days db pre r post :
  expiry_exists now days = true ->
  memories db = pre ++ r :: post ->
  find (memory_query id) pre = [] ->
  r !! "memory_id" = Some (VStr id) ->
  r !! "archived" = Some (VBool false) ->
  now + days * day < later ->
  exists n db',
    MemoryMaintenance.archive_expired_memories later
      (MemoryMaintenance.set_memory_expiry now id days (Some db)).2
    = (Success n, Some db')
    /\ memories db' !! length pre
       = Some (archive later (<["expiry_date" := VTime (now + days * day)]> r)).
Proof.
  intros Hdate Hc Hpre Hid Harch Hlater.
  unfold MemoryMaintenance.set_memory_expiry, method. fold (memory_query id).
  rewrite (days_after_exists _ _ Hdate). cbn [bind ret].
  rewrite Hc, update_one_at by (done || by apply memory_query_matches).
  cbn [bind ret fst snd Nat.eqb]. rewrite archive_expired_run.
  eexists _, _. split; [reflexivity|]. cbn [memories set_memories assign fold_left fst snd].
  rewrite list_lookup_fmap, list_lookup_middle by done. cbn.
  replace (due later _) with true; [done|].
  symmetry. unfold due, unarchived. lookup_fields.
  rewrite bool_decide_eq_true_2 by done. cbn. lia.
Qed.

Lemma expiry_archives_the_keepsake :
  exists n db',
    MemoryMaintenance.archive_expired_memories (today + 31 * day)
      (MemoryMaintenance.set_memory_expiry today "mem_1762128000000" 30
         (Some keepsake_store)).2
    = (Success n, Some db')
    /\ memories db' !! 0%nat
       = Some (archive (today + 31 * day)
                 (<["expiry_date" := VTime (today + 30 * day)]> (nth_memory keepsake_store 0))).
Proof.
  apply (expiry_archives_whatever_the_importance today (today + 31 * day)
           "mem_1762128000000" 30 keepsake_store [] (nth_memory keepsake_store 0) []).
  - vm_compute. reflexivity.
  - by_computation.
  - reflexivity.
  - by_computation.
  - by_computation.
  - vm_compute. reflexivity.
Defined.

(* ===================================================================== *)
(** ** Memories by id (memory_manager.py)                                 *)
(* ===================================================================== *)

(** X3.  With an id that no stored memory carries, [get_memory],
    [delete_memory] and [update_memory_relevance] answer "Memory not
    found", and so does [set_memory_expiry] when the expiry date, [days]
    after now, is a date; otherwise it answers with the text of the
    overflow error.  All four leave the database as it was. *)
Theorem unknown_memory_id_changes_nothing now id score days db :
  find (memory_query id) (memories db) = [] ->
  MemoryManager.get_memory now id (Some db) = (Failure "Memory not found", Some db)
  /\ MemoryManager.delete_memory now id (Some db) = (Failure "Memory not found", Some db)
  /\ MemoryMaintenance.update_memory_relevance id score (Some db)
     = (Failure "Memory not found", Some db)
  /\ MemoryMaintenance.set_memory_expiry now id days (Some db)
     = (Failure match days_after now days with
                | inr _ => "Memory not found"
                | inl e => str e
                end, Some db).
Proof.
  intros Hnil.
  unfold MemoryManager.get_memory, MemoryManager.delete_memory,
    MemoryMaintenance.update_memory_relevance, MemoryMaintenance.set_memory_expiry, method.
  fold (memory_query id). rewrite !update_one_no_match by done.
  cbn [bind ret fst snd Nat.eqb]. rewrite set_memories_same, find_one_none by done.
  repeat (split; [done|]).
  destruct (days_after now days) as [e|expiry_date]; cbn [bind ret raise]; [done|].
  rewrite update_one_no_match by done. cbn [bind ret fst snd Nat.eqb].
  by rewrite set_memories_same.
Qed.

Lemma unknown_memory_id_scenario :
  MemoryManager.get_memory today "mem_0" (Some keepsake_store)
  = (Failure "Memory not found", Some keepsake_store)
  /\ MemoryManager.delete_memory today "mem_0" (Some keepsake_store)
     = (Failure "Memory not found", Some keepsake_store)
  /\ MemoryMaintenance.update_memory_relevance "mem_0" (1 # 2) (Some keepsake_store)
     = (Failure "Memory not found", Some keepsake_store)
  /\ MemoryMaintenance.set_memory_expiry today "mem_0" 7 (Some keepsake_store)
     = (Failure "Memory not found", Some keepsake_store).
Proof.
  apply (unknown_memory_id_changes_nothing today "mem_0" (1 # 2) 7 keepsake_store).
  by_computation.
Defined.

(** [save_memory] appends one record. *)
Lemma save_memory_run now memory_type content context tags importance db :
  exists m,
    MemoryManager.save_memory now memory_type content context tags importance (Some db)
    = (Success (memory_id_at now), Some (set_memories (memories db ++ [m]) db))
    /\ m !! "memory_id" = Some (VStr (memory_id_at now))
    /\ m !! "content" = Some (VStr content)
    /\ m !! "type" = Some (VStr memory_type)
    /\ m !! "importance" = Some (VStr importance)
    /\ m !! "archived" = Some (VBool false)
    /\ m !! "access_count" = Some (VInt 0)
    /\ m !! "timestamp" = Some (VTime now)
    /\ m !! "context" = Some (VDict (default ∅ context)).
Proof.
  eexists. split; [reflexivity|].
  unfold mkdict. cbn [list_to_map foldr]. by lookup_fields.
Qed.

(** [get_memory] on the first record with the id, read [n] times
    before. *)
Lemma get_memory_at later id n db (pre post : collection) (m : dict) :
  memories db = pre ++ m :: post ->
  find (memory_query id) pre = [] ->
  m !! "memory_id" = Some (VStr id) ->
  m !! "access_count" = Some (VInt n) ->
  MemoryManager.get_memory later id (Some db)
  = (Success (touch later n m), Some (set_memories (pre ++ touch later n m :: post) db)).
Proof.
  intros Hc Hpre Hid Hn. unfold MemoryManager.get_memory, method.
  fold (memory_query id). rewrite Hc.
  erewrite update_one_first; [|done|by apply memory_query_matches|].
  2:{ unfold apply_update. cbn [for_each apply_op bind ret]. rewrite Hn.
      cbn [bind ret]. reflexivity. }
  cbn [bind ret fst snd memories set_memories]. fold (touch later n m).
  erewrite find_one_first; [done|done|].
  apply memory_query_matches. unfold touch. by lookup_fields.
Qed.

(** X4.  A memory saved under an id that was free is read back by
    [get_memory] with the content, type and importance it was saved
    with; the read counts as its first access. *)
Theorem saved_memory_is_read_back now later memory_type content context tags importance db :
  find (memory_query (memory_id_at now)) (memories db) = [] ->
  exists m db',
    MemoryManager.get_memory later (memory_id_at now)
      (MemoryManager.save_memory now memory_type content context tags importance
         (Some db)).2
    = (Success m, Some db')
    /\ m !! "content" = Some (VStr content)
    /\ m !! "type" = Some (VStr memory_type)
    /\ m !! "importance" = Some (VStr importance)
    /\ m !! "archived" = Some (VBool false)
    /\ m !! "access_count" = Some (VInt 1)
    /\ m !! "last_accessed" = Some (VTime later).
Proof.
  intros Hfree.
  destruct (save_memory_run now memory_type content context tags importance db)
    as (m & -> & Hid & Hcontent & Htype & Himportance & Harchived & Hcount & _).
  cbn [snd].
  rewrite (get_memory_at later (memory_id_at now) 0 _ (memories db) [] m) by done.
  eexists _, _. split; [reflexivity|]. unfold touch. by lookup_fields.
Qed.

Lemma keepsake_is_read_back :
  exists m db',
    MemoryManager.get_memory (today + minute) (memory_id_at today)
      (MemoryManager.save_memory today "fact" "the safe opens with 2580" None None "high"
         (Some empty_database)).2
    = (Success m, Some db')
    /\ m !! "content" = Some (VStr "the safe opens with 2580")
    /\ m !! "type" = Some (VStr "fact")
    /\ m !! "importance" = Some (VStr "high")
    /\ m !! "archived" = Some (VBool false)
    /\ m !! "access_count" = Some (VInt 1)
    /\ m !! "last_accessed" = Some (VTime (today + minute)).
Proof.
  apply (saved_memory_is_read_back today (today + minute) "fact"
           "the safe opens with 2580" None None "high" empty_database).
  reflexivity.
Defined.

(** X5.  Memory ids are millisecond timestamps.  Two memories saved
    within the same millisecond get the same id, both are stored, and
    [get_memory] under that id answers with the first: the second
    cannot be read by its id. *)
Theorem same_millisecond_memories_share_an_id
    now1 now2 later type1 type2 content1 content2 context1 context2 tags1 tags2
    importance1 importance2 db :
  millis now1 = millis now2 ->
  find (memory_query (memory_id_at now1)) (memories db) = [] ->
  let first_ := MemoryManager.save_memory now1 type1 content1 context1 tags1 importance1
                  (Some db) in
  let second := MemoryManager.save_memory now2 type2 content2 context2 tags2 importance2
                  first_.2 in
  second.1 = first_.1
  /\ exists m db',
       MemoryManager.get_memory later (memory_id_at now1) second.2 = (Success m, Some db')
       /\ m !! "content" = Some (VStr content1)
       /\ length (memories db') = S (S (length (memories db))).
Proof.
  intros Hms Hfree first_ second. subst first_ second.
  destruct (save_memory_run now1 type1 content1 context1 tags1 importance1 db)
    as (m1 & -> & Hid & Hcontent & _ & _ & _ & Hcount & _).
  cbn [fst snd].
  destruct (save_memory_run now2 type2 content2 context2 tags2 importance2
              (set_memories (memories db ++ [m1]) db)) as (m2 & -> & _).
  cbn [fst snd memories set_memories].
  split; [unfold memory_id_at; by rewrite Hms|].
  rewrite (get_memory_at later (memory_id_at now1) 0 _ (memories db) [m2] m1);
    [|by cbn; rewrite <- app_assoc|done..].
  eexists _, _. split; [reflexivity|]. split; [unfold touch; by lookup_fields|].
  cbn [memories set_memories]. rewrite length_app. cbn. lia.
Qed.

Lemma two_memories_in_one_millisecond :
  let first_ := MemoryManager.save_memory today "fact" "alpha" None None "medium"
                  (Some empty_database) in
  let second := MemoryManager.save_memory (today + 500) "fact" "beta" None None "medium"
                  first_.2 in
  second.1 = first_.1
  /\ exists m db',
       MemoryManager.get_memory (today + minute) (memory_id_at today) second.2
       = (Success m, Some db')
       /\ m !! "content" = Some (VStr "alpha")
       /\ length (memories db') = S (S (length (memories empty_database))).
Proof.
  apply (same_millisecond_memories_share_an_id today (today + 500) (today + minute)
           "fact" "fact" "alpha" "beta" None None None None "medium" "medium"
           empty_database).
  - vm_compute. reflexivity.
  - reflexivity.
Defined.


(* ===================================================================== *)
(** ** Listings (memory_manager.py)                                       *)
(* ===================================================================== *)

Lemma listed_from_spec (q : query) spec n (c : collection) (m : dict) :
  m ∈ limit n (sort_by spec (find q c)) -> m ∈ c /\ matches q m = true.
Proof. intros H%elem_of_limit%elem_of_sort. by apply elem_of_find. Qed.

Lemma listed_from (q : query) field n (c : collection) (m : dict) :
  m ∈ limit n (sort_by [(field, Descending)] (find q c)) ->
  m ∈ c /\ matches q m = true.
Proof. apply listed_from_spec. Qed.





(* ===================================================================== *)
(** ** Conversations (memory_manager.py)                                  *)
(* ===================================================================== *)

(** The sweeps of [cleanup_old_memories] leave a record of medium
    importance as it was. *)
Lemma sweeps_keep_medium now policies (r : dict) ty :
  r !! "type" = Some (VStr ty) ->
  r !! "importance" = Some (VStr "medium") ->
  fold_left (fun x policy => sweep1 now policy x) policies r = r.
Proof.
  intros Hty Himportance. induction policies as [|[p dd] policies IH];
    cbn [fold_left]; [done|].
  rewrite (sweep1_typed _ _ _ _ _ Hty) by (by rewrite Himportance).
  unfold low_importance. rewrite Himportance.
  rewrite (bool_decide_eq_false_2 (Some (VStr "medium") = Some (VStr "low"))) by done.
  rewrite andb_false_r. exact IH.
Qed.

(** X8.  A message added with [add_to_conversation] is saved as a
    conversation memory of medium importance, and no later
    [cleanup_old_memories] archives it, however old it is and whatever
    [days_to_keep], whether the cleanup succeeds or fails on a date out
    of range: the retention period of conversations never applies to the
    turns recorded this way. *)
Theorem conversation_turns_outlive_every_cleanup
    now later days id role message metadata contexts db :
  exists answer db' m,
    MemoryManager.cleanup_old_memories later days
      (MemoryMaintenance.add_to_conversation now id role message metadata contexts
         (Some db)).2
    = (answer, Some db')
    /\ memories db' !! length (memories db) = Some m
    /\ m !! "content" = Some (VStr message)
    /\ m !! "type" = Some (VStr "conversation")
    /\ m !! "importance" = Some (VStr "medium")
    /\ m !! "archived" = Some (VBool false).
Proof.
  unfold MemoryMaintenance.add_to_conversation. cbn [snd].
  destruct (save_memory_run now "conversation" message
              (Some (<["conversation_id" := id]> (<["role" := role]> ∅)))
              (Some ["conversation"; role]) "medium" db)
    as (m & -> & _ & Hcontent & Htype & Himportance & Harchived & _).
  cbn [snd]. unfold MemoryManager.cleanup_old_memories.
  destruct (days_before later days) as [e|cutoff_date].
  { eexists _, _, m. split; [reflexivity|]. cbn [memories set_memories].
    by rewrite list_lookup_middle. }
  cbn [memories set_memories].
  destruct (cleanup_loop_front later (MemoryManager.retention_policies days)
              (memories db ++ [m]) 0) as (raised & swept & rest & n & -> & _ & _).
  cbn [fst snd]. eexists _, _, m. split; [reflexivity|].
  cbn [memories set_memories].
  rewrite list_lookup_fmap, list_lookup_middle by done. cbn [fmap option_fmap option_map].
  by rewrite (sweeps_keep_medium later swept m "conversation").
Qed.

Section RelatedFacts.

Context {vectorizer : Type} (fit : list string -> option vectorizer)
  (cosine : vectorizer -> string -> string -> Q).

Lemma related_to_spec id (r : dict) :
  MemoryMaintenance.related_to id r = true ->
  r !! "archived" = Some (VBool false) /\ of_conversation id r.
Proof.
  unfold MemoryMaintenance.related_to, nested_eq. cbn [cond_match].
  rewrite eq_match_bool. intros [Hctx Harch%bool_decide_eq_true]%andb_prop.
  split; [done|]. destruct (r !! "context") as [[]|] eqn:Hc; try done.
  apply bool_decide_eq_true in Hctx. by eexists.
Qed.

Lemma most_similar_first_sorted (l : list dict) :
  StronglySorted more_similar (MemoryMaintenance.most_similar_first l).
Proof.
  apply Sorted_StronglySorted; [intros x y z; unfold more_similar; lra|].
  apply sort_Sorted; unfold more_similar.
  - intros x y H%negb_true_iff%Qltb_false. lra.
  - intros x y H%negb_false_iff%Qltb_true. lra.
Qed.

Lemma with_similarity_spec v q (r : dict) :
  MemoryMaintenance.with_similarity cosine v q r = r
  \/ exists s, MemoryMaintenance.with_similarity cosine v q r
               = <["similarity_score" := VNum s]> r.
Proof.
  unfold MemoryMaintenance.with_similarity.
  destruct (get r "content" (VStr "")); try by left. right. by eexists.
Qed.

Lemma with_similarity_text v q (r : dict) s :
  get r "content" (VStr "") = VStr s ->
  MemoryMaintenance.with_similarity cosine v q r
  = <["similarity_score" := VNum (cosine v q s)]> r.
Proof. unfold MemoryMaintenance.with_similarity. by intros ->. Qed.

Lemma texts_all_strings (l : list dict) ts :
  MemoryManager.texts (MemoryManager.contents l) = Some ts ->
  Forall (fun r => exists s, get r "content" (VStr "") = VStr s) l.
Proof.
  unfold MemoryManager.texts, MemoryManager.contents. revert ts.
  induction l as [|r l IH]; intros ts; [constructor|].
  cbn. destruct (get r "content" (VStr "")) eqn:Hr; try done.
  cbn. destruct (mapM _ _) eqn:Hl; [|done]. intros _.
  constructor; [by eexists|]. by eapply IH.
Qed.

End RelatedFacts.

(** X9.  [search_related_memories] answers only with stored, unarchived
    memories of the conversation asked for, each as stored or with a
    similarity score added. *)
Theorem related_memories_belong_to_the_conversation
    {vectorizer : Type} (fit : list string -> option vectorizer) cosine
    id query limit db results db' :
  MemoryMaintenance.search_related_memories fit cosine id query limit (Some db)
  = (Success results, db') ->
  Forall (fun m => exists r,
            r ∈ memories db
            /\ r !! "archived" = Some (VBool false)
            /\ of_conversation id r
            /\ (m = r \/ exists s, m = <["similarity_score" := VNum s]> r)) results.
Proof.
  unfold MemoryMaintenance.search_related_memories, method. cbn [bind ret].
  intros [= <- _]. apply Forall_forall. intros m Hm%elem_of_slice_to.
  set (related := find_where (MemoryMaintenance.related_to id) (memories db)) in *.
  assert (Hrelated : forall r, r ∈ related ->
            r ∈ memories db /\ r !! "archived" = Some (VBool false) /\ of_conversation id r).
  { intros r Hr. subst related. unfold find_where in Hr.
    apply list_elem_of_In, filter_In in Hr as [Hr Hrel].
    split; [by apply list_elem_of_In|]. by apply related_to_spec. }
  assert (Hplain : m ∈ related ->
            exists r, r ∈ memories db /\ r !! "archived" = Some (VBool false)
                      /\ of_conversation id r
                      /\ (m = r \/ exists s, m = <["similarity_score" := VNum s]> r)).
  { intros Hr. exists m. destruct (Hrelated m Hr) as (? & ? & ?). eauto. }
  assert (Hnewest : m ∈ MemoryMaintenance.newest_first related -> m ∈ related).
  { apply elem_of_sort. }
  destruct (match query with
            | Some q => if nonempty q && negb (length related =? 0)%nat then Some q else None
            | None => None
            end) as [q|]; [|by auto].
  destruct (existsb truthy _); [|by auto].
  destruct (MemoryManager.fit_corpus _ _ _) as [v|]; [|by auto].
  apply elem_of_sort, list_elem_of_fmap in Hm as (r & -> & Hr).
  exists r. destruct (Hrelated r Hr) as (? & ? & ?).
  repeat (split; [done|]). destruct (with_similarity_spec cosine v q r) as [->|[s ->]]; eauto.
Qed.

(** The two turns of the conversation "c1", the later one first. *)
Lemma related_memories_of_the_talk :
  let results := payload (MemoryMaintenance.search_related_memories example_fit
                            example_cosine "c1" None 10 (Some talk_store.2)).1 in
  map (fun m : dict => m !! "content") results
  = [Some (VStr "alpha beta"); Some (VStr "alpha")]
  /\ Forall (fun m => exists r,
               r ∈ memories talk_store.2
               /\ r !! "archived" = Some (VBool false)
               /\ of_conversation "c1" r
               /\ (m = r \/ exists s, m = <["similarity_score" := VNum s]> r)) results.
Proof.
  intros results. split; [by_computation|].
  apply (related_memories_belong_to_the_conversation example_fit example_cosine
           "c1" None 10 talk_store.2 results (Some talk_store.2)).
  by_computation.
Defined.

(** X10.  With a query that the vectorizer can fit,
    [search_related_memories] gives every memory of the conversation a
    similarity score and answers with the most similar first. *)
Theorem related_memories_come_most_similar_first
    {vectorizer : Type} (fit : list string -> option vectorizer) cosine
    id q v limit db :
  nonempty q = true ->
  existsb truthy
    (MemoryManager.contents (find_where (MemoryMaintenance.related_to id) (memories db)))
  = true ->
  MemoryManager.fit_corpus fit q
    (MemoryManager.contents (find_where (MemoryMaintenance.related_to id) (memories db)))
  = Some v ->
  exists results,
    MemoryMaintenance.search_related_memories fit cosine id (Some q) limit (Some db)
    = (Success results, Some db)
    /\ StronglySorted more_similar results
    /\ Forall (fun m => exists s, m !! "similarity_score" = Some (VNum s)) results.
Proof.
  intros Hq Hany Hfit.
  unfold MemoryMaintenance.search_related_memories, method. cbn [bind ret].
  set (related := find_where (MemoryMaintenance.related_to id) (memories db)) in *.
  rewrite Hq. destruct related as [|r related'] eqn:Hrel; [discriminate Hany|].
  cbn [length Nat.eqb negb andb]. rewrite Hany, Hfit.
  eexists. split; [reflexivity|].
  split; [apply slice_to_StronglySorted, most_similar_first_sorted|].
  apply Forall_forall. intros m Hm%elem_of_slice_to%elem_of_sort.
  apply list_elem_of_fmap in Hm as (x & -> & Hx).
  unfold MemoryManager.fit_corpus in Hfit.
  destruct (MemoryManager.texts _) as [ts|] eqn:Hts; [|discriminate Hfit].
  apply texts_all_strings in Hts. rewrite Forall_forall in Hts.
  destruct (Hts x Hx) as [s Hs]. rewrite (with_similarity_text cosine v q x s Hs).
  eexists. by lookup_fields.
Qed.

Lemma the_turn_that_equals_the_query_comes_first :
  map (fun m : dict => (m !! "content", m !! "similarity_score"))
    (payload (MemoryMaintenance.search_related_memories example_fit example_cosine "c1"
                (Some "alpha") 10 (Some talk_store.2)).1)
  = [ (Some (VStr "alpha"), Some (VNum 1));
      (Some (VStr "alpha beta"), Some (VNum (51 # 100))) ]
  /\ exists results,
       MemoryMaintenance.search_related_memories example_fit example_cosine "c1"
         (Some "alpha") 10 (Some talk_store.2)
       = (Success results, Some talk_store.2)
       /\ StronglySorted more_similar results
       /\ Forall (fun m => exists s, m !! "similarity_score" = Some (VNum s)) results.
Proof.
  split; [by_computation|].
  apply (related_memories_come_most_similar_first example_fit example_cosine
           "c1" "alpha" tt 10 talk_store.2).
  - reflexivity.
  - by_computation.
  - by_computation.
Defined.

(* ===================================================================== *)
(** ** Preferences: round trips (preference_manager.py)                   *)
(* ===================================================================== *)

Lemma find_one_split (q : query) (c : collection) (d : dict) :
  find_one q c = Some d ->
  exists pre post, c = pre ++ d :: post /\ find q pre = [] /\ matches q d = true.
Proof.
  unfold find_one, find. induction c as [|x c IH]; cbn; [done|].
  destruct (matches q x) eqn:Hx.
  - intros [= ->]. by exists [], c.
  - intros (pre & post & -> & Hpre & Hd)%IH. exists (x :: pre), post.
    cbn. by rewrite Hx.
Qed.

Lemma delete_one_no_match (q : query) (c : collection) :
  find q c = [] -> delete_one q c = (c, 0%nat).
Proof.
  unfold find. induction c as [|d c IH]; cbn; [done|].
  destruct (matches q d); [done|]. intros Hc. by rewrite IH.
Qed.

Lemma delete_one_first (q : query) (pre post : collection) (d : dict) :
  find q pre = [] -> matches q d = true ->
  delete_one q (pre ++ d :: post) = (pre ++ post, 1%nat).
Proof.
  unfold find. intros Hpre Hd. induction pre as [|x pre IH]; cbn in *; [by rewrite Hd|].
  destruct (matches q x); [done|]. by rewrite IH.
Qed.

(** What [get_preference] answers is read off the stored preference. *)
Lemma get_preference_stored category key db (d : dict) :
  stored_preference category key db = Some d ->
  PreferenceManager.get_preference category key (Some db)
  = (Success (d !! "value", d !! "source", d !! "confidence"), Some db).
Proof.
  unfold stored_preference, preference_query, PreferenceManager.get_preference, method.
  by intros ->.
Qed.

(** [apply_preference] on a stored preference. *)
Lemma apply_preference_run later category key db (d : dict) :
  stored_preference category key db = Some d ->
  exists db',
    PreferenceManager.apply_preference later category key (Some db)
    = (Success "Preference applied", Some db')
    /\ stored_preference category key db'
       = Some (assign [ ("source", VStr "manual");
                        ("modified_date", VTime later);
                        ("confidence", VNum 1) ] d)
    /\ preference_history db' = preference_history db.
Proof.
  unfold stored_preference. intros (pre & post & Hc & Hpre & Hd)%find_one_split.
  unfold PreferenceManager.apply_preference, method. fold (preference_query category key).
  rewrite Hc, update_one_at by done. cbn [bind ret fst snd Nat.eqb].
  eexists. split; [reflexivity|]. cbn [user_preferences set_user_preferences].
  split; [|done]. apply find_one_first; [done|].
  rewrite <- Hd. apply preference_query_same; cbn; by lookup_fields.
Qed.

(** X11.  A preference that was set is read back: [get_preference]
    answers with the value and the source given to [set_preference], and
    with the confidence clamped to the interval from 0 to 1, whether the
    preference existed before or not. *)
Theorem set_preference_is_read_back now category key v source confidence db :
  exists db',
    PreferenceManager.set_preference now category key v source confidence (Some db)
    = (Success ("pref_" +:+ pretty (millis now)), Some db')
    /\ PreferenceManager.get_preference category key (Some db')
       = (Success (Some v, Some (VStr source), Some (VNum (clamp01 confidence))), Some db').
Proof.
  destruct (set_preference_run now category key v source confidence db)
    as (db' & d0 & Hset & Hstored).
  exists db'. split; [done|]. rewrite (get_preference_stored _ _ _ _ Hstored).
  cbn [assign fold_left PreferenceManager.preference fst snd]. by lookup_fields.
Qed.

(** [set_preference] for a pair that has no preference yet. *)
Lemma set_preference_fresh now category key v source confidence db :
  find (preference_query category key) (user_preferences db) = [] ->
  exists d,
    PreferenceManager.set_preference now category key v source confidence (Some db)
    = (Success ("pref_" +:+ pretty (millis now)),
       Some (PreferenceManager._log_preference_change now category key v source
               (set_user_preferences (user_preferences db ++ [d]) db)))
    /\ matches (preference_query category key) d = true.
Proof.
  intros Hnil. unfold PreferenceManager.set_preference, method, update_one_upsert.
  fold (preference_query category key). rewrite update_one_no_match by done.
  cbn [bind ret fst snd]. rewrite apply_update_set_fields. cbn [bind ret fst snd].
  eexists. split; [reflexivity|].
  apply preference_query_matches; cbn; by lookup_fields.
Qed.

(** X12.  [delete_preference] without a stored preference answers
    "Preference not found" and changes nothing.  Setting a preference for
    a pair that had none and then rejecting it puts the preferences back
    as they were; only the history keeps the entry of the
    [set_preference], for the removal is not logged. *)
Theorem rejecting_a_new_preference_restores_the_store
    now category key v source confidence db :
  find (preference_query category key) (user_preferences db) = [] ->
  PreferenceReview.delete_preference category key (Some db)
  = (Failure "Preference not found", Some db)
  /\ exists db1 db2,
       PreferenceManager.set_preference now category key v source confidence (Some db)
       = (Success ("pref_" +:+ pretty (millis now)), Some db1)
       /\ PreferenceReview.reject_preference category key (Some db1)
          = (Success "Preference deleted", Some db2)
       /\ user_preferences db2 = user_preferences db
       /\ length (preference_history db2) = S (length (preference_history db))
       /\ PreferenceManager.get_preference category key (Some db2)
          = (Failure "Preference not found", Some db2).
Proof.
  intros Hnil. split.
  - unfold PreferenceReview.delete_preference, method.
    fold (preference_query category key). rewrite delete_one_no_match by done.
    cbn [bind ret fst snd Nat.eqb]. by rewrite set_user_preferences_same.
  - destruct (set_preference_fresh now category key v source confidence db Hnil)
      as (d & -> & Hd).
    eexists _, _. split; [reflexivity|].
    unfold PreferenceReview.reject_preference, PreferenceReview.delete_preference, method.
    fold (preference_query category key).
    cbn [user_preferences PreferenceManager._log_preference_change set_preference_history
           set_user_preferences].
    rewrite delete_one_first by done. cbn [bind ret fst snd Nat.eqb].
    split; [reflexivity|]. cbn [user_preferences preference_history set_user_preferences].
    rewrite app_nil_r. split; [done|].
    split; [unfold PreferenceManager._log_preference_change, insert_one;
            cbn [preference_history set_preference_history set_user_preferences];
            rewrite length_app; cbn; lia|].
    unfold PreferenceManager.get_preference, method.
    fold (preference_query category key). cbn [user_preferences].
    by rewrite find_one_none.
Qed.

Lemma rejecting_the_voice_speed :
  PreferenceReview.delete_preference "voice" "speed" (Some empty_database)
  = (Failure "Preference not found", Some empty_database)
  /\ exists db1 db2,
       PreferenceManager.set_preference today "voice" "speed" (VStr "fast") "manual" 1
         (Some empty_database)
       = (Success ("pref_" +:+ pretty (millis today)), Some db1)
       /\ PreferenceReview.reject_preference "voice" "speed" (Some db1)
          = (Success "Preference deleted", Some db2)
       /\ user_preferences db2 = user_preferences empty_database
       /\ length (preference_history db2) = S (length (preference_history empty_database))
       /\ PreferenceManager.get_preference "voice" "speed" (Some db2)
          = (Failure "Preference not found", Some db2).
Proof.
  apply (rejecting_a_new_preference_restores_the_store today "voice" "speed" (VStr "fast")
           "manual" 1 empty_database).
  reflexivity.
Defined.

(** The recommendations never hold a preference whose source is
    "manual". *)
Lemma recommended_is_not_manual category db (m : dict) :
  m ∈ payload (PreferenceReview.get_preference_recommendations category (Some db)).1 ->
  m ∈ user_preferences db /\ m !! "source" <> Some (VStr "manual")
  /\ cond_match (m !! "confidence") (CGte (VNum (7 # 10))) = true.
Proof.
  unfold PreferenceReview.get_preference_recommendations, method. cbn [ret fst payload].
  intros [Hm Hq]%listed_from. split; [done|].
  unfold matches in Hq. cbn [app forallb clause_match] in Hq.
  apply andb_prop in Hq as [Hsource [Hconf _]%andb_prop].
  split; [|done]. intros Hmanual. rewrite Hmanual in Hsource. discriminate Hsource.
Qed.

(** X13.  A preference learned with a confidence of 0.3 or more is
    stored as inferred; [apply_preference] then turns it into a manual
    preference of confidence 1.0 with the value unchanged, writes no
    history entry, and the preference is no longer among the
    recommendations. *)
Theorem applying_a_learned_preference_makes_it_manual
    now later category key v confidence db :
  (3 # 10 <= confidence)%Q ->
  exists db1 db2 d,
    PreferenceManager.learn_preference now category key v confidence (Some db)
    = (Success ("pref_" +:+ pretty (millis now)), Some db1)
    /\ PreferenceManager.get_preference category key (Some db1)
       = (Success (Some v, Some (VStr "inferred"), Some (VNum (clamp01 confidence))),
          Some db1)
    /\ PreferenceManager.apply_preference later category key (Some db1)
       = (Success "Preference applied", Some db2)
    /\ PreferenceManager.get_preference category key (Some db2)
       = (Success (Some v, Some (VStr "manual"), Some (VNum 1)), Some db2)
    /\ preference_history db2 = preference_history db1
    /\ stored_preference category key db2 = Some d
    /\ forall category',
         d ∉ payload (PreferenceReview.get_preference_recommendations category'
                        (Some db2)).1.
Proof.
  intros Hconf. unfold PreferenceManager.learn_preference.
  apply Qltb_false in Hconf. rewrite Hconf.
  destruct (set_preference_run now category key v "inferred" confidence db)
    as (db1 & d0 & Hset & Hstored).
  destruct (apply_preference_run later category key db1 _ Hstored)
    as (db2 & Happly & Hstored2 & Hhistory).
  eexists db1, db2, _. split; [done|].
  split; [rewrite (get_preference_stored _ _ _ _ Hstored);
          cbn [assign fold_left PreferenceManager.preference fst snd]; by lookup_fields|].
  split; [done|].
  split; [rewrite (get_preference_stored _ _ _ _ Hstored2);
          cbn [assign fold_left PreferenceManager.preference fst snd]; by lookup_fields|].
  split; [done|]. split; [exact Hstored2|].
  intros category' (_ & Hmanual & _)%recommended_is_not_manual.
  apply Hmanual. cbn [assign fold_left fst snd]. by lookup_fields.
Qed.

Lemma applying_the_learned_browser :
  exists db1 db2 d,
    PreferenceManager.learn_preference today "behavior" "preferred_app" (VStr "Chrome")
      (8 # 10) (Some empty_database)
    = (Success ("pref_" +:+ pretty (millis today)), Some db1)
    /\ PreferenceManager.get_preference "behavior" "preferred_app" (Some db1)
       = (Success (Some (VStr "Chrome"), Some (VStr "inferred"),
                   Some (VNum (clamp01 (8 # 10)))), Some db1)
    /\ PreferenceManager.apply_preference (today + minute) "behavior" "preferred_app"
         (Some db1)
       = (Success "Preference applied", Some db2)
    /\ PreferenceManager.get_preference "behavior" "preferred_app" (Some db2)
       = (Success (Some (VStr "Chrome"), Some (VStr "manual"), Some (VNum 1)), Some db2)
    /\ preference_history db2 = preference_history db1
    /\ stored_preference "behavior" "preferred_app" db2 = Some d
    /\ forall category',
         d ∉ payload (PreferenceReview.get_preference_recommendations category'
                        (Some db2)).1.
Proof.
  apply (applying_a_learned_preference_makes_it_manual today (today + minute)
           "behavior" "preferred_app" (VStr "Chrome") (8 # 10) empty_database).
  vm_compute. discriminate.
Defined.

(** X14.  [get_preference_recommendations] answers with at most twenty
    stored preferences, none of them manual, and none with a confidence
    below 0.7: a preference learned with a confidence between 0.3 and
    0.7 is stored but never recommended. *)
Theorem recommendations_are_confident_and_not_manual category db :
  exists recommendations,
    PreferenceReview.get_preference_recommendations category (Some db)
    = (Success recommendations, Some db)
    /\ (length recommendations <= 20)%nat
    /\ Forall (fun m => m ∈ user_preferences db
                        /\ m !! "source" <> Some (VStr "manual")
                        /\ forall q, m !! "confidence" = Some (VNum q) -> (7 # 10 <= q)%Q)
         recommendations.
Proof.
  eexists. split; [reflexivity|]. split.
  - unfold limit. cbn [Z.eqb Z.abs_nat]. rewrite length_take. lia.
  - apply Forall_forall. intros m Hm.
    destruct (recommended_is_not_manual category db m) as (Hin & Hsource & Hconf); [done|].
    split; [done|]. split; [done|]. intros q Hq. rewrite Hq in Hconf.
    cbn in Hconf. rewrite orb_false_r in Hconf.
    apply orb_prop in Hconf as [Hlt|Heq].
    + apply Qltb_true in Hlt. lra.
    + apply Qeq_bool_iff in Heq. lra.
Qed.

(* ===================================================================== *)
(** ** Habits (habit_learning.py)                                         *)
(* ===================================================================== *)

Lemma time_pattern_shape events (p : dict) :
  p ∈ HabitLearningEngine._detect_time_patterns events ->
  exists description time_period n confidence,
    p = mkdict [ ("pattern_type", VStr "time_based");
                 ("description", VStr description);
                 ("time_period", VStr time_period);
                 ("occurrences", VInt n);
                 ("confidence_score", VNum confidence) ].
Proof.
  unfold HabitLearningEngine._detect_time_patterns.
  intros Hp%list_elem_of_In%in_flat_map. destruct Hp as ([period types] & _ & Hp).
  apply list_elem_of_In, list_elem_of_omap in Hp as ([name n] & _ & Hf).
  cbn [fst snd] in Hf. destruct (Qltb _ _); [|discriminate].
  injection Hf as <-. by eexists _, _, _, _.
Qed.

Lemma frequency_pattern_shape events (p : dict) :
  p ∈ HabitLearningEngine._detect_frequency_patterns events ->
  exists description n confidence,
    p = mkdict [ ("pattern_type", VStr "frequency");
                 ("description", VStr description);
                 ("occurrences", VInt n);
                 ("confidence_score", VNum confidence) ].
Proof.
  unfold HabitLearningEngine._detect_frequency_patterns.
  intros ([name n] & _ & Hf)%list_elem_of_omap.
  cbn [fst snd] in Hf. destruct (_ && _); [|discriminate].
  injection Hf as <-. by eexists _, _, _.
Qed.

(** The pattern dicts of the detectors carry neither the key
    [confidence] nor the key [habit_id]. *)
Lemma detected_keys events (p : dict) :
  detected events p -> p !! "confidence" = None /\ p !! "habit_id" = None.
Proof.
  intros [(found & Hfound & Hp)|[Hp|Hp]].
  - destruct (sequential_pattern_shape _ _ _ Hfound Hp) as (s & n & _ & ->).
    unfold mkdict. cbn [list_to_map foldr]. by lookup_fields.
  - destruct (time_pattern_shape _ _ Hp) as (s & t & n & c & ->).
    unfold mkdict. cbn [list_to_map foldr]. by lookup_fields.
  - destruct (frequency_pattern_shape _ _ Hp) as (s & n & c & ->).
    unfold mkdict. cbn [list_to_map foldr]. by lookup_fields.
Qed.

(** A filter of [_detect_patterns] that returns was given nothing: on
    the first pattern it raises [KeyError]. *)
Lemma keep_confident_returns threshold (patterns found out : list dict) :
  Forall (fun p => p !! "confidence" = None) found ->
  HabitLearningEngine.keep_confident threshold patterns found = ret out ->
  found = [] /\ out = patterns.
Proof.
  unfold HabitLearningEngine.keep_confident. destruct found as [|p found]; cbn.
  - by intros _ [= ->].
  - intros [Hp _]%Forall_cons. unfold getitem. by rewrite Hp.
Qed.

Lemma detect_patterns_returns events (patterns : list dict) :
  HabitLearningEngine._detect_patterns events = ret patterns -> patterns = [].
Proof.
  unfold HabitLearningEngine._detect_patterns.
  destruct (HabitLearningEngine._detect_sequential_patterns events) as [e|found] eqn:Hseq;
    [discriminate|].
  cbn [bind]. destruct (HabitLearningEngine.keep_confident _ [] found) as [e|p1] eqn:H1;
    [discriminate|].
  apply keep_confident_returns in H1 as [_ ->].
  2:{ apply Forall_forall. intros p Hp. apply (detected_keys events). left. eauto. }
  cbn [bind]. destruct (HabitLearningEngine.keep_confident _ [] _) as [e|p2] eqn:H2;
    [discriminate|].
  apply keep_confident_returns in H2 as [_ ->].
  2:{ apply Forall_forall. intros p Hp. apply (detected_keys events). right. by left. }
  cbn [bind]. intros H3.
  apply keep_confident_returns in H3 as [_ ->]; [done|].
  apply Forall_forall. intros p Hp. apply (detected_keys events). right. by right.
Qed.

(** X15.  [analyze_recent_events] never writes: whatever the events, the
    database after the call is the database before it, so the collection
    of detected patterns is never filled by the analysis.  When it answers
    with success, it reports no pattern and no habit: a window in which
    any detector finds a pattern makes [_detect_patterns] raise. *)
Theorem habit_analysis_never_stores_a_pattern now days db :
  (HabitLearningEngine.analyze_recent_events now days (Some db)).2 = Some db
  /\ forall found,
       (HabitLearningEngine.analyze_recent_events now days (Some db)).1 = Success found ->
       HabitLearningEngine.patterns found = [] /\ HabitLearningEngine.habits found = [].
Proof.
  unfold HabitLearningEngine.analyze_recent_events, method.
  destruct (days_before now days) as [overflow|cutoff_date];
    [cbn; split; [done|by intros found [=]]|].
  cbn [bind ret].
  destruct (sort_by _ _) as [|e es]; [cbn; split; [done|by intros found [= <-]]|].
  destruct (HabitLearningEngine._detect_patterns (e :: es)) as [err|patterns] eqn:Hdetect;
    [cbn; split; [done|by intros found [=]]|].
  apply detect_patterns_returns in Hdetect as ->. cbn.
  unfold HabitLearningEngine._store_patterns. cbn. rewrite set_user_patterns_same.
  split; [done|]. by intros found [= <-].
Qed.

Lemma store_patterns_appends now (patterns : list dict) db :
  user_patterns (HabitLearningEngine._store_patterns now patterns db)
  = user_patterns db ++ map (HabitLearningEngine.stamp now) patterns.
Proof.
  unfold HabitLearningEngine._store_patterns. cbn [user_patterns set_user_patterns].
  generalize (user_patterns db). induction patterns as [|p patterns IH]; intros c; cbn.
  - by rewrite app_nil_r.
  - rewrite IH. unfold insert_one. by rewrite <- app_assoc.
Qed.

(** X16.  The habits handed to the user carry an id ("hab_..."), but the
    pattern documents that [_store_patterns] writes do not: on a
    collection of stored detector patterns [provide_habit_feedback]
    answers with success for every id and records nothing. *)
Theorem habit_feedback_reaches_no_stored_pattern
    now later events (patterns : list dict) pattern_id feedback db :
  Forall (detected events) patterns ->
  Forall (fun p => p !! "habit_id" = None) (user_patterns db) ->
  HabitFeedback.provide_habit_feedback later pattern_id feedback
    (Some (HabitLearningEngine._store_patterns now patterns db))
  = (Success tt, Some (HabitLearningEngine._store_patterns now patterns db)).
Proof.
  intros Hdetected Hstored. unfold HabitFeedback.provide_habit_feedback, method.
  rewrite update_one_no_match; [cbn [bind ret fst]; by rewrite set_user_patterns_same|].
  apply find_nil_Forall. rewrite store_patterns_appends. apply Forall_app. split.
  - eapply Forall_impl; [exact Hstored|]. intros p Hp. unfold matches. cbn. by rewrite Hp.
  - apply Forall_fmap. eapply Forall_impl; [exact Hdetected|]. intros p Hp.
    apply detected_keys in Hp as [_ Hp]. unfold matches, HabitLearningEngine.stamp. cbn.
    rewrite lookup_insert_ne by done. by rewrite Hp.
Qed.

Lemma feedback_on_the_chrome_habit :
  length chrome_patterns = 1%nat
  /\ HabitFeedback.provide_habit_feedback (today + 5 * minute) "hab_1762128180000" "helpful"
       (Some (HabitLearningEngine._store_patterns (today + 3 * minute) chrome_patterns
                chrome_store))
     = (Success tt,
        Some (HabitLearningEngine._store_patterns (today + 3 * minute) chrome_patterns
                chrome_store)).
Proof.
  split; [by_computation|].
  apply (habit_feedback_reaches_no_stored_pattern (today + 3 * minute) (today + 5 * minute)
           (window (today + 3 * minute) 7 chrome_store) chrome_patterns
           "hab_1762128180000" "helpful" chrome_store).
  - apply Forall_forall. intros p Hp. left. exists chrome_patterns. split; [by_computation|done].
  - constructor.
Defined.

(* ===================================================================== *)
(** ** Suggestions (suggestion_engine.py)                                 *)
(* ===================================================================== *)

Lemma update_many_count (q : query) fields (c : collection) :
  update_many q (set_fields fields) c
  = ret (map (fun d => if matches q d then assign fields d else d) c,
         length (List.filter
                   (fun d => matches q d && negb (bool_decide (assign fields d = d))) c)).
Proof.
  induction c as [|d c IH]; cbn; [done|].
  destruct (matches q d); rewrite ?apply_update_set_fields; cbn; rewrite IH; cbn; [|done].
  by destruct (bool_decide (assign fields d = d)).
Qed.

Lemma dismiss_changes now ty (d : dict) :
  pending_of_type ty d = true ->
  assign [("status", VStr "dismissed"); ("response_date", VTime now)] d <> d.
Proof.
  unfold pending_of_type, matches. cbn [forallb clause_match cond_match].
  intros [_ [Hstatus _]%andb_prop]%andb_prop Heq. rewrite <- Heq in Hstatus.
  cbn in Hstatus. by rewrite lookup_insert_ne, lookup_insert_eq in Hstatus.
Qed.

(** X17.  [dismiss_suggestion_type] marks exactly the pending suggestions
    of the type as dismissed, leaves every other suggestion as it was and
    answers with their number; afterwards no suggestion of that type is
    among the active suggestions. *)
Theorem dismissed_suggestions_are_no_longer_active now suggestion_type limit db :
  exists db',
    SuggestionEngine.dismiss_suggestion_type now suggestion_type (Some db)
    = (Success (length (List.filter (pending_of_type suggestion_type) (suggestions db))),
       Some db')
    /\ suggestions db'
       = map (fun d => if pending_of_type suggestion_type d then dismiss now d else d)
           (suggestions db)
    /\ Forall (fun m => m !! "type" <> Some (VStr suggestion_type))
         (payload (SuggestionEngine.get_active_suggestions limit (Some db')).1).
Proof.
  unfold SuggestionEngine.dismiss_suggestion_type, method.
  rewrite update_many_count. cbn [bind ret fst snd]. eexists. split; [|split].
  - f_equal. f_equal. f_equal. apply filter_ext. intros d.
    fold (pending_of_type suggestion_type d).
    destruct (pending_of_type suggestion_type d) eqn:Hd; [|done]. cbn.
    rewrite bool_decide_eq_false_2; [done|by eapply dismiss_changes].
  - done.
  - cbn [SuggestionEngine.get_active_suggestions method ret fst payload suggestions
           set_suggestions].
    apply Forall_forall. intros m [Hm Hpending]%listed_from_spec.
    apply list_elem_of_fmap in Hm as (d & -> & _).
    fold (pending_of_type suggestion_type d) in *.
    unfold matches in Hpending. cbn [forallb clause_match cond_match] in Hpending.
    rewrite andb_true_r in Hpending.
    destruct (pending_of_type suggestion_type d) eqn:Hd.
    + cbn in Hpending. by rewrite lookup_insert_ne, lookup_insert_eq in Hpending.
    + intros Htype. unfold pending_of_type, matches in Hd.
      cbn [forallb clause_match cond_match] in Hd.
      rewrite Hpending, Htype in Hd. cbn in Hd.
      by rewrite bool_decide_eq_true_2 in Hd.
Qed.

Lemma typed_suggestions (c : collection) :
  forallb is_typed_suggestion c = true -> Forall typed_suggestion c.
Proof.
  intros Hc. apply Forall_forall. intros r Hr%list_elem_of_In.
  rewrite forallb_forall in Hc. specialize (Hc r Hr).
  unfold is_typed_suggestion in Hc. unfold typed_suggestion.
  destruct (r !! "confidence_score") as [[]|]; try done.
  destruct (r !! "status") as [[]|]; try done.
  split; by eexists.
Qed.

Lemma key_ltb_floats a b : key_ltb (VNum a) (VNum b) = Qltb a b.
Proof. done. Qed.

(** The order of [get_active_suggestions] on suggestions whose
    confidence is a float: the most confident first. *)
Lemma sort_by_most_confident (c : collection) :
  Forall typed_suggestion c ->
  StronglySorted more_confident
    (sort_by [("confidence_score", Descending); ("created_date", Descending)] c).
Proof.
  intros Hc. apply Sorted_StronglySorted; [intros x y z; unfold more_confident; lra|].
  set (spec := [("confidence_score", Descending); ("created_date", Descending)]).
  apply (Sorted_among
           (fun x y => strictly_before spec y x = false \/ strictly_before spec x y = true)
           _ typed_suggestion).
  - intros x y [[qx Hx] _] [[qy Hy] _]. unfold more_confident, score_of. rewrite Hx, Hy.
    assert (Hkx : sort_key x "confidence_score" = VNum qx)
      by (unfold sort_key, get; by rewrite Hx).
    assert (Hky : sort_key y "confidence_score" = VNum qy)
      by (unfold sort_key, get; by rewrite Hy).
    subst spec. cbn [strictly_before]. cbv zeta. rewrite !Hkx, !Hky, !key_ltb_floats.
    intros [H|H].
    + apply orb_false_elim in H as [H%Qltb_false _]. lra.
    + apply orb_prop in H as [H%Qltb_true|[H%negb_true_iff%Qltb_false _]%andb_prop]; lra.
  - apply Forall_forall. intros x Hx. rewrite Forall_forall in Hc.
    apply Hc. by apply elem_of_sort in Hx.
  - apply sort_Sorted.
    + intros x y H%negb_true_iff. by left.
    + intros x y H%negb_false_iff. by right.
Qed.

(** X18.  On suggestions typed as [create_suggestion] writes them,
    [get_active_suggestions] answers with stored suggestions that are
    still pending, the most confident first, and changes nothing. *)
Theorem active_suggestions_are_pending_most_confident_first limit db :
  Forall typed_suggestion (suggestions db) ->
  exists active,
    SuggestionEngine.get_active_suggestions limit (Some db) = (Success active, Some db)
    /\ StronglySorted more_confident active
    /\ Forall (fun m => m ∈ suggestions db /\ m !! "status" = Some (VStr "pending")) active.
Proof.
  intros Htyped. eexists. split; [reflexivity|]. split.
  - apply limit_StronglySorted, sort_by_most_confident.
    apply Forall_forall. intros x [Hx _]%elem_of_find.
    rewrite Forall_forall in Htyped. by apply Htyped.
  - apply Forall_forall. intros m [Hm Hq]%listed_from_spec. split; [done|].
    rewrite Forall_forall in Htyped. destruct (Htyped m Hm) as [_ [status Hstatus]].
    unfold matches in Hq. cbn [forallb clause_match cond_match] in Hq.
    rewrite Hstatus, eq_match_str, andb_true_r in Hq by done.
    apply bool_decide_eq_true in Hq. by rewrite Hstatus.
Qed.

Lemma the_more_confident_suggestion_comes_first :
  map (fun m : dict => m !! "title")
    (payload (SuggestionEngine.get_active_suggestions 5 (Some two_suggestions_store)).1)
  = [Some (VStr "Learn: browser?"); Some (VStr "Open the editor")]
  /\ exists active,
       SuggestionEngine.get_active_suggestions 5 (Some two_suggestions_store)
       = (Success active, Some two_suggestions_store)
       /\ StronglySorted more_confident active
       /\ Forall (fun m => m ∈ suggestions two_suggestions_store
                           /\ m !! "status" = Some (VStr "pending")) active.
Proof.
  split; [by_computation|].
  apply (active_suggestions_are_pending_most_confident_first 5 two_suggestions_store).
  apply typed_suggestions. vm_compute. reflexivity.
Defined.

(* ===================================================================== *)
(** ** Expiry sweeps in sequence (memory_manager.py)                      *)
(* ===================================================================== *)

Lemma archived_is_not_due now later (r : dict) : due later (archive now r) = false.
Proof. unfold due, unarchived. by rewrite archive_archived. Qed.

(** X19.  A memory archived by [archive_expired_memories] is left alone
    by every later run: its [archived_at] keeps the instant of the run
    that archived it.  A second run at the same instant archives nothing
    and changes nothing. *)
Theorem expiry_sweep_archives_once now later db :
  exists db1 n db2,
    MemoryMaintenance.archive_expired_memories now (Some db)
    = (Success (length (List.filter (due now) (memories db))), Some db1)
    /\ MemoryMaintenance.archive_expired_memories later (Some db1) = (Success n, Some db2)
    /\ (forall i r, memories db !! i = Some r -> due now r = true ->
          memories db2 !! i = Some (archive now r))
    /\ MemoryMaintenance.archive_expired_memories now (Some db1) = (Success 0%nat, Some db1).
Proof.
  eexists _, _, _. split; [apply archive_expired_run|].
  split; [apply archive_expired_run|]. split.
  - intros i r Hr Hdue. cbn [memories set_memories].
    rewrite !list_lookup_fmap, Hr. cbn. by rewrite Hdue, archived_is_not_due.
  - rewrite archive_expired_run. cbn [memories set_memories].
    assert (Hsame : forall r : dict,
              due now (if due now r then archive now r else r) = false).
    { intros r. destruct (due now r) eqn:Hr; [apply archived_is_not_due|done]. }
    f_equal; [f_equal|f_equal].
    + induction (memories db) as [|r c IH]; [done|]. cbn. by rewrite Hsame.
    + destruct db as [ms ? ? ? ? ?]. unfold set_memories. cbn. f_equal.
      rewrite map_map. apply map_ext. intros r. by rewrite Hsame.
Qed.

(* ===================================================================== *)
(** ** The history of preferences (preference_manager.py)                 *)
(* ===================================================================== *)

(** An element that must not stand behind any other is the head of the
    sorted list when it was the last of the input. *)
Lemma sort_last_first {A} (before : A -> A -> bool) (l : list A) (x : A) :
  Forall (fun y => before y x = false) l ->
  sort before (l ++ [x]) = x :: sort before l.
Proof.
  unfold sort. rewrite foldr_app. cbn. induction 1 as [|y l Hy _ IH]; cbn; [done|].
  rewrite IH. cbn. by rewrite Hy.
Qed.

Lemma find_app (q : query) (c1 c2 : collection) : find q (c1 ++ c2) = find q c1 ++ find q c2.
Proof. apply List.filter_app. Qed.

Lemma limit_head n (x : dict) (c : collection) : head (limit n (x :: c)) = Some x.
Proof. unfold limit. destruct n; cbn; [done| |]; by destruct (Pos.to_nat _) eqn:Hp; [lia|]. Qed.

(** [set_preference] always succeeds and logs one entry. *)
Lemma set_preference_logs now category key v source confidence db :
  exists c,
    PreferenceManager.set_preference now category key v source confidence (Some db)
    = (Success ("pref_" +:+ pretty (millis now)),
       Some (PreferenceManager._log_preference_change now category key v source
               (set_user_preferences c db))).
Proof.
  unfold PreferenceManager.set_preference, method, update_one_upsert.
  destruct (update_one_spec
              [Field "category" (CEq (VStr category)); Field "key" (CEq (VStr key))]
              (set_fields (PreferenceManager.preference now category key v source
                             confidence))
              (user_preferences db))
    as [[_ ->]|(pre & d & post & _ & _ & _ & ->)];
    cbn [bind ret fst snd]; rewrite apply_update_set_fields; cbn [bind ret fst snd];
    by eexists.
Qed.

(** X20.  Every [set_preference] appends one entry to the history, and
    when the entries already there are older, [get_preference_history]
    for the category and key lists the new entry first, with the value
    and the source that were set. *)
Theorem latest_change_heads_the_history now category key v source confidence limit db :
  nonempty category = true ->
  nonempty key = true ->
  Forall (fun h => older_than now h = true) (preference_history db) ->
  exists db' entry,
    PreferenceManager.set_preference now category key v source confidence (Some db)
    = (Success ("pref_" +:+ pretty (millis now)), Some db')
    /\ preference_history db' = preference_history db ++ [entry]
    /\ head (payload (PreferenceReview.get_preference_history (Some category) (Some key)
                        limit (Some db')).1) = Some entry
    /\ entry !! "value" = Some v
    /\ entry !! "source" = Some (VStr source)
    /\ entry !! "timestamp" = Some (VTime now).
Proof.
  intros Hcategory Hkey Holder.
  destruct (set_preference_logs now category key v source confidence db) as [c ->].
  eexists _, _. split; [reflexivity|].
  cbn [preference_history PreferenceManager._log_preference_change set_preference_history
         set_user_preferences].
  split; [reflexivity|].
  split; [|unfold mkdict; cbn [list_to_map foldr]; by lookup_fields].
  unfold PreferenceReview.get_preference_history, method. cbn [ret fst payload].
  cbn [preference_history PreferenceManager._log_preference_change set_preference_history
         set_user_preferences].
  unfold PreferenceReview.category_clause, PreferenceReview.key_clause.
  rewrite Hcategory, Hkey. cbn [app]. fold (preference_query category key).
  unfold insert_one. rewrite find_app.
  set (entry := mkdict _).
  assert (Hentry : matches (preference_query category key) entry = true).
  { apply preference_query_matches; subst entry; unfold mkdict; cbn [list_to_map foldr];
      by lookup_fields. }
  assert (Hfound : find (preference_query category key) [entry] = [entry]).
  { unfold find. cbn [List.filter]. by rewrite Hentry. }
  rewrite Hfound. unfold sort_by. rewrite sort_last_first; [apply limit_head|].
  apply Forall_forall. intros h [Hh _]%elem_of_find.
  rewrite Forall_forall in Holder. specialize (Holder h Hh).
  unfold older_than in Holder. destruct (h !! "timestamp") as [[]|] eqn:Hts; try done.
  apply negb_false_iff. cbn [strictly_before]. unfold sort_key, get. rewrite Hts.
  subst entry. unfold mkdict. cbn [list_to_map foldr]. lookup_fields.
  unfold key_ltb. cbn. apply orb_true_iff. left. apply Z.ltb_lt. lia.
Qed.

Lemma a_second_change_heads_the_history :
  exists db' entry,
    PreferenceManager.set_preference (today + minute) "voice" "speed" (VStr "slow")
      "manual" 1 (Some voice_store)
    = (Success ("pref_" +:+ pretty (millis (today + minute))), Some db')
    /\ preference_history db' = preference_history voice_store ++ [entry]
    /\ head (payload (PreferenceReview.get_preference_history (Some "voice") (Some "speed")
                        1 (Some db')).1) = Some entry
    /\ entry !! "value" = Some (VStr "slow")
    /\ entry !! "source" = Some (VStr "manual")
    /\ entry !! "timestamp" = Some (VTime (today + minute)).
Proof.
  apply (latest_change_heads_the_history (today + minute) "voice" "speed" (VStr "slow")
           "manual" 1 1 voice_store).
  - reflexivity.
  - reflexivity.
  - apply Forall_forall. intros h Hh%list_elem_of_In.
    revert h Hh. apply forallb_forall. vm_compute. reflexivity.
Defined.

(* ===================================================================== *)
(** ** Patterns in the stored preferences (preference_manager.py)         *)
(* ===================================================================== *)

Lemma key_eqb_string_r (k : value) s :
  PreferencePatterns.key_eqb k (VStr s) = bool_decide (k = VStr s).
Proof. unfold PreferencePatterns.key_eqb. by destruct k. Qed.

Lemma key_eqb_string_l (k : value) s :
  PreferencePatterns.key_eqb (VStr s) k = bool_decide (k = VStr s).
Proof.
  unfold PreferencePatterns.key_eqb. destruct k; cbn; try done.
  apply bool_decide_ext. split; congruence.
Qed.

(** Counting one more source raises the count of a string source by one
    exactly when the source is that string. *)
Lemma count_of_count_one (k : value) s (source_counts : list (value * Z)) :
  PreferencePatterns.count_of (VStr s) (PreferencePatterns.count_one k source_counts)
  = PreferencePatterns.count_of (VStr s) source_counts
    + (if bool_decide (k = VStr s) then 1 else 0).
Proof.
  induction source_counts as [|[k' n] rest IH]; cbn.
  - rewrite key_eqb_string_r. case_bool_decide; lia.
  - destruct (PreferencePatterns.key_eqb k k') eqn:Hkk'; cbn;
      rewrite (key_eqb_string_r k'), ?IH.
    + destruct (decide (k' = VStr s)) as [->|Hk'].
      * rewrite key_eqb_string_r in Hkk'. apply bool_decide_eq_true in Hkk' as ->.
        by rewrite bool_decide_eq_true_2.
      * rewrite (bool_decide_eq_false_2 (k' = VStr s)) by done.
        destruct (decide (k = VStr s)) as [->|Hk].
        -- rewrite key_eqb_string_l in Hkk'. by apply bool_decide_eq_true in Hkk'.
        -- rewrite (bool_decide_eq_false_2 (k = VStr s)) by done. lia.
    + destruct (decide (k' = VStr s)) as [->|Hk'].
      * rewrite bool_decide_eq_true_2 by done.
        rewrite key_eqb_string_r in Hkk'. apply bool_decide_eq_false in Hkk'.
        rewrite (bool_decide_eq_false_2 (k = VStr s)) by done. lia.
      * by rewrite (bool_decide_eq_false_2 (k' = VStr s)) by done.
Qed.

Lemma source_counts_bound (prefs : list dict) (acc out : list (value * Z)) :
  for_each (fun source_counts pref =>
      bind (PreferencePatterns.hashable (get pref "source" VNone)) (fun k =>
      ret (PreferencePatterns.count_one k source_counts))) acc prefs = ret out ->
  forall n,
    0 <= PreferencePatterns.count_of (VStr "inferred") acc ->
    0 <= PreferencePatterns.count_of (VStr "manual") acc ->
    PreferencePatterns.count_of (VStr "inferred") acc
    + PreferencePatterns.count_of (VStr "manual") acc <= n ->
    PreferencePatterns.count_of (VStr "inferred") out
    + PreferencePatterns.count_of (VStr "manual") out <= n + Z.of_nat (length prefs).
Proof.
  revert acc. induction prefs as [|p prefs IH]; intros acc; cbn.
  - intros [= <-] n _ _ H. lia.
  - destruct (PreferencePatterns.hashable _) as [e|k]; [discriminate|]. cbn [bind ret].
    intros Hrun n Hi Hm Hsum.
    specialize (IH _ Hrun (n + 1)). rewrite !count_of_count_one in IH.
    repeat case_bool_decide; subst; try discriminate; lia.
Qed.

Lemma category_patterns_typed (groups : list (value * list dict))
    (acc out : list PreferencePatterns.pattern) :
  for_each (fun patterns (group : value * list dict) =>
      if (3 <=? length group.2)%nat then
        bind (PreferencePatterns.high_confidence group.2) (fun high =>
        if (2 <=? length high)%nat
        then ret (patterns ++ [ {| PreferencePatterns.pattern_type := "category_preference";
                                   PreferencePatterns.category := Some group.1;
                                   PreferencePatterns.confidence := 8 # 10 |} ])
        else ret patterns)
      else ret patterns) acc groups = ret out ->
  Forall (fun p => PreferencePatterns.pattern_type p = "category_preference") acc ->
  Forall (fun p => PreferencePatterns.pattern_type p = "category_preference") out.
Proof.
  match goal with |- for_each ?f _ _ = _ -> _ => set (body := f) end.
  revert acc. induction groups as [|g groups IH]; intros acc; cbn [for_each].
  - by intros [= <-].
  - unfold body at 1. destruct (3 <=? length g.2)%nat; [|apply IH].
    destruct (PreferencePatterns.high_confidence g.2) as [e|high]; [discriminate|].
    cbn [bind ret]. destruct (2 <=? length high)%nat; cbn [bind ret]; [|apply IH].
    intros Hrun Hacc. apply (IH _ Hrun). apply Forall_app. split; [done|].
    by repeat constructor.
Qed.

Lemma ratios_exclude inferred_count manual_count total :
  0 < total -> inferred_count + manual_count <= total ->
  Qltb (6 # 10) (PreferenceManager.ratio inferred_count total) = true ->
  Qltb (7 # 10) (PreferenceManager.ratio manual_count total) = true ->
  False.
Proof.
  unfold PreferenceManager.ratio. intros Htotal Hsum Hi%Qltb_true Hm%Qltb_true.
  assert (Ht : (0 < inject_Z total)%Q) by (rewrite <- (Zlt_Qlt 0); lia).
  assert (Hi' : ((6 # 10) * inject_Z total < inject_Z inferred_count)%Q).
  { apply (Qmult_lt_compat_r _ _ _ Ht) in Hi.
    rewrite Qmult_comm, (Qmult_comm (_ / _)), Qmult_div_r in Hi by lra.
    by rewrite Qmult_comm. }
  assert (Hm' : ((7 # 10) * inject_Z total < inject_Z manual_count)%Q).
  { apply (Qmult_lt_compat_r _ _ _ Ht) in Hm.
    rewrite Qmult_comm, (Qmult_comm (_ / _)), Qmult_div_r in Hm by lra.
    by rewrite Qmult_comm. }
  rewrite Zle_Qle, inject_Z_plus in Hsum. lra.
Qed.

(** X21.  [detect_preference_patterns] never reports both that the
    system is actively learning (more than 60% of the preferences
    inferred) and that the user prefers explicit control (more than 70%
    manual): the two signals exclude each other. *)
Theorem learning_and_manual_signals_exclude_each_other db found db' :
  PreferencePatterns.detect_preference_patterns (Some db) = (Success found, db') ->
  ~ (In "learning_active"
       (map PreferencePatterns.pattern_type (PreferencePatterns.patterns found))
     /\ In "manual_preference"
          (map PreferencePatterns.pattern_type (PreferencePatterns.patterns found))).
Proof.
  unfold PreferencePatterns.detect_preference_patterns, method.
  destruct (user_preferences db) as [|p0 prefs] eqn:Hprefs;
    [cbn; intros [= <- _] [[] _]|].
  destruct (for_each _ [] (p0 :: prefs)) as [e|by_category]; [cbn; discriminate|].
  cbn [bind]. destruct (for_each _ [] by_category) as [e|cats] eqn:Hcats;
    [cbn; discriminate|].
  apply category_patterns_typed in Hcats; [|constructor].
  cbn [bind]. destruct (for_each _ [] (p0 :: prefs)) as [e|source_counts] eqn:Hcounts;
    [cbn; discriminate|].
  pose proof (source_counts_bound _ _ _ Hcounts 0 ltac:(done) ltac:(done) ltac:(done))
    as Hbound. clear Hcounts.
  cbn [bind ret]. intros [= <- _]. cbn [PreferencePatterns.patterns].
  set (total := Z.of_nat (length (p0 :: prefs))) in *.
  assert (Htotal : 0 < total) by (subst total; cbn [length]; lia).
  assert (Hcat : ~ In "learning_active" (map PreferencePatterns.pattern_type cats)
                 /\ ~ In "manual_preference" (map PreferencePatterns.pattern_type cats)).
  { rewrite Forall_forall in Hcats.
    split; intros (p & Hty & Hp%list_elem_of_In)%in_map_iff;
      rewrite (Hcats p Hp) in Hty; discriminate. }
  destruct Hcat as [Hnl Hnm].
  destruct (Qltb (6 # 10) _) eqn:Hi; destruct (Qltb (7 # 10) _) eqn:Hm;
    rewrite ?map_app, ?in_app_iff; cbn.
  - intros _. eapply ratios_exclude; [exact Htotal| |exact Hi|exact Hm]. subst total. lia.
  - intros [_ [?|[?|[]]]]; [done|discriminate].
  - intros [[?|[?|[]]] _]; [done|discriminate].
  - intros [? _]. done.
Qed.

Lemma one_manual_preference_is_explicit_control :
  PreferencePatterns.detect_preference_patterns (Some voice_store)
  = (Success voice_patterns, Some voice_store)
  /\ ~ (In "learning_active"
          (map PreferencePatterns.pattern_type (PreferencePatterns.patterns voice_patterns))
        /\ In "manual_preference"
             (map PreferencePatterns.pattern_type
                (PreferencePatterns.patterns voice_patterns))).
Proof.
  split; [by_computation|].
  apply (learning_and_manual_signals_exclude_each_other voice_store voice_patterns
           (Some voice_store)).
  by_computation.
Defined.

(* ===================================================================== *)
(** ** The stored habits (habit_learning.py)                              *)
(* ===================================================================== *)



(* ===================================================================== *)
(** ** What the behavioural analysis stores (preference_manager.py)       *)
(* ===================================================================== *)

Lemma typed_preferences (c : collection) :
  forallb is_typed_preference c = true -> Forall typed_preference c.
Proof.
  intros Hc. apply Forall_forall. intros r Hr%list_elem_of_In.
  rewrite forallb_forall in Hc. specialize (Hc r Hr).
  unfold is_typed_preference in Hc. unfold typed_preference.
  destruct (r !! "category") as [[]|]; try done.
  destruct (r !! "key") as [[]|]; try done.
  split; by eexists.
Qed.

(** A typed preference answers to one pair of category and key. *)
Lemma typed_preference_matches category key (d : dict) c k :
  d !! "category" = Some (VStr c) -> d !! "key" = Some (VStr k) ->
  matches (preference_query category key) d
  = bool_decide (c = category) && bool_decide (k = key).
Proof.
  intros Hc Hk. unfold matches, preference_query. cbn [forallb clause_match cond_match].
  rewrite Hc, Hk, !eq_match_str, andb_true_r by done.
  f_equal; apply bool_decide_ext; split; congruence.
Qed.

Lemma find_one_app_miss (q : query) (c : collection) (d : dict) :
  matches q d = false -> find_one q (c ++ [d]) = find_one q c.
Proof.
  intros Hd. unfold find_one. induction c as [|x c IH]; cbn; [by rewrite Hd|].
  by destruct (matches q x).
Qed.

Lemma find_one_replace (q : query) (pre post : collection) (d d' : dict) :
  matches q d' = matches q d ->
  matches q d = false ->
  find_one q (pre ++ d' :: post) = find_one q (pre ++ d :: post).
Proof.
  intros Hsame Hd. unfold find_one. induction pre as [|x pre IH]; cbn.
  - by rewrite Hsame, Hd.
  - by destruct (matches q x).
Qed.

(** What one [set_preference] does to a typed store: the store stays
    typed, the pair reads back what was set, every other pair reads what
    it read before. *)
Lemma set_preference_effect now category key v source confidence db :
  Forall typed_preference (user_preferences db) ->
  exists db' d,
    PreferenceManager.set_preference now category key v source confidence (Some db)
    = (Success ("pref_" +:+ pretty (millis now)), Some db')
    /\ Forall typed_preference (user_preferences db')
    /\ stored_preference category key db' = Some d
    /\ d !! "value" = Some v
    /\ d !! "source" = Some (VStr source)
    /\ d !! "confidence" = Some (VNum (clamp01 confidence))
    /\ forall category' key',
         (category', key') <> (category, key) ->
         stored_preference category' key' db' = stored_preference category' key' db.
Proof.
  intros Htyped.
  assert (Hnew : forall d0 : dict,
            let d := assign (PreferenceManager.preference now category key v source
                               confidence) d0 in
            d !! "category" = Some (VStr category) /\ d !! "key" = Some (VStr key)
            /\ d !! "value" = Some v /\ d !! "source" = Some (VStr source)
            /\ d !! "confidence" = Some (VNum (clamp01 confidence))).
  { intros d0. cbn [assign fold_left PreferenceManager.preference fst snd].
    by lookup_fields. }
  unfold PreferenceManager.set_preference, method, update_one_upsert, stored_preference.
  fold (preference_query category key).
  destruct (update_one_spec (preference_query category key)
              (set_fields (PreferenceManager.preference now category key v source
                             confidence))
              (user_preferences db))
    as [[Hnil ->]|(pre & d & post & Hc & Hpre & Hd & ->)].
  - cbn [bind ret fst snd]. rewrite apply_update_set_fields. cbn [bind ret fst snd].
    destruct (Hnew (upsert_seed (preference_query category key)))
      as (Hcat & Hkey & Hv & Hs & Hconf).
    eexists _, _. split; [reflexivity|].
    cbn [user_preferences PreferenceManager._log_preference_change
           set_preference_history set_user_preferences].
    split; [apply Forall_app; split; [done|]; repeat constructor; by eexists|].
    split; [apply find_one_last; [done|by apply preference_query_matches]|].
    repeat (split; [done|]).
    intros category' key' Hother. unfold insert_one. apply find_one_app_miss.
    rewrite (typed_preference_matches _ _ _ _ _ Hcat Hkey).
    apply andb_false_iff. destruct (decide (category = category')) as [<-|?].
    + right. apply bool_decide_eq_false_2. congruence.
    + left. by apply bool_decide_eq_false_2.
  - rewrite apply_update_set_fields. cbn [bind ret fst snd].
    destruct (Hnew d) as (Hcat & Hkey & Hv & Hs & Hconf).
    rewrite Hc in Htyped. apply Forall_app in Htyped as [Htpre Htrest].
    apply Forall_cons in Htrest as [[[c0 Hc0] [k0 Hk0]] Htpost].
    rewrite (typed_preference_matches _ _ _ _ _ Hc0 Hk0) in Hd.
    apply andb_prop in Hd as [<-%bool_decide_eq_true <-%bool_decide_eq_true].
    eexists _, _. split; [reflexivity|].
    cbn [user_preferences PreferenceManager._log_preference_change
           set_preference_history set_user_preferences].
    split; [apply Forall_app; split; [done|]; constructor; [split; by eexists|done]|].
    split; [apply find_one_first; [done|by apply preference_query_matches]|].
    repeat (split; [done|]).
    intros category' key' Hother. rewrite Hc. apply find_one_replace.
    + by rewrite (typed_preference_matches _ _ _ _ _ Hcat Hkey),
        (typed_preference_matches _ _ _ _ _ Hc0 Hk0).
    + rewrite (typed_preference_matches _ _ _ _ _ Hc0 Hk0).
      apply andb_false_iff. destruct (decide (c0 = category')) as [<-|?].
      * right. apply bool_decide_eq_false_2. congruence.
      * left. by apply bool_decide_eq_false_2.
Qed.

Lemma last_candidate_cons category key p (candidates : list PreferenceManager.pattern) :
  last_candidate category key (p :: candidates)
  = match last_candidate category key candidates with
    | Some q => Some q
    | None =>
        if String.eqb (PreferenceManager.category p) category
           && String.eqb (PreferenceManager.key p) key && confident p
        then Some p else None
    end.
Proof.
  unfold last_candidate. cbn [rev]. set (f := fun p => _).
  induction (rev candidates) as [|x l IH]; cbn; [done|]. by destruct (f x).
Qed.

(** The loop of the analysis over its candidates. *)
Lemma store_patterns_run now (candidates : list PreferenceManager.pattern) stored_count db :
  Forall typed_preference (user_preferences db) ->
  exists db',
    PreferenceManager.store_patterns now candidates stored_count (Some db)
    = ((stored_count + length (List.filter confident candidates))%nat, Some db')
    /\ Forall typed_preference (user_preferences db')
    /\ forall category key,
         match last_candidate category key candidates with
         | Some p =>
             exists d, stored_preference category key db' = Some d
                       /\ d !! "value" = Some (PreferenceManager.value_ p)
                       /\ d !! "source" = Some (VStr "inferred")
                       /\ d !! "confidence"
                          = Some (VNum (clamp01 (PreferenceManager.confidence p)))
         | None => stored_preference category key db' = stored_preference category key db
         end.
Proof.
  revert stored_count db. induction candidates as [|p candidates IH];
    intros stored_count db Htyped.
  - exists db. cbn. rewrite Nat.add_0_r. by repeat split.
  - cbn [PreferenceManager.store_patterns List.filter]. fold (confident p).
    destruct (confident p) eqn:Hp.
    + unfold PreferenceManager.learn_preference.
      assert (Hlow : Qltb (PreferenceManager.confidence p) (3 # 10) = false).
      { apply Qltb_false. unfold confident in Hp. apply Qle_bool_iff in Hp. lra. }
      rewrite Hlow.
      destruct (set_preference_effect now (PreferenceManager.category p)
                  (PreferenceManager.key p) (PreferenceManager.value_ p) "inferred"
                  (PreferenceManager.confidence p) db Htyped)
        as (db1 & d & -> & Htyped1 & Hstored & Hv & Hs & Hconf & Hother).
      cbn [fst snd is_success].
      destruct (IH (S stored_count) db1 Htyped1) as (db' & -> & Htyped' & Hlast).
      exists db'. split; [f_equal; cbn [length]; lia|]. split; [done|].
      intros category key. rewrite last_candidate_cons. specialize (Hlast category key).
      destruct (last_candidate category key candidates) as [q|]; [done|].
      rewrite Hp, andb_true_r.
      destruct (String.eqb_spec (PreferenceManager.category p) category) as [<-|Hc];
        [destruct (String.eqb_spec (PreferenceManager.key p) key) as [<-|Hk]|]; cbn.
      * exists d. by rewrite Hlast.
      * rewrite Hlast. apply Hother. congruence.
      * rewrite Hlast. apply Hother. congruence.
    + destruct (IH stored_count db Htyped) as (db' & -> & Htyped' & Hlast).
      exists db'. split; [done|]. split; [done|].
      intros category key. rewrite last_candidate_cons. specialize (Hlast category key).
      destruct (last_candidate category key candidates) as [q|]; [done|].
      by rewrite Hp, andb_false_r.
Qed.

(** X23.  When the start of the window, [days] before now, is a date,
    [analyze_behavior_for_preferences] succeeds.  It counts as learned
    every candidate of confidence 0.6 or more, and it stores them one
    after the other under their category and key: where several
    candidates share a category and key, as the up to three applications
    of [preferred_app] do, the preference that [get_preference] reads
    afterwards is the last of them, the least used of the applications
    found, with source inferred. *)
Theorem the_last_candidate_of_a_key_is_the_one_stored now days db :
  cutoff_exists now days = true ->
  Forall typed_preference (user_preferences db) ->
  exists found db',
    PreferenceManager.analyze_behavior_for_preferences now days (Some db)
    = (Success found, Some db')
    /\ PreferenceManager.patterns_detected found
       = length (PreferenceManager.patterns found)
    /\ PreferenceManager.preferences_learned found
       = length (List.filter confident (PreferenceManager.patterns found))
    /\ forall category key p,
         last_candidate category key (PreferenceManager.patterns found) = Some p ->
         PreferenceManager.get_preference category key (Some db')
         = (Success (Some (PreferenceManager.value_ p), Some (VStr "inferred"),
                     Some (VNum (clamp01 (PreferenceManager.confidence p)))),
            Some db').
Proof.
  intros Hdate Htyped. unfold PreferenceManager.analyze_behavior_for_preferences.
  rewrite (days_before_exists _ _ Hdate). cbn [ret].
  match goal with |- context [PreferenceManager.store_patterns now ?ps 0 _] =>
    destruct (store_patterns_run now ps 0 db Htyped) as (db' & -> & _ & Hlast)
  end.
  cbn [fst snd]. eexists _, db'. split; [reflexivity|].
  cbn [PreferenceManager.patterns_detected PreferenceManager.preferences_learned
         PreferenceManager.patterns].
  split; [done|]. split; [done|].
  intros category key p Hp. specialize (Hlast category key). rewrite Hp in Hlast.
  destruct Hlast as (d & Hd & Hv & Hs & Hconf).
  by rewrite (get_preference_stored _ _ _ _ Hd), Hv, Hs, Hconf.
Qed.

(** Chrome was opened three times and the editor twice: the analysis
    finds both as [preferred_app], counts three learned preferences with
    the time of day, and leaves the editor as the preferred
    application. *)
Lemma the_less_used_application_becomes_preferred :
  let run := PreferenceManager.analyze_behavior_for_preferences (today + 60 * minute) 7
               (Some apps_store) in
  PreferenceManager.get_preference "behavior" "preferred_app" run.2
  = (Success (Some (VStr "Editor"), Some (VStr "inferred"),
              Some (VNum (qmin (95 # 100) ((5 # 10) + PreferenceManager.ratio 2 5)))),
     run.2)
  /\ exists found db',
       run = (Success found, Some db')
       /\ PreferenceManager.patterns_detected found
          = length (PreferenceManager.patterns found)
       /\ PreferenceManager.preferences_learned found
          = length (List.filter confident (PreferenceManager.patterns found))
       /\ forall category key p,
            last_candidate category key (PreferenceManager.patterns found) = Some p ->
            PreferenceManager.get_preference category key (Some db')
            = (Success (Some (PreferenceManager.value_ p), Some (VStr "inferred"),
                        Some (VNum (clamp01 (PreferenceManager.confidence p)))),
               Some db').
Proof.
  intros run. split; [by_computation|].
  apply (the_last_candidate_of_a_key_is_the_one_stored (today + 60 * minute) 7 apps_store).
  - vm_compute. reflexivity.
  - constructor.
Defined.
